(** * Custom sliders: the settings tree, its operations and the two host hooks

    A shallow embedding of [src/index.ts] (the collections version, the second
    unit of the source file; the sliders-only version, its first unit, is the
    module [Legacy]).  The persisted settings tree is a list of slider
    collections; every handler of the source becomes a function from the
    settings before the call to the settings after it, paired with the side
    effects it requests from the host (toasts, the debounced save, re-renders).

    Conventions.
    - JavaScript numbers are IEEE-754 binary64 values: the kernel's primitive
      [float], compared with [PrimFloat.ltb] (false on NaN, as [<] and [>]).
    - Arrays are lists; an object reference into an array is the index of the
      entry ([find] returns the first match, so does [list_find]).  Entries of
      a collection list are pairwise distinct objects in the source.
    - The settings are typed as the interfaces of the source declare them.
      The objects of the request handler, whose keys are data, are modelled
      with their prototype and their own properties in the order of
      [Object.keys].
    - JavaScript built-ins and the [yaml] package are not code of the repository:
      they are the methods of the class [Builtins], and every general theorem
      holds for any implementation of them.  [Ref] gives executable reference
      implementations, used to run the model on concrete inputs.
    - Answers of the user (prompt text, confirmation) and the state of the host
      page are arguments of the handlers. *)

From Stdlib Require Import ZArith Floats String Ascii List Lia.
From stdpp Require Import base tactics option list strings pretty.

Open Scope string_scope.
Open Scope list_scope.

(** ** Data model *)

Module SliderModel.
Record t := mk {
  name : string;
  property : string;
  min : string;
  max : string;
  step : string;
  value : float;
  enabled : bool;
}.

Definition set_name (v : string) (s : t) : t :=
  mk v (property s) (min s) (max s) (step s) (value s) (enabled s).
Definition set_property (v : string) (s : t) : t :=
  mk (name s) v (min s) (max s) (step s) (value s) (enabled s).
Definition set_min (v : string) (s : t) : t :=
  mk (name s) (property s) v (max s) (step s) (value s) (enabled s).
Definition set_max (v : string) (s : t) : t :=
  mk (name s) (property s) (min s) v (step s) (value s) (enabled s).
Definition set_step (v : string) (s : t) : t :=
  mk (name s) (property s) (min s) (max s) v (value s) (enabled s).
Definition set_value (v : float) (s : t) : t :=
  mk (name s) (property s) (min s) (max s) (step s) v (enabled s).
Definition set_enabled (v : bool) (s : t) : t :=
  mk (name s) (property s) (min s) (max s) (step s) (value s) v.
End SliderModel.

Module SliderCollection.
Record t := mk {
  active : bool;
  name : string;
  sliders : list SliderModel.t;
  presets : list string;
}.

Definition set_active (v : bool) (c : t) : t :=
  mk v (name c) (sliders c) (presets c).
Definition set_sliders (v : list SliderModel.t) (c : t) : t :=
  mk (active c) (name c) v (presets c).
Definition set_presets (v : list string) (c : t) : t :=
  mk (active c) (name c) (sliders c) v.
End SliderCollection.

Record ExtensionSettings := { collections : list SliderCollection.t }.

(** [globalSettings[MODULE_NAME]] as [getSettings] can find it: falsy, an
    object whose key [collections] is undefined (settings written by the
    sliders-only version), or a settings object. *)
Inductive GlobalSettings :=
| NamespaceAbsent
| CollectionsUndefined
| NamespacePresent (settings : ExtensionSettings).

Record ChatCompletionRequestData := {
  chat_completion_source : string;
  custom_include_body : string;
}.

(** What the handlers read from the host and from the page. *)
Record Host := {
  (** [chatCompletionSettings.chat_completion_source] *)
  completion_source : string;
  (** [chatCompletionSettings.preset_settings_openai]; empty when none *)
  preset_settings_openai : string;
  (** the range block holds the sliders container, or a native range control
      after which the container can be inserted *)
  container_available : bool;
  (** ids of the elements of the document outside the sliders container *)
  document_ids : list string;
}.

(** ** Values returned by the parsers *)

(** A JavaScript value as [JSON.parse] and [yaml.parse] return it: plain data.
    The fields of an object are its own properties, all of them enumerable and
    writable data properties, in the order in which [Object.keys] lists them;
    its prototype is [Object.prototype], that of an array [Array.prototype].
    (Both parsers define a member named [__proto__] as an own property.)
    Values are taken up to the identity of the objects. *)
#[local] Unset Elimination Schemes.
Inductive JsValue :=
| VNull
| VBool (b : bool)
| VNum (n : float)
| VStr (s : string)
| VArray (items : list JsValue)
| VObject (fields : list (string * JsValue)).
#[local] Set Elimination Schemes.

(** The own properties of an object, in the order of [Object.keys]. *)
Definition Properties := list (string * JsValue).

(** [Array.isArray] *)
Definition isArray (v : JsValue) : bool :=
  match v with VArray _ => true | _ => false end.

(** The entries of an array. *)
Definition arrayItems (v : JsValue) : list JsValue :=
  match v with VArray items => items | _ => [] end.

(** The value of the own property [key]; [None] when there is none. *)
Fixpoint lookupKey (key : string) (l : Properties) : option JsValue :=
  match l with
  | [] => None
  | (k, w) :: rest => if String.eqb k key then Some w else lookupKey key rest
  end.

Definition hasKey (key : string) (l : Properties) : bool :=
  match lookupKey key l with Some _ => true | None => false end.

(** ** Plain objects

    The request handler builds its two objects from the literal [{}] by
    assignments [obj[key] = v], its own and those of [Object.assign].  An
    assignment is the operation [[Set]] of an ordinary object.  A key the
    object owns keeps its place and takes the value.  A new key becomes an own
    property: the keys that are array indices are listed first, in ascending
    order, the others after them in the order of their creation.  The one key
    for which the prototype chain matters is [__proto__]: [Object.prototype]
    has a setter under that name, and an assignment that reaches it creates no
    property; it replaces the prototype of the object when the value is an
    object, an array or null, and does nothing for any other value.  The
    prototype is therefore part of the state of an object: once it is null,
    or an object that owns a property [__proto__], the setter is out of reach
    and the assignment creates an own property as for any other key.  (All
    other inherited properties are writable data properties; they do not
    change what an assignment does.) *)

Inductive Prototype :=
| ObjectPrototype
| NullPrototype
| ParsedObject (fields : Properties)
| ParsedArray (items : list JsValue).

Record JsObject := {
  prototype : Prototype;
  properties : Properties;
}.

(** An object as a literal makes it: its prototype is [Object.prototype]. *)
Definition objectLiteral (l : Properties) : JsObject :=
  {| prototype := ObjectPrototype; properties := l |}.

(** The literal [{}]. *)
Definition emptyObject : JsObject := objectLiteral [].

(** The own property of [obj] under [key]; [None] when [obj] has none. *)
Definition getProperty (key : string) (obj : JsObject) : option JsValue :=
  lookupKey key (properties obj).

Definition isDecimalDigit (c : ascii) : bool :=
  Nat.leb 48 (nat_of_ascii c) && Nat.leb (nat_of_ascii c) 57.

Fixpoint digitsValue (acc : N) (s : string) : option N :=
  match s with
  | EmptyString => Some acc
  | String c rest =>
    if isDecimalDigit c
    then digitsValue (10 * acc + N.of_nat (nat_of_ascii c - 48)) rest
    else None
  end.

(** The array index a key denotes: the key is the decimal text, without a
    leading zero, of an integer below [2 ^ 32 - 1]. *)
Definition arrayIndex (key : string) : option N :=
  match key with
  | EmptyString => None
  | String c rest =>
    if Ascii.eqb c "0" && negb (String.eqb rest "") then None
    else
      match digitsValue 0 key with
      | Some n => if (n <? 4294967295)%N then Some n else None
      | None => None
      end
  end.

(** The place of a new array index [n] among the own properties: behind the
    indices below it.  (No property has the index [n] itself: the key is
    new.) *)
Fixpoint insertIndexed (n : N) (key : string) (v : JsValue) (l : Properties)
  : Properties :=
  match l with
  | [] => [(key, v)]
  | (k, w) :: rest =>
    match arrayIndex k with
    | Some m =>
      if (m <=? n)%N then (k, w) :: insertIndexed n key v rest
      else (key, v) :: l
    | None => (key, v) :: l
    end
  end.

(** A new own property. *)
Definition createProperty (key : string) (v : JsValue) (l : Properties)
  : Properties :=
  match arrayIndex key with
  | Some n => insertIndexed n key v l
  | None => l ++ [(key, v)]
  end.

(** A new value for the own property [key]. *)
Fixpoint updateProperty (key : string) (v : JsValue) (l : Properties)
  : Properties :=
  match l with
  | [] => []
  | (k, w) :: rest =>
    if String.eqb k key then (k, v) :: rest
    else (k, w) :: updateProperty key v rest
  end.

(** [CreateDataProperty], as the parsers define the members of an object. *)
Definition defineProperty (key : string) (v : JsValue) (l : Properties)
  : Properties :=
  if hasKey key l then updateProperty key v l else createProperty key v l.

(** Whether an assignment to [__proto__] on an object with this prototype
    and no own property of that name reaches the setter of
    [Object.prototype]: no property [__proto__] is met on the way. *)
Definition reachesSetter (p : Prototype) : bool :=
  match p with
  | ObjectPrototype => true
  | NullPrototype => false
  | ParsedObject fields => negb (hasKey "__proto__" fields)
  | ParsedArray _ => true
  end.

(** The setter of [Object.prototype.__proto__], called on [obj]. *)
Definition setPrototype (v : JsValue) (obj : JsObject) : JsObject :=
  match v with
  | VObject fields =>
    {| prototype := ParsedObject fields; properties := properties obj |}
  | VArray items =>
    {| prototype := ParsedArray items; properties := properties obj |}
  | VNull => {| prototype := NullPrototype; properties := properties obj |}
  | VBool _ | VNum _ | VStr _ => obj
  end.

(** [obj[key] = v] *)
Definition setProperty (key : string) (v : JsValue) (obj : JsObject)
  : JsObject :=
  if hasKey key (properties obj) then
    {| prototype := prototype obj;
       properties := updateProperty key v (properties obj) |}
  else if String.eqb key "__proto__" && reachesSetter (prototype obj) then
    setPrototype v obj
  else
    {| prototype := prototype obj;
       properties := createProperty key v (properties obj) |}.

(** [Object.assign(target, source)]; [source] is given by its own properties,
    which is all that [Object.assign] reads of it. *)
Definition objectAssign (target : JsObject) (source : Properties) : JsObject :=
  fold_left (fun acc kv => setProperty (fst kv) (snd kv) acc) source target.

(** ** The entries of an import file

    The settings of the model hold sliders as records of the types the
    interface [SliderModel] declares.  The cast [as SliderModel[]] of the
    import handler is unchecked: the source stores the entries of the parsed
    array as they are.  An entry that is an object holding the seven fields
    of the interface, each of its declared type, is the slider [asSliderModel]
    reads from it; [sliderJson] is the converse, with the fields in the order
    in which the export writes them.  For any other entry the record keeps the
    well-typed fields and reads a field that is missing or ill-typed as the
    empty string, NaN or false; what the handlers do with the sliders of a
    collection imported from such a file is outside the model, which then
    follows the source in the names, the flags and the bindings of the
    collections only. *)
Definition stringField (key : string) (fields : Properties) : string :=
  match lookupKey key fields with Some (VStr s) => s | _ => "" end.

Definition numberField (key : string) (fields : Properties) : float :=
  match lookupKey key fields with Some (VNum n) => n | _ => PrimFloat.nan end.

Definition boolField (key : string) (fields : Properties) : bool :=
  match lookupKey key fields with Some (VBool b) => b | _ => false end.

Definition asSliderModel (v : JsValue) : SliderModel.t :=
  let fields := match v with VObject fields => fields | _ => [] end in
  SliderModel.mk (stringField "name" fields) (stringField "property" fields)
                 (stringField "min" fields) (stringField "max" fields)
                 (stringField "step" fields) (numberField "value" fields)
                 (boolField "enabled" fields).

(** The object [JSON.parse] returns for the text the export writes for a
    slider whose value is finite. *)
Definition sliderJson (x : SliderModel.t) : JsValue :=
  VObject [("name", VStr (SliderModel.name x));
           ("property", VStr (SliderModel.property x));
           ("min", VStr (SliderModel.min x));
           ("max", VStr (SliderModel.max x));
           ("step", VStr (SliderModel.step x));
           ("value", VNum (SliderModel.value x));
           ("enabled", VBool (SliderModel.enabled x))].

Inductive ToastLevel := ToastInfo | ToastSuccess | ToastWarning | ToastError.

Inductive Effect :=
| Toast (level : ToastLevel) (message : string)
| SaveSettingsDebounced
| RenderSliderConfigs
| RenderCompletionSliders.

(** ** Built-ins *)

Class Builtins := {
  (** [parseFloat] *)
  parseFloat : string -> float;
  (** [CSS.escape] *)
  css_escape : string -> string;
  (** [JSON.parse]; [None] when it throws *)
  json_parse : string -> option JsValue;
  (** [yaml.parse]; [None] when it throws *)
  yaml_parse : string -> option JsValue;
  (** [yaml.stringify] of a plain object *)
  yaml_stringify : JsObject -> string;
}.

(** Truthiness of a string: [!s] holds of the empty string only. *)
Definition truthy (s : string) : bool := negb (String.eqb s "").

(** [s] between double quotes, for the texts of the toasts. *)
Definition inQuotes (s : string) : string :=
  String "034"%char s +:+ String "034"%char "".

(** ** The settings store accessor *)

(** The defaults, as the source declares them.  (The source pushes the default
    collection object itself into an empty list; the model gives the list an
    entry with the declared fields.) *)
Definition defaultCollection : SliderCollection.t :=
  SliderCollection.mk true "Default" [] [].

Definition defaultSettings : ExtensionSettings :=
  {| collections := [defaultCollection] |}.

Definition someActive (l : list SliderCollection.t) : bool :=
  existsb SliderCollection.active l.

Definition getSettings (g : GlobalSettings) : ExtensionSettings :=
  (* initialise the namespace, then backfill the missing default keys *)
  let settings :=
    match g with
    | NamespaceAbsent => defaultSettings
    | CollectionsUndefined => defaultSettings
    | NamespacePresent s => s
    end in
  (* ensure at least one collection exists *)
  let cols :=
    if Nat.eqb (length (collections settings)) 0
    then collections settings ++ [defaultCollection]
    else collections settings in
  (* ensure at least one active collection *)
  let cols :=
    if negb (someActive cols)
    then alter (SliderCollection.set_active true) 0 cols
    else cols in
  {| collections := cols |}.

(** Number of collections whose [active] flag is set. *)
Definition activeCount (l : list SliderCollection.t) : nat :=
  length (filter (fun c => SliderCollection.active c = true) l).

(** ** Handlers as actions on the settings *)

Definition Action := ExtensionSettings -> ExtensionSettings * list Effect.

Definition emit (e : Effect) : Action := fun s => (s, [e]).

Definition modify (f : ExtensionSettings -> ExtensionSettings) : Action :=
  fun s => (f s, []).

Definition andThen (a b : Action) : Action :=
  fun s => let '(s1, e1) := a s in let '(s2, e2) := b s1 in (s2, e1 ++ e2).

Notation "a >>> b" := (andThen a b) (at level 65, right associativity).

(** [settings.collections.find(c => c.active)]: index and entry. *)
Definition findActive (settings : ExtensionSettings)
  : option (nat * SliderCollection.t) :=
  list_find (fun c => SliderCollection.active c = true) (collections settings).

(** [settings.collections.find(c => c.name === name)] *)
Definition findNamed (name : string) (settings : ExtensionSettings)
  : option (nat * SliderCollection.t) :=
  list_find (fun c => SliderCollection.name c = name) (collections settings).

(** [settings.collections.find(c => c.presets.includes(presetName))] *)
Definition findWithPreset (presetName : string) (settings : ExtensionSettings)
  : option (nat * SliderCollection.t) :=
  list_find (fun c => presetName ∈ SliderCollection.presets c)
            (collections settings).

Definition alterCollection (f : SliderCollection.t -> SliderCollection.t)
    (i : nat) (settings : ExtensionSettings) : ExtensionSettings :=
  {| collections := alter f i (collections settings) |}.

Definition alterSliders (f : list SliderModel.t -> list SliderModel.t)
    (c : SliderCollection.t) : SliderCollection.t :=
  SliderCollection.set_sliders (f (SliderCollection.sliders c)) c.

(** [settings.collections.forEach(c => { c.active = false; })] followed by
    [settings.collections.push(newCollection)]. *)
Definition pushActive (c : SliderCollection.t) (settings : ExtensionSettings)
  : ExtensionSettings :=
  {| collections :=
       map (SliderCollection.set_active false) (collections settings) ++ [c] |}.

(** *** The live controls *)

(** What the render assigns to the elements of a control before it appends
    the control: the text of the title, the id of the range input, and the
    attributes [min], [max], [step] and [value] it gives to the range input
    and to the number input alike.  The number input gets the id of the range
    input followed by [_number].  The record holds what the script assigns,
    not what the page shows afterwards. *)
Record RangeControl := {
  control_id : string;
  control_title : string;
  control_min : string;
  control_max : string;
  control_step : string;
  (** [slider.value]: its text, [slider.value.toString()], is assigned to the
      [value] of both inputs.  (A range input sanitises the text it is given
      against its own [min], [max] and [step]; the number it then displays is
      not part of the model.) *)
  control_assigned_value : float;
  control_hidden : bool;
}.

Section Handlers.
Context {B : Builtins}.

(** The two guarded assignments of [renderCompletionSliders]. *)
Definition clampValue (s : SliderModel.t) : SliderModel.t :=
  let s :=
    if PrimFloat.ltb (SliderModel.value s) (parseFloat (SliderModel.min s))
    then SliderModel.set_value (parseFloat (SliderModel.min s)) s else s in
  if PrimFloat.ltb (parseFloat (SliderModel.max s)) (SliderModel.value s)
  then SliderModel.set_value (parseFloat (SliderModel.max s)) s else s.

(** The guard at the head of the loop body: the slider gets no control. *)
Definition skipped (s : SliderModel.t) : bool :=
  negb (SliderModel.enabled s)
  || negb (truthy (SliderModel.property s))
  || negb (truthy (SliderModel.name s)).

Definition sliderId (s : SliderModel.t) : string :=
  css_escape ("custom_slider_" +:+ SliderModel.property s).

Definition controlOf (host : Host) (s : SliderModel.t) : RangeControl :=
  {| control_id := sliderId s;
     control_title := SliderModel.name s;
     control_min := SliderModel.min s;
     control_max := SliderModel.max s;
     control_step := SliderModel.step s;
     control_assigned_value := SliderModel.value s;
     control_hidden := negb (String.eqb (completion_source host) "custom") |}.

(** The loop over the sliders of the active collection.  [ids] are the ids
    present in the document when the slider is reached; a control that is
    appended adds the id of its range input and of its number input. *)
Fixpoint renderSliders (host : Host) (ids : list string)
    (l : list SliderModel.t)
  : list SliderModel.t * list RangeControl * list Effect :=
  match l with
  | [] => ([], [], [])
  | s :: rest =>
    if skipped s then
      let '(l', cs, fx) := renderSliders host ids rest in (s :: l', cs, fx)
    else
      let s' := clampValue s in
      if bool_decide (sliderId s' ∈ ids) then
        let '(l', cs, fx) := renderSliders host ids rest in
        (s' :: l', cs,
         Toast ToastWarning
           ("Duplicate slider property name: " +:+ SliderModel.property s')
         :: fx)
      else
        let '(l', cs, fx) :=
          renderSliders host (ids ++ [sliderId s'; sliderId s' +:+ "_number"])
                        rest in
        (s' :: l', controlOf host s' :: cs, fx)
  end.

Definition renderCompletionSliders (host : Host)
    (settings : ExtensionSettings)
  : ExtensionSettings * list RangeControl * list Effect :=
  if negb (container_available host) then (settings, [], [])
  else
    match findActive settings with
    | None => (settings, [], [])
    | Some (i, c) =>
      let '(l', cs, fx) :=
        renderSliders host (document_ids host) (SliderCollection.sliders c) in
      (alterCollection (SliderCollection.set_sliders l') i settings, cs, fx)
    end.

(** A call of [renderCompletionSliders] from a handler, as an action. *)
Definition rerenderCompletionSliders (host : Host) : Action :=
  fun settings =>
    let '(s', _, fx) := renderCompletionSliders host settings in
    (s', RenderCompletionSliders :: fx).

(** [renderSliderConfigs]: the rows of the configuration panel and the
    collection selector are rebuilt from the settings and keep none of their
    own state; what reaches the settings is the call of
    [renderCompletionSliders] at its end. *)
Definition renderSliderConfigs (host : Host) : Action :=
  fun settings =>
    match findActive settings with
    | None => (settings, [RenderSliderConfigs])
    | Some _ =>
      let '(s', _, fx) := renderCompletionSliders host settings in
      (s', RenderSliderConfigs :: fx)
    end.

(** *** Collections *)

(** The [change] handler of the collection selector. *)
Definition onCollectionsChange (host : Host) (selectedName : string)
  : Action :=
  modify (fun settings =>
    {| collections :=
         map (fun c => SliderCollection.set_active
                         (bool_decide (SliderCollection.name c = selectedName)) c)
             (collections settings) |})
  >>> emit SaveSettingsDebounced
  >>> renderSliderConfigs host.

(** [processImport]; [newName] is the answer to the prompt. *)
Definition processImport (host : Host) (newName : option string)
    (parsedSliders : list SliderModel.t) : Action :=
  fun settings =>
    match newName with
    | None => (settings, [])
    | Some newName =>
      if negb (truthy newName) then (settings, [])
      else
        match findNamed newName settings with
        | Some _ =>
          (settings,
           [Toast ToastWarning "Collection with this name already exists."])
        | None =>
          (modify (pushActive
                     (SliderCollection.mk true newName parsedSliders []))
           >>> emit SaveSettingsDebounced
           >>> renderSliderConfigs host
           >>> emit (Toast ToastSuccess
                      ("Imported " +:+ pretty (length parsedSliders)
                       +:+ " sliders into collection " +:+ inQuotes newName
                       +:+ ".")))
            settings
        end
    end.

(** The [onload] handler of the import file reader. *)
Definition onImportFileLoaded (host : Host) (fileContent : string)
    (newName : option string) : Action :=
  fun settings =>
    match json_parse fileContent with
    | None => (settings, [Toast ToastError "Failed to parse JSON file."])
    | Some parsedSliders =>
      if negb (isArray parsedSliders) then
        (settings, [Toast ToastError "Invalid JSON file format."])
      else
        processImport host newName
                      (map asSliderModel (arrayItems parsedSliders)) settings
    end.

Definition deleteCollection (host : Host) (confirm : bool) : Action :=
  fun global =>
    let settings := getSettings (NamespacePresent global) in
    if Nat.eqb (length (collections settings)) 1 then
      (settings, [Toast ToastWarning "Cannot delete the last collection."])
    else
      match findActive settings with
      | None => (settings, [])
      | Some (collectionIndex, _) =>
        if negb confirm then (settings, [])
        else
          (modify (fun s =>
             {| collections :=
                  alter (SliderCollection.set_active true) 0
                        (delete collectionIndex (collections s)) |})
           >>> emit SaveSettingsDebounced
           >>> renderSliderConfigs host) settings
      end.

Definition createCollection (host : Host) (name : option string) : Action :=
  fun global =>
    let settings := getSettings (NamespacePresent global) in
    match name with
    | None => (settings, [])
    | Some name =>
      if negb (truthy name) then (settings, [])
      else
        match findNamed name settings with
        | Some _ =>
          (settings,
           [Toast ToastWarning "Collection with this name already exists."])
        | None =>
          (modify (pushActive (SliderCollection.mk true name [] []))
           >>> emit SaveSettingsDebounced
           >>> renderSliderConfigs host) settings
        end
    end.

(** [array.indexOf(x)]; [None] for the source's [-1]. *)
Definition indexOf (x : string) (l : list string) : option nat :=
  fst <$> list_find (fun y => y = x) l.

(** [array.splice(start, 1)], where [start] is the result of [indexOf]: a
    start of [-1] counts from the end and removes the last entry. *)
Definition spliceOne (start : option nat) (l : list string) : list string :=
  match start with
  | Some i => delete i l
  | None => delete (length l - 1) l
  end.

Definition unbind (presetName : string) (c : SliderCollection.t)
  : SliderCollection.t :=
  SliderCollection.set_presets
    (spliceOne (indexOf presetName (SliderCollection.presets c))
               (SliderCollection.presets c)) c.

Definition bind (presetName : string) (c : SliderCollection.t)
  : SliderCollection.t :=
  SliderCollection.set_presets (SliderCollection.presets c ++ [presetName]) c.

Definition bindToPreset (host : Host) : Action :=
  fun global =>
    let settings := getSettings (NamespacePresent global) in
    let presetName := preset_settings_openai host in
    if negb (truthy presetName) then
      (settings, [Toast ToastWarning "No Chat Completion preset selected."])
    else
      match findActive settings with
      | None => (settings, [])
      | Some (activeIndex, activeCollection) =>
        match findWithPreset presetName settings with
        | Some (withPreset, collectionWithPreset) =>
          (modify (alterCollection (unbind presetName) withPreset)
           >>> (if negb (Nat.eqb withPreset activeIndex) then
                  emit (Toast ToastWarning
                          ("The preset will be unbound from another collection "
                           +:+ inQuotes (SliderCollection.name collectionWithPreset)
                           +:+ "."))
                  >>> modify (alterCollection (bind presetName) activeIndex)
                else modify id)
           >>> emit SaveSettingsDebounced
           >>> renderSliderConfigs host) settings
        | None =>
          (modify (alterCollection (bind presetName) activeIndex)
           >>> emit (Toast ToastInfo
                       ("Selecting the preset " +:+ inQuotes presetName
                        +:+ " will now automatically pick the sliders collection "
                        +:+ inQuotes (SliderCollection.name activeCollection)
                        +:+ "."))
           >>> emit SaveSettingsDebounced
           >>> renderSliderConfigs host) settings
        end
      end.

(** *** Sliders of the active collection *)

(** An update of the slider array of the collection [find] returns; nothing
    happens when no collection is active. *)
Definition withActiveSliders
    (f : list SliderModel.t -> list SliderModel.t) : Action :=
  fun settings =>
    match findActive settings with
    | None => (settings, [])
    | Some (i, _) => (alterCollection (alterSliders f) i settings, [])
    end.

Definition newSlider : SliderModel.t :=
  SliderModel.mk "New Slider" "" "0" "1" "0.01" 0%float true.

Definition createSlider (host : Host) : Action :=
  fun global =>
    let settings := getSettings (NamespacePresent global) in
    match findActive settings with
    | None => (settings, [])
    | Some _ =>
      (withActiveSliders (cons newSlider) >>> renderSliderConfigs host)
        settings
    end.

(** The [input] and [change] handlers of the row rendered for the slider at
    [index]: one field of that slider is overwritten. *)
Definition onSliderFieldInput (host : Host) (index : nat)
    (update : SliderModel.t -> SliderModel.t) : Action :=
  withActiveSliders (alter update index)
  >>> rerenderCompletionSliders host
  >>> emit SaveSettingsDebounced.

Definition onNameInput host index (v : string) : Action :=
  onSliderFieldInput host index (SliderModel.set_name v).
Definition onPropertyInput host index (v : string) : Action :=
  onSliderFieldInput host index (SliderModel.set_property v).
Definition onMinInput host index (v : string) : Action :=
  onSliderFieldInput host index (SliderModel.set_min v).
Definition onMaxInput host index (v : string) : Action :=
  onSliderFieldInput host index (SliderModel.set_max v).
Definition onStepInput host index (v : string) : Action :=
  onSliderFieldInput host index (SliderModel.set_step v).
Definition onEnabledChange host index (v : bool) : Action :=
  onSliderFieldInput host index (SliderModel.set_enabled v).

Definition onDeleteClick (host : Host) (index : nat) (confirm : bool)
  : Action :=
  fun settings =>
    if negb confirm then (settings, [])
    else
      match findActive settings with
      | None => (settings, [])
      | Some _ =>
        (withActiveSliders (delete index)
         >>> renderSliderConfigs host
         >>> emit SaveSettingsDebounced) settings
      end.

(** [temp = a[j]; a[j] = a[i]; a[i] = temp].  Both indices are inside the
    array whenever a reorder handler runs (its row was rendered from the
    array); outside it the source would store [undefined], which no slider
    array of the model holds, and the array is left as it is. *)
Definition swapEntries (i j : nat) (l : list SliderModel.t)
  : list SliderModel.t :=
  match l !! i, l !! j with
  | Some x, Some y => <[i := y]> (<[j := x]> l)
  | _, _ => l
  end.

Definition onUpClick (host : Host) (index : nat) : Action :=
  fun settings =>
    if Nat.ltb 0 index then
      match findActive settings with
      | None => (settings, [])
      | Some _ =>
        (withActiveSliders (swapEntries index (index - 1))
         >>> renderSliderConfigs host
         >>> emit SaveSettingsDebounced) settings
      end
    else (settings, []).

Definition onDownClick (host : Host) (index : nat) : Action :=
  fun settings =>
    match findActive settings with
    | None => (settings, [])
    | Some (_, activeCollection) =>
      if Nat.ltb index (length (SliderCollection.sliders activeCollection) - 1)
      then
        (withActiveSliders (swapEntries index (index + 1))
         >>> renderSliderConfigs host
         >>> emit SaveSettingsDebounced) settings
      else (settings, [])
    end.

(** The [input] handler of the range input rendered for the slider at
    [index]; [text] is the value of the input. *)
Definition onRangeInput (index : nat) (text : string) : Action :=
  withActiveSliders (alter (SliderModel.set_value (parseFloat text)) index)
  >>> emit SaveSettingsDebounced.

(** *** The event bridge *)

Definition mergeYamlIntoObject (obj : JsObject) (yamlString : string)
  : JsObject :=
  if negb (truthy yamlString) then obj
  else
    match yaml_parse yamlString with
    | Some (VArray items) =>
      fold_left (fun acc item =>
                   match item with
                   | VObject fields => objectAssign acc fields
                   | _ => acc
                   end) items obj
    | Some (VObject fields) => objectAssign obj fields
    | Some _ => obj
    | None => obj
    end.

(** The [reduce] over the enabled sliders. *)
Definition sliderValues (l : list SliderModel.t) : JsObject :=
  fold_left
    (fun acc slider =>
       if truthy (SliderModel.property slider)
          && negb (PrimFloat.is_nan (SliderModel.value slider))
       then setProperty (SliderModel.property slider)
                        (VNum (SliderModel.value slider)) acc
       else acc)
    (filter (fun s => SliderModel.enabled s = true) l) emptyObject.

(** The object handed to [yaml.stringify]. *)
Definition customBody (activeCollection : SliderCollection.t)
    (data : ChatCompletionRequestData) : JsObject :=
  objectAssign (mergeYamlIntoObject emptyObject (custom_include_body data))
               (properties
                  (sliderValues (SliderCollection.sliders activeCollection))).

(** The handler of [CHAT_COMPLETION_SETTINGS_READY]: the request descriptor
    after the call. *)
Definition onChatCompletionSettingsReady (settings : ExtensionSettings)
    (data : ChatCompletionRequestData) : ChatCompletionRequestData :=
  if negb (String.eqb (chat_completion_source data) "custom") then data
  else
    match findActive settings with
    | None => data
    | Some (_, activeCollection) =>
      {| chat_completion_source := chat_completion_source data;
         custom_include_body :=
           yaml_stringify (customBody activeCollection data) |}
    end.

(** The handler of [OAI_PRESET_CHANGED_AFTER]. *)
Definition onPresetChanged (host : Host) : Action :=
  fun settings =>
    let presetName := preset_settings_openai host in
    match findActive settings with
    | None => (settings, [])
    | Some (activeIndex, _) =>
      match findWithPreset presetName settings with
      | Some (withPreset, _) =>
        if negb (Nat.eqb withPreset activeIndex) then
          (modify (alterCollection (SliderCollection.set_active true)
                                   withPreset)
           >>> modify (alterCollection (SliderCollection.set_active false)
                                       activeIndex)
           >>> emit SaveSettingsDebounced
           >>> renderSliderConfigs host) settings
        else (settings, [])
      | None => (settings, [])
      end
    end.

(** [init]: the settings the handlers are registered on. *)
Definition init (host : Host) (global : GlobalSettings)
  : ExtensionSettings * list Effect :=
  (renderSliderConfigs host >>> emit SaveSettingsDebounced)
    (getSettings global).
End Handlers.

(** ** Reference implementations of the built-ins

    Executable counterparts of the methods of [Builtins], to run the handlers
    on concrete inputs.  [parseFloat] follows the grammar of
    [StrDecimalLiteral] and rounds to the nearest binary64 value; white space
    is the ASCII white space.  [numberToString] is [Number::toString].
    [css_escape] is the serialisation of an identifier.  [json_parse] reads
    the JSON grammar.  The YAML codec follows the package on a fragment.
    [yaml_stringify] writes block mappings and block sequences; a key or a
    string for which [isPlainSafe] holds is a plain scalar, any other string
    is written between double quotes (where the package chooses among more
    styles, and folds long lines).  [yaml_parse] reads single scalars and
    block mappings of scalars, one entry a line, with plain or double-quoted
    keys and values; a document outside that fragment is reported as an
    error. *)

Module Ref.

Definition code (c : ascii) : nat := nat_of_ascii c.

Definition isDigit (c : ascii) : bool :=
  Nat.leb 48 (code c) && Nat.leb (code c) 57.

Definition isWhiteSpace (c : ascii) : bool :=
  (Nat.leb 9 (code c) && Nat.leb (code c) 13) || Nat.eqb (code c) 32.

Fixpoint span (p : ascii -> bool) (l : list ascii)
  : list ascii * list ascii :=
  match l with
  | c :: rest =>
    if p c then let '(a, b) := span p rest in (c :: a, b) else ([], l)
  | [] => ([], [])
  end.

Definition digitsToZ (ds : list ascii) : Z :=
  fold_left (fun acc c => (10 * acc + Z.of_nat (code c - 48))%Z) ds 0%Z.

Fixpoint startsWith (p l : list ascii) : option (list ascii) :=
  match p, l with
  | [], _ => Some l
  | c :: p', d :: l' => if Ascii.eqb c d then startsWith p' l' else None
  | _ :: _, [] => None
  end.

(** The binary64 value nearest to [num / den], ties to even, for [0 <= num]
    and [0 < den]: a quotient of at least 66 bits, its lowest bit set when the
    division is inexact, rounded once by the format's own rounding. *)
Definition nearestRatio (num den : Z) : float :=
  if Z.eqb num 0 then 0%float
  else
    let s := Z.max 0 (66 + Z.log2 den - Z.log2 num) in
    let q := (num * 2 ^ s / den)%Z in
    let r := ((num * 2 ^ s) mod den)%Z in
    SF2Prim (binary_normalize prec emax
               (2 * q + (if Z.eqb r 0 then 0 else 1)) (- s - 1) false).

(** The number value of [m * 10 ^ e10], negated when [neg]. *)
Definition decimalValue (neg : bool) (m e10 : Z) : float :=
  let v := if Z.leb 0 e10 then nearestRatio (m * 10 ^ e10) 1
           else nearestRatio m (10 ^ (- e10)) in
  if neg then PrimFloat.opp v else v.

Definition scanSign (l : list ascii) : bool * list ascii :=
  match l with
  | "-"%char :: rest => (true, rest)
  | "+"%char :: rest => (false, rest)
  | _ => (false, l)
  end.

(** The longest prefix of [l] that is a [StrDecimalLiteral], as its value and
    the text after it. *)
Definition scanDecimal (l : list ascii) : option (float * list ascii) :=
  let '(neg, l0) := scanSign l in
  match startsWith (list_ascii_of_string "Infinity") l0 with
  | Some rest =>
    Some (if neg then PrimFloat.neg_infinity else PrimFloat.infinity, rest)
  | None =>
    let '(ip, l1) := span isDigit l0 in
    let '(fp, l2) :=
      match l1 with
      | "."%char :: r => span isDigit r
      | _ => ([], l1)
      end in
    match ip, fp with
    | [], [] => None
    | _, _ =>
      let '(e, l3) :=
        match l2 with
        | c :: r =>
          if Ascii.eqb c "e" || Ascii.eqb c "E" then
            let '(eneg, r1) := scanSign r in
            let '(ed, r2) := span isDigit r1 in
            match ed with
            | [] => (0%Z, l2)
            | _ => ((if eneg then - digitsToZ ed else digitsToZ ed)%Z, r2)
            end
          else (0%Z, l2)
        | [] => (0%Z, l2)
        end in
      Some (decimalValue neg (digitsToZ (ip ++ fp))
                         (e - Z.of_nat (length fp)), l3)
    end
  end.

Definition parseFloat (s : string) : float :=
  match scanDecimal (snd (span isWhiteSpace (list_ascii_of_string s))) with
  | Some (v, _) => v
  | None => PrimFloat.nan
  end.


(** *** [Number::toString] *)

Definition roundedQuotient (a b : Z) : Z :=
  let q := (a / b)%Z in
  let r := (a mod b)%Z in
  match (2 * r ?= b)%Z with
  | Lt => q
  | Gt => (q + 1)%Z
  | Eq => if Z.even q then q else (q + 1)%Z
  end.

(** [num / den] scaled by [10 ^ (- scale)], rounded to an integer. *)
Definition scaledDigits (num den scale : Z) : Z :=
  if Z.leb 0 scale then roundedQuotient num (den * 10 ^ scale)
  else roundedQuotient (num * 10 ^ (- scale)) den.

(** [10 ^ n <= num / den] *)
Definition reaches (num den n : Z) : bool :=
  if Z.leb 0 n then Z.leb (den * 10 ^ n) num
  else Z.leb den (num * 10 ^ (- n)).

(** The [n] with [10 ^ (n - 1) <= num / den < 10 ^ n]. *)
Fixpoint adjustExponent (fuel : nat) (num den n : Z) : Z :=
  match fuel with
  | O => n
  | S fuel =>
    if reaches num den n then adjustExponent fuel num den (n + 1)
    else if reaches num den (n - 1) then n
    else adjustExponent fuel num den (n - 1)
  end.

Definition decimalExponent (num den : Z) : Z :=
  adjustExponent 8 num den
    ((Z.log2 num - Z.log2 den) * 30103 / 100000 + 1).

(** The shortest digit string [s] of [k <= 17] digits, with its exponent [n],
    such that [s * 10 ^ (n - k)] reads back as [v]. *)
Fixpoint shortestDigits (fuel : nat) (k : Z) (v : float) (num den n : Z)
  : Z * Z * Z :=
  let s := scaledDigits num den (n - k) in
  let '(s, n') := if Z.eqb s (10 ^ k) then (10 ^ (k - 1), n + 1)%Z
                  else (s, n) in
  match fuel with
  | O => (s, k, n')
  | S fuel =>
    if PrimFloat.eqb (decimalValue false s (n' - k)) v then (s, k, n')
    else shortestDigits fuel (k + 1) v num den n
  end.

Definition zeros (n : Z) : string :=
  string_of_list_ascii (repeat "0"%char (Z.to_nat n)).

Definition formatDigits (s k n : Z) : string :=
  let ds := pretty (Z.to_N s) in
  if Z.leb k n && Z.leb n 21 then ds +:+ zeros (n - k)
  else if Z.ltb 0 n && Z.leb n 21 then
    substring 0 (Z.to_nat n) ds +:+ "."
    +:+ substring (Z.to_nat n) (Z.to_nat (k - n)) ds
  else if Z.ltb (-6) n && Z.leb n 0 then "0." +:+ zeros (- n) +:+ ds
  else
    (if Z.eqb k 1 then ds
     else substring 0 1 ds +:+ "." +:+ substring 1 (Z.to_nat (k - 1)) ds)
    +:+ "e" +:+ (if Z.ltb (n - 1) 0 then "-" else "+")
    +:+ pretty (Z.to_N (Z.abs (n - 1))).

Definition numberToString (v : float) : string :=
  match Prim2SF v with
  | S754_zero _ => "0"
  | S754_nan => "NaN"
  | S754_infinity neg => if neg then "-Infinity" else "Infinity"
  | S754_finite neg m e =>
    let num := if Z.leb 0 e then (Z.pos m * 2 ^ e)%Z else Z.pos m in
    let den := if Z.leb 0 e then 1%Z else (2 ^ (- e))%Z in
    let '(s, k, n) :=
      shortestDigits 16 1 (PrimFloat.abs v) num den (decimalExponent num den) in
    (if neg then "-" else "") +:+ formatDigits s k n
  end.

(** *** [CSS.escape] *)

Definition hexDigit (n : nat) : ascii :=
  ascii_of_nat (if Nat.ltb n 10 then 48 + n else 87 + n).

Definition hex (n : nat) : string :=
  if Nat.ltb n 16 then String (hexDigit n) ""
  else String (hexDigit (n / 16)) (String (hexDigit (n mod 16)) "").

Definition escapedAsCodePoint (c : ascii) : string :=
  "\" +:+ hex (code c) +:+ " ".

Definition isNameChar (c : ascii) : bool :=
  Nat.leb 128 (code c) || Ascii.eqb c "-" || Ascii.eqb c "_" || isDigit c
  || (Nat.leb 65 (code c) && Nat.leb (code c) 90)
  || (Nat.leb 97 (code c) && Nat.leb (code c) 122).

Fixpoint escapeFrom (index : nat) (first : ascii) (l : list ascii) : string :=
  match l with
  | [] => ""
  | c :: rest =>
    (if Nat.eqb (code c) 0 then
       String (ascii_of_nat 239)
         (String (ascii_of_nat 191) (String (ascii_of_nat 189) ""))
     else if Nat.leb (code c) 31 || Nat.eqb (code c) 127 then
       escapedAsCodePoint c
     else if Nat.eqb index 0 && isDigit c then escapedAsCodePoint c
     else if Nat.eqb index 1 && isDigit c && Ascii.eqb first "-" then
       escapedAsCodePoint c
     else if Nat.eqb index 0 && Ascii.eqb c "-"
             && match rest with [] => true | _ => false end then "\-"
     else if isNameChar c then String c ""
     else String "\" (String c ""))
    +:+ escapeFrom (S index) first rest
  end.

Definition css_escape (s : string) : string :=
  match list_ascii_of_string s with
  | [] => ""
  | c :: rest => escapeFrom 0 c (c :: rest)
  end.

(** *** [JSON.parse] *)

Definition quote : ascii := "034"%char.

Definition skipWhite (l : list ascii) : list ascii :=
  snd (span (fun c => Nat.eqb (code c) 32 || Nat.eqb (code c) 9
                      || Nat.eqb (code c) 10 || Nat.eqb (code c) 13) l).

Definition hexValue (c : ascii) : option nat :=
  let n := code c in
  if isDigit c then Some (n - 48)
  else if Nat.leb 97 n && Nat.leb n 102 then Some (n - 87)
  else if Nat.leb 65 n && Nat.leb n 70 then Some (n - 55)
  else None.

(** The UTF-8 bytes of a code unit below [2 ^ 16]. *)
Definition utf8 (n : nat) : list ascii :=
  if Nat.ltb n 128 then [ascii_of_nat n]
  else if Nat.ltb n 2048 then
    [ascii_of_nat (192 + n / 64); ascii_of_nat (128 + n mod 64)]
  else
    [ascii_of_nat (224 + n / 4096); ascii_of_nat (128 + n / 64 mod 64);
     ascii_of_nat (128 + n mod 64)].

(** The characters of a string literal after its opening quote, and the text
    after its closing quote. *)
Fixpoint scanString (l : list ascii) : option (list ascii * list ascii) :=
  match l with
  | [] => None
  | c :: rest =>
    if Ascii.eqb c quote then Some ([], rest)
    else if Nat.ltb (code c) 32 then None
    else if Ascii.eqb c "\" then
      match rest with
      | e :: rest' =>
        let simple (x : nat) :=
          match scanString rest' with
          | Some (cs, r) => Some (ascii_of_nat x :: cs, r)
          | None => None
          end in
        if Ascii.eqb e quote then simple 34
        else if Ascii.eqb e "\" then simple 92
        else if Ascii.eqb e "/" then simple 47
        else if Ascii.eqb e "b" then simple 8
        else if Ascii.eqb e "f" then simple 12
        else if Ascii.eqb e "n" then simple 10
        else if Ascii.eqb e "r" then simple 13
        else if Ascii.eqb e "t" then simple 9
        else if Ascii.eqb e "u" then
          match rest' with
          | h1 :: h2 :: h3 :: h4 :: rest'' =>
            match hexValue h1, hexValue h2, hexValue h3, hexValue h4,
                  scanString rest'' with
            | Some a, Some b, Some c', Some d, Some (cs, r) =>
              Some (utf8 (((a * 16 + b) * 16 + c') * 16 + d) ++ cs, r)
            | _, _, _, _, _ => None
            end
          | _ => None
          end
        else None
      | [] => None
      end
    else
      match scanString rest with
      | Some (cs, r) => Some (c :: cs, r)
      | None => None
      end
  end.

(** A JSON number: no sign but [-], no leading zero before another digit, a
    digit on both sides of the point. *)
Definition scanJsonNumber (l : list ascii) : option (float * list ascii) :=
  let digits := match l with "-"%char :: r => r | _ => l end in
  let '(ip, l1) := span isDigit digits in
  let fractionOk :=
    match l1 with
    | "."%char :: r => match fst (span isDigit r) with [] => false | _ => true end
    | _ => true
    end in
  match ip with
  | [] => None
  | "0"%char :: _ :: _ => None
  | _ => if fractionOk then scanDecimal l else None
  end.

(** The object of the members of a text, defined one by one in the order of
    the text: of two members with one key the object keeps the place of the
    first and the value of the last, and the keys that are array indices are
    listed first. *)
Definition objectOf (members : list (string * JsValue)) : Properties :=
  fold_left (fun acc kv => defineProperty (fst kv) (snd kv) acc) members [].

Fixpoint parseValue (fuel : nat) (l : list ascii)
  : option (JsValue * list ascii) :=
  match fuel with
  | O => None
  | S fuel =>
    match skipWhite l with
    | [] => None
    | c :: rest =>
      if Ascii.eqb c "[" then
        match skipWhite rest with
        | "]"%char :: r => Some (VArray [], r)
        | _ =>
          match parseElements fuel rest with
          | Some (items, r) => Some (VArray items, r)
          | None => None
          end
        end
      else if Ascii.eqb c "{" then
        match skipWhite rest with
        | "}"%char :: r => Some (VObject [], r)
        | _ =>
          match parseMembers fuel rest with
          | Some (fields, r) => Some (VObject (objectOf fields), r)
          | None => None
          end
        end
      else if Ascii.eqb c quote then
        match scanString rest with
        | Some (cs, r) => Some (VStr (string_of_list_ascii cs), r)
        | None => None
        end
      else
        match startsWith (list_ascii_of_string "true") (c :: rest),
              startsWith (list_ascii_of_string "false") (c :: rest),
              startsWith (list_ascii_of_string "null") (c :: rest) with
        | Some r, _, _ => Some (VBool true, r)
        | _, Some r, _ => Some (VBool false, r)
        | _, _, Some r => Some (VNull, r)
        | None, None, None =>
          match scanJsonNumber (c :: rest) with
          | Some (v, r) => Some (VNum v, r)
          | None => None
          end
        end
    end
  end
with parseElements (fuel : nat) (l : list ascii)
  : option (list JsValue * list ascii) :=
  match fuel with
  | O => None
  | S fuel =>
    match parseValue fuel l with
    | Some (v, r) =>
      match skipWhite r with
      | ","%char :: r' =>
        match parseElements fuel r' with
        | Some (vs, r'') => Some (v :: vs, r'')
        | None => None
        end
      | "]"%char :: r' => Some ([v], r')
      | _ => None
      end
    | None => None
    end
  end
with parseMembers (fuel : nat) (l : list ascii)
  : option (list (string * JsValue) * list ascii) :=
  match fuel with
  | O => None
  | S fuel =>
    match skipWhite l with
    | c :: rest =>
      if Ascii.eqb c quote then
        match scanString rest with
        | Some (k, r) =>
          match skipWhite r with
          | ":"%char :: r' =>
            match parseValue fuel r' with
            | Some (v, r'') =>
              match skipWhite r'' with
              | ","%char :: r3 =>
                match parseMembers fuel r3 with
                | Some (fs, r4) => Some ((string_of_list_ascii k, v) :: fs, r4)
                | None => None
                end
              | "}"%char :: r3 => Some ([(string_of_list_ascii k, v)], r3)
              | _ => None
              end
            | None => None
            end
          | _ => None
          end
        | None => None
        end
      else None
    | [] => None
    end
  end.

Definition json_parse (text : string) : option JsValue :=
  let l := list_ascii_of_string text in
  match parseValue (2 * length l + 2) l with
  | Some (v, rest) =>
    match skipWhite rest with
    | [] => Some v
    | _ => None
    end
  | None => None
  end.

(** *** [yaml.stringify] and [yaml.parse] *)

Definition newline : string := String (ascii_of_nat 10) "".

Definition yamlNumber (v : float) : string :=
  match Prim2SF v with
  | S754_nan => ".nan"
  | S754_infinity neg => if neg then "-.inf" else ".inf"
  | S754_zero true => "-0"
  | _ => numberToString v
  end.

Definition oneOf (text : string) (l : list string) : bool :=
  existsb (String.eqb text) l.

(** The integer a text denotes in base 16 or 8, after its prefix. *)
Definition radixValue (radix : nat) (ds : list ascii) : option Z :=
  match ds with
  | [] => None
  | _ =>
    fold_left
      (fun acc c =>
         match acc, hexValue c with
         | Some n, Some d =>
           if Nat.ltb d radix then Some (Z.of_nat radix * n + Z.of_nat d)%Z
           else None
         | _, _ => None
         end) ds (Some 0%Z)
  end.

Definition prefixedInteger (text : string) : option Z :=
  match list_ascii_of_string text with
  | "0"%char :: "x"%char :: ds => radixValue 16 ds
  | "0"%char :: "o"%char :: ds => radixValue 8 ds
  | _ => None
  end.

(** The value a plain scalar resolves to in the core schema. *)
Definition resolvePlain (text : string) : JsValue :=
  if oneOf text [""; "~"; "null"; "Null"; "NULL"] then VNull
  else if oneOf text ["true"; "True"; "TRUE"] then VBool true
  else if oneOf text ["false"; "False"; "FALSE"] then VBool false
  else if oneOf text [".nan"; ".NaN"; ".NAN"] then VNum PrimFloat.nan
  else if oneOf text [".inf"; ".Inf"; ".INF"; "+.inf"; "+.Inf"; "+.INF"]
  then VNum PrimFloat.infinity
  else if oneOf text ["-.inf"; "-.Inf"; "-.INF"] then VNum PrimFloat.neg_infinity
  else
    match prefixedInteger text with
    | Some n => VNum (nearestRatio n 1)
    | None =>
      match scanDecimal (list_ascii_of_string text) with
      | Some (v, []) =>
        if existsb (Ascii.eqb "I") (list_ascii_of_string text) then VStr text
        else VNum v
      | _ => VStr text
      end
    end.

Definition isPlainChar (c : ascii) : bool :=
  isNameChar c || Ascii.eqb c "." || Ascii.eqb c "/".

(** The strings written as plain scalars: made of letters, digits and the
    characters [_ - . /], not starting with a dash or a full stop, and not
    the text of null, a boolean or a number. *)
Definition isPlainSafe (text : string) : bool :=
  match list_ascii_of_string text with
  | [] => false
  | c :: rest =>
    negb (Ascii.eqb c "-") && negb (Ascii.eqb c ".")
    && forallb isPlainChar (c :: rest)
    && match resolvePlain text with VStr _ => true | _ => false end
  end.

Fixpoint escapeChars (l : list ascii) : string :=
  match l with
  | [] => ""
  | c :: rest =>
    (if Ascii.eqb c quote then String "\" (String quote "")
     else if Ascii.eqb c "\" then "\\"
     else if Nat.eqb (code c) 10 then "\n"
     else if Nat.eqb (code c) 9 then "\t"
     else if Nat.ltb (code c) 32 then
       "\u00" +:+ String (hexDigit (code c / 16))
                         (String (hexDigit (code c mod 16)) "")
     else String c "")
    +:+ escapeChars rest
  end.

Definition quoted (text : string) : string :=
  String quote (escapeChars (list_ascii_of_string text)) +:+ String quote "".

Definition stringText (text : string) : string :=
  if isPlainSafe text then text else quoted text.

(** The text of a value that takes no line of its own: a scalar or an empty
    collection; [None] for a collection with entries. *)
Definition inlineText (v : JsValue) : option string :=
  match v with
  | VNull => Some "null"
  | VBool b => Some (if b then "true" else "false")
  | VNum n => Some (yamlNumber n)
  | VStr s => Some (stringText s)
  | VArray [] => Some "[]"
  | VObject [] => Some "{}"
  | VArray (_ :: _) | VObject (_ :: _) => None
  end.

Definition indented (lines : list string) : list string :=
  map (fun line => "  " +:+ line) lines.

(** An entry of a block mapping: the value on the line of the key, or on the
    lines below it, indented. *)
Definition mappingEntry (key : string) (v : JsValue) (below : list string)
  : list string :=
  match inlineText v with
  | Some text => [stringText key +:+ ": " +:+ text]
  | None => (stringText key +:+ ":") :: indented below
  end.

(** An entry of a block sequence: a collection starts on the line of the
    dash. *)
Definition sequenceEntry (v : JsValue) (below : list string) : list string :=
  match inlineText v with
  | Some text => ["- " +:+ text]
  | None =>
    match below with
    | [] => ["-"]
    | first :: rest => ("- " +:+ first) :: indented rest
    end
  end.

(** The lines of a collection in block style. *)
Fixpoint blockLines (v : JsValue) : list string :=
  match v with
  | VArray items =>
    (fix entries (l : list JsValue) : list string :=
       match l with
       | [] => []
       | w :: l' => sequenceEntry w (blockLines w) ++ entries l'
       end) items
  | VObject fields =>
    (fix entries (l : list (string * JsValue)) : list string :=
       match l with
       | [] => []
       | (k, w) :: l' => mappingEntry k w (blockLines w) ++ entries l'
       end) fields
  | _ => []
  end.

Definition documentText (v : JsValue) : string :=
  match inlineText v with
  | Some text => text +:+ newline
  | None => fold_right (fun line text => line +:+ newline +:+ text) ""
                       (blockLines v)
  end.

(** The package writes an object as a mapping of its own properties, unless
    the object is iterable, which here means that its prototype is an array:
    it then writes the sequence the iteration yields, the entries of that
    array when the object owns no index and no [length]. *)
Definition yaml_stringify (obj : JsObject) : string :=
  match prototype obj with
  | ParsedArray items => documentText (VArray items)
  | _ => documentText (VObject (properties obj))
  end.

Fixpoint splitLines (current : list ascii) (l : list ascii)
  : list (list ascii) :=
  match l with
  | [] => [rev current]
  | c :: rest =>
    if Nat.eqb (code c) 10 then rev current :: splitLines [] rest
    else splitLines (c :: current) rest
  end.

Definition isBlank (c : ascii) : bool :=
  Nat.eqb (code c) 32 || Nat.eqb (code c) 9 || Nat.eqb (code c) 13.

Definition trimRight (l : list ascii) : list ascii :=
  rev (snd (span isBlank (rev l))).

Definition trim (l : list ascii) : list ascii :=
  snd (span isBlank (trimRight l)).

(** The text of a plain key: up to the first colon that ends the line or is
    followed by a blank. *)
Fixpoint scanPlainKey (l : list ascii) : option (list ascii * list ascii) :=
  match l with
  | [] => None
  | c :: rest =>
    if Ascii.eqb c ":"
       && match rest with [] => true | d :: _ => isBlank d end
    then Some ([], rest)
    else
      match scanPlainKey rest with
      | Some (k, r) => Some (c :: k, r)
      | None => None
      end
  end.

(** A plain scalar ends where a blank is followed by the comment sign. *)
Fixpoint stripComment (l : list ascii) : list ascii :=
  match l with
  | c :: (d :: _) as rest =>
    if isBlank c && Ascii.eqb d "#" then [] else c :: stripComment rest
  | _ => l
  end.

(** Whether a text can be read as a plain scalar of the fragment: it does
    not start with an indicator or with a document marker. *)
Definition startsPlain (l : list ascii) : bool :=
  match l with
  | [] => true
  | c :: rest =>
    negb (existsb (Ascii.eqb c)
            (list_ascii_of_string "!&*'|>@`%,#[]{}" ++ [quote]))
    && negb ((Ascii.eqb c "-" || Ascii.eqb c "?" || Ascii.eqb c ":")
             && match rest with [] => true | d :: _ => isBlank d end)
    && match startsWith (list_ascii_of_string "---") l,
             startsWith (list_ascii_of_string "...") l with
       | None, None => true
       | _, _ => false
       end
  end.

(** Whether a blank is followed by the comment sign. *)
Fixpoint hasComment (l : list ascii) : bool :=
  match l with
  | c :: (d :: _) as rest =>
    (isBlank c && Ascii.eqb d "#") || hasComment rest
  | _ => false
  end.

Definition parseScalar (l : list ascii) : option JsValue :=
  match trim l with
  | c :: rest =>
    if Ascii.eqb c quote then
      match scanString rest with
      | Some (cs, []) => Some (VStr (string_of_list_ascii cs))
      | _ => None
      end
    else if Ascii.eqb c "{" then
      match rest with "}"%char :: [] => Some (VObject []) | _ => None end
    else if Ascii.eqb c "[" then
      match rest with "]"%char :: [] => Some (VArray []) | _ => None end
    else if Ascii.eqb c "#" then Some VNull
    else
      let plain := trimRight (stripComment (c :: rest)) in
      if negb (startsPlain plain) then None
      else
        match scanPlainKey plain with
        | Some _ => None
        | None => Some (resolvePlain (string_of_list_ascii plain))
        end
  | [] => Some VNull
  end.

(** The key of the object for a plain key of the mapping: the text of the
    value the key resolves to. *)
Definition keyText (k : list ascii) : string :=
  match resolvePlain (string_of_list_ascii k) with
  | VStr text => text
  | VNum n => numberToString n
  | VBool b => if b then "true" else "false"
  | _ => ""
  end.

Definition parseEntry (line : list ascii) : option (string * JsValue) :=
  match line with
  | c :: rest =>
    let key :=
      if Ascii.eqb c quote then
        match scanString rest with
        | Some (k, ":"%char :: r) => Some (string_of_list_ascii k, r)
        | _ => None
        end
      else if isBlank c || negb (startsPlain line) then None
      else
        match scanPlainKey line with
        | Some (k, r) =>
          if hasComment k || Nat.ltb 1024 (length k) then None
          else Some (keyText (trimRight k), r)
        | None => None
        end in
    match key with
    | Some (k, r) =>
      match parseScalar r with
      | Some v => Some (k, v)
      | None => None
      end
    | None => None
    end
  | [] => None
  end.

Fixpoint parseEntries (seen : list string) (lines : list (list ascii))
  : option (list (string * JsValue)) :=
  match lines with
  | [] => Some []
  | line :: rest =>
    match parseEntry line with
    | Some (k, v) =>
      if oneOf k seen then None
      else
        match parseEntries (k :: seen) rest with
        | Some fields => Some ((k, v) :: fields)
        | None => None
        end
    | None => None
    end
  end.

Definition isContent (line : list ascii) : bool :=
  match trim line with
  | [] => false
  | c :: _ => negb (Ascii.eqb c "#")
  end.

Definition yaml_parse (text : string) : option JsValue :=
  match filter (fun line => isContent line = true)
               (map trimRight (splitLines [] (list_ascii_of_string text))) with
  | [] => Some VNull
  | [line] =>
    match parseEntry line with
    | Some (k, v) => Some (VObject [(k, v)])
    | None =>
      match line with
      | c :: _ =>
        if isBlank c || Ascii.eqb c "#" then None
        else
          match scanPlainKey line with
          | Some _ => None
          | None => parseScalar line
          end
      | [] => None
      end
    end
  | lines =>
    match parseEntries [] lines with
    | Some fields => Some (VObject (objectOf fields))
    | None => None
    end
  end.

End Ref.

Definition referenceBuiltins : Builtins :=
  {| parseFloat := Ref.parseFloat;
     css_escape := Ref.css_escape;
     json_parse := Ref.json_parse;
     yaml_parse := Ref.yaml_parse;
     yaml_stringify := Ref.yaml_stringify |}.

(** * The export, the import prompt and the hint *)

(** The file the export handler offers for download. *)
Record Download := {
  download_name : string;
  download_content : string;
}.

Section ExportHandler.
(** [JSON.stringify(sliders, null, 4)] *)
Variable json_stringify : list SliderModel.t -> string.

(** The [click] handler of the export control. *)
Definition onExportClick (settings : ExtensionSettings) : option Download :=
  match findActive settings with
  | None => None
  | Some (_, activeCollection) =>
    Some {| download_name := SliderCollection.name activeCollection +:+ ".json";
            download_content :=
              json_stringify (SliderCollection.sliders activeCollection) |}
  end.
End ExportHandler.

(** [s.split('.').shift()]: the text before the first full stop, all of [s]
    when it has none. *)
Fixpoint firstSegment (s : string) : string :=
  match s with
  | EmptyString => ""
  | String c rest =>
    if Ascii.eqb c "."%char then "" else String c (firstSegment rest)
  end.

(** [file.name.split('.').shift() || 'imported']: the name the import prompt
    suggests for the new collection. *)
Definition importFileName (fileName : string) : string :=
  if truthy (firstSegment fileName) then firstSegment fileName
  else "imported".


(** * The sliders-only version

    The first unit of the source file: the settings are one slider array, a
    slider has no [enabled] flag and there are no collections.  The built-ins,
    the effects, the live controls and [mergeYamlIntoObject], whose text is
    the same in both units, are shared with the collections version. *)

Module Legacy.

Module SliderModel.
Record t := mk {
  name : string;
  property : string;
  min : string;
  max : string;
  step : string;
  value : float;
}.

Definition set_name (v : string) (s : t) : t :=
  mk v (property s) (min s) (max s) (step s) (value s).
Definition set_property (v : string) (s : t) : t :=
  mk (name s) v (min s) (max s) (step s) (value s).
Definition set_min (v : string) (s : t) : t :=
  mk (name s) (property s) v (max s) (step s) (value s).
Definition set_max (v : string) (s : t) : t :=
  mk (name s) (property s) (min s) v (step s) (value s).
Definition set_step (v : string) (s : t) : t :=
  mk (name s) (property s) (min s) (max s) v (value s).
Definition set_value (v : float) (s : t) : t :=
  mk (name s) (property s) (min s) (max s) (step s) v.
End SliderModel.

Record ExtensionSettings := { sliders : list SliderModel.t }.

(** [globalSettings[MODULE_NAME]] as [getSettings] can find it: falsy, an
    object whose key [sliders] is undefined, or a settings object. *)
Inductive GlobalSettings :=
| NamespaceAbsent
| SlidersUndefined
| NamespacePresent (settings : ExtensionSettings).

(** What the handlers read from the host and from the page. *)
Record Host := {
  (** [chatCompletionSettings.source] *)
  source : string;
  (** the range block holds the sliders container, or a native range control
      after which the container can be inserted *)
  container_available : bool;
  (** ids of the elements of the document outside the sliders container *)
  document_ids : list string;
}.

Definition defaultSettings : ExtensionSettings := {| sliders := [] |}.

Definition getSettings (g : GlobalSettings) : ExtensionSettings :=
  match g with
  | NamespaceAbsent => defaultSettings
  | SlidersUndefined => defaultSettings
  | NamespacePresent s => s
  end.

Definition Action := ExtensionSettings -> ExtensionSettings * list Effect.

Section Handlers.
Context {B : Builtins}.

(** The guard at the head of the loop body: the slider gets no control. *)
Definition skipped (s : SliderModel.t) : bool :=
  negb (truthy (SliderModel.property s))
  || negb (truthy (SliderModel.name s))
  || negb (truthy (SliderModel.min s))
  || negb (truthy (SliderModel.max s))
  || negb (truthy (SliderModel.step s)).

(** [!v] of a number: zero of either sign, or NaN. *)
Definition falsy (v : float) : bool :=
  PrimFloat.eqb v 0%float || PrimFloat.is_nan v.

(** The three guarded assignments of [renderCompletionSliders]. *)
Definition clampValue (s : SliderModel.t) : SliderModel.t :=
  let s :=
    if falsy (SliderModel.value s)
    then SliderModel.set_value (parseFloat (SliderModel.min s)) s else s in
  let s :=
    if PrimFloat.ltb (SliderModel.value s) (parseFloat (SliderModel.min s))
    then SliderModel.set_value (parseFloat (SliderModel.min s)) s else s in
  if PrimFloat.ltb (parseFloat (SliderModel.max s)) (SliderModel.value s)
  then SliderModel.set_value (parseFloat (SliderModel.max s)) s else s.

Definition sliderId (s : SliderModel.t) : string :=
  css_escape ("custom_slider_" +:+ SliderModel.property s).

Definition controlOf (host : Host) (s : SliderModel.t) : RangeControl :=
  {| control_id := sliderId s;
     control_title := SliderModel.name s;
     control_min := SliderModel.min s;
     control_max := SliderModel.max s;
     control_step := SliderModel.step s;
     control_assigned_value := SliderModel.value s;
     control_hidden := negb (String.eqb (source host) "custom") |}.

(** The loop over the sliders.  [ids] are the ids present in the document
    when the slider is reached; a control that is appended adds the id of its
    range input and of its number input. *)
Fixpoint renderSliders (host : Host) (ids : list string)
    (l : list SliderModel.t)
  : list SliderModel.t * list RangeControl * list Effect :=
  match l with
  | [] => ([], [], [])
  | s :: rest =>
    if skipped s then
      let '(l', cs, fx) := renderSliders host ids rest in (s :: l', cs, fx)
    else
      let s' := clampValue s in
      if bool_decide (sliderId s' ∈ ids) then
        let '(l', cs, fx) := renderSliders host ids rest in
        (s' :: l', cs,
         Toast ToastWarning
           ("Duplicate slider property name: " +:+ SliderModel.property s')
         :: fx)
      else
        let '(l', cs, fx) :=
          renderSliders host (ids ++ [sliderId s'; sliderId s' +:+ "_number"])
                        rest in
        (s' :: l', controlOf host s' :: cs, fx)
  end.

Definition renderCompletionSliders (host : Host)
    (settings : ExtensionSettings)
  : ExtensionSettings * list RangeControl * list Effect :=
  if negb (container_available host) then (settings, [], [])
  else
    let '(l', cs, fx) :=
      renderSliders host (document_ids host) (sliders settings) in
    ({| sliders := l' |}, cs, fx).

(** [renderSliderConfigs]: the rows of the configuration panel are rebuilt
    from the settings; what reaches the settings is the call of
    [renderCompletionSliders] at its end. *)
Definition renderSliderConfigs (host : Host) : Action :=
  fun settings =>
    let '(s', _, fx) := renderCompletionSliders host settings in
    (s', RenderSliderConfigs :: fx).

Definition newSlider : SliderModel.t :=
  SliderModel.mk "New Slider" "" "0" "1" "0.01" 0%float.

Definition createSlider (host : Host) : Action :=
  fun global =>
    let settings := getSettings (NamespacePresent global) in
    renderSliderConfigs host {| sliders := newSlider :: sliders settings |}.

(** The [input] handlers of the row rendered for the slider at [index]: one
    field of that slider is overwritten. *)
Definition onSliderFieldInput (host : Host) (index : nat)
    (update : SliderModel.t -> SliderModel.t) : Action :=
  fun settings =>
    let '(s', _, fx) :=
      renderCompletionSliders host
        {| sliders := alter update index (sliders settings) |} in
    (s', RenderCompletionSliders :: fx ++ [SaveSettingsDebounced]).

Definition onNameInput host index (v : string) : Action :=
  onSliderFieldInput host index (SliderModel.set_name v).
Definition onPropertyInput host index (v : string) : Action :=
  onSliderFieldInput host index (SliderModel.set_property v).
Definition onMinInput host index (v : string) : Action :=
  onSliderFieldInput host index (SliderModel.set_min v).
Definition onMaxInput host index (v : string) : Action :=
  onSliderFieldInput host index (SliderModel.set_max v).
Definition onStepInput host index (v : string) : Action :=
  onSliderFieldInput host index (SliderModel.set_step v).

(** A change of the array followed by [renderSliderConfigs] and the save. *)
Definition rerenderAndSave (host : Host)
    (f : list SliderModel.t -> list SliderModel.t) : Action :=
  fun settings =>
    let '(s', fx) :=
      renderSliderConfigs host {| sliders := f (sliders settings) |} in
    (s', fx ++ [SaveSettingsDebounced]).

Definition onDeleteClick (host : Host) (index : nat) (confirm : bool)
  : Action :=
  fun settings =>
    if negb confirm then (settings, [])
    else rerenderAndSave host (delete index) settings.

(** [temp = a[j]; a[j] = a[i]; a[i] = temp], for indices inside the array. *)
Definition swapEntries (i j : nat) (l : list SliderModel.t)
  : list SliderModel.t :=
  match l !! i, l !! j with
  | Some x, Some y => <[i := y]> (<[j := x]> l)
  | _, _ => l
  end.

Definition onUpClick (host : Host) (index : nat) : Action :=
  fun settings =>
    if Nat.ltb 0 index
    then rerenderAndSave host (swapEntries index (index - 1)) settings
    else (settings, []).

Definition onDownClick (host : Host) (index : nat) : Action :=
  fun settings =>
    if Nat.ltb index (length (sliders settings) - 1)
    then rerenderAndSave host (swapEntries index (index + 1)) settings
    else (settings, []).

(** The [input] handler of the range input rendered for the slider at
    [index]; [text] is the value of the input. *)
Definition onRangeInput (index : nat) (text : string) : Action :=
  fun settings =>
    ({| sliders :=
          alter (SliderModel.set_value (parseFloat text)) index
                (sliders settings) |},
     [SaveSettingsDebounced]).

(** The [reduce] over the sliders. *)
Definition sliderValues (l : list SliderModel.t) : JsObject :=
  fold_left
    (fun acc slider =>
       if truthy (SliderModel.property slider)
          && negb (PrimFloat.is_nan (SliderModel.value slider))
       then setProperty (SliderModel.property slider)
                        (VNum (SliderModel.value slider)) acc
       else acc)
    l emptyObject.

(** The object handed to [yaml.stringify]. *)
Definition customBody (settings : ExtensionSettings)
    (data : ChatCompletionRequestData) : JsObject :=
  objectAssign (mergeYamlIntoObject emptyObject (custom_include_body data))
               (properties (sliderValues (sliders settings))).

(** The handler of [CHAT_COMPLETION_SETTINGS_READY]: the request descriptor
    after the call. *)
Definition onChatCompletionSettingsReady (settings : ExtensionSettings)
    (data : ChatCompletionRequestData) : ChatCompletionRequestData :=
  if negb (String.eqb (chat_completion_source data) "custom") then data
  else
    {| chat_completion_source := chat_completion_source data;
       custom_include_body := yaml_stringify (customBody settings data) |}.

(** [init]: the settings the handlers are registered on. *)
Definition init (host : Host) (global : GlobalSettings)
  : ExtensionSettings * list Effect :=
  let '(s', fx) := renderSliderConfigs host (getSettings global) in
  (s', fx ++ [SaveSettingsDebounced]).
End Handlers.

End Legacy.

(** * Vocabulary of the properties *)

(** ** What a render does to the settings *)

(** The part of a collection no render and no slider edit touches. *)
Definition frame (c : SliderCollection.t) : bool * string * list string :=
  (SliderCollection.active c, SliderCollection.name c,
   SliderCollection.presets c).

Definition sameFrame (s s' : ExtensionSettings) : Prop :=
  map frame (collections s') = map frame (collections s).

Section Rendered.
Context {B : Builtins}.

(** What a render does to one slider of the active collection. *)
Definition syncSlider (s : SliderModel.t) : SliderModel.t :=
  if skipped s then s else clampValue s.

(** The settings after [renderCompletionSliders]. *)
Definition synced (host : Host) (settings : ExtensionSettings)
  : ExtensionSettings :=
  if negb (container_available host) then settings
  else match findActive settings with
       | None => settings
       | Some (i, _) =>
         alterCollection (alterSliders (map syncSlider)) i settings
       end.

(** What the render at the end of a handler does to a slider of the active
    collection: [syncSlider] when the sliders container is on the page. *)
Definition rendered (host : Host) (x : SliderModel.t) : SliderModel.t :=
  if container_available host then syncSlider x else x.

End Rendered.

(** The value [clampValue] stores, from the value and the parsed bounds. *)
Definition clamped (lo hi v : float) : float :=
  let v1 := if PrimFloat.ltb v lo then lo else v in
  if PrimFloat.ltb hi v1 then hi else v1.

(** The slider array of the collection at index [i]. *)
Definition slidersAt (i : nat) (s : ExtensionSettings)
  : option (list SliderModel.t) :=
  SliderCollection.sliders <$> collections s !! i.

(** The [presets] list of the collection at index [i]. *)
Definition presetsAt (i : nat) (s : ExtensionSettings) : option (list string) :=
  SliderCollection.presets <$> collections s !! i.

(** The settings without the slider at index [i] of the collection at [a]. *)
Definition withoutSlider (a i : nat) (s : ExtensionSettings)
  : ExtensionSettings :=
  alterCollection (alterSliders (delete i)) a s.

(** ** Invariants of the collection list *)

Definition b2n (b : bool) : nat := if b then 1 else 0.

Definition baseInvariant (s : ExtensionSettings) : Prop :=
  collections s <> [] /\ activeCount (collections s) = 1.

Definition namesDistinct (s : ExtensionSettings) : Prop :=
  NoDup (map SliderCollection.name (collections s)).

(** How often [x] occurs in [l]. *)
Definition occurrences (x : string) (l : list string) : nat :=
  length (filter (fun y => y = x) l).

(** How often the preset is bound, over all collections. *)
Definition bindingCount (presetName : string) (l : list SliderCollection.t)
  : nat :=
  list_sum (map (fun c => occurrences presetName (SliderCollection.presets c)) l).

(** Every preset name occurs at most once in all the [presets] lists. *)
Definition presetsUnique (s : ExtensionSettings) : Prop :=
  forall presetName, bindingCount presetName (collections s) <= 1.

(** What every reachable state satisfies. *)
Definition wellFormed (s : ExtensionSettings) : Prop :=
  baseInvariant s /\ namesDistinct s /\ presetsUnique s.

(** ** The handlers as a state machine *)

(** What the user and the host can do to the settings. *)
Inductive Event :=
| CollectionsChange (selectedName : string)
| ImportFileLoaded (fileContent : string) (newName : option string)
| DeleteCollectionClick (confirm : bool)
| CreateCollectionClick (name : option string)
| BindToPresetClick
| CreateSliderClick
| NameInput (index : nat) (v : string)
| PropertyInput (index : nat) (v : string)
| MinInput (index : nat) (v : string)
| MaxInput (index : nat) (v : string)
| StepInput (index : nat) (v : string)
| EnabledChange (index : nat) (v : bool)
| DeleteClick (index : nat) (confirm : bool)
| UpClick (index : nat)
| DownClick (index : nat)
| RangeInput (index : nat) (text : string)
| PresetChanged.

Definition handle {B : Builtins} (host : Host) (e : Event) : Action :=
  match e with
  | CollectionsChange selectedName => onCollectionsChange host selectedName
  | ImportFileLoaded fileContent newName =>
    onImportFileLoaded host fileContent newName
  | DeleteCollectionClick confirm => deleteCollection host confirm
  | CreateCollectionClick name => createCollection host name
  | BindToPresetClick => bindToPreset host
  | CreateSliderClick => createSlider host
  | NameInput index v => onNameInput host index v
  | PropertyInput index v => onPropertyInput host index v
  | MinInput index v => onMinInput host index v
  | MaxInput index v => onMaxInput host index v
  | StepInput index v => onStepInput host index v
  | EnabledChange index v => onEnabledChange host index v
  | DeleteClick index confirm => onDeleteClick host index confirm
  | UpClick index => onUpClick host index
  | DownClick index => onDownClick host index
  | RangeInput index text => onRangeInput index text
  | PresetChanged => onPresetChanged host
  end.

(** The settings the sessions can reach from a first start (no namespace, or
    a namespace written before collections existed): by a restart on the
    settings a session left, and by the events.  The page and the host
    settings may be any at each step; the dropdown offers the names of the
    collections. *)
Inductive reachable {B : Builtins} : ExtensionSettings -> Prop :=
| reachable_absent host : reachable (init host NamespaceAbsent).1
| reachable_upgraded host : reachable (init host CollectionsUndefined).1
| reachable_restart host s :
    reachable s -> reachable (init host (NamespacePresent s)).1
| reachable_event host e s :
    reachable s ->
    (forall selectedName,
       e = CollectionsChange selectedName ->
       selectedName ∈ map SliderCollection.name (collections s)) ->
    reachable (handle host e s).1.

(** The settings [bindToPreset] hands to the render at its end, when a preset
    is selected and the collection at [activeIndex] is the active one. *)
Definition rebound (presetName : string) (activeIndex : nat)
    (s : ExtensionSettings) : ExtensionSettings :=
  match findWithPreset presetName s with
  | Some (withPreset, _) =>
    let s1 := alterCollection (unbind presetName) withPreset s in
    if Nat.eqb withPreset activeIndex then s1
    else alterCollection (bind presetName) activeIndex s1
  | None => alterCollection (bind presetName) activeIndex s
  end.

(** ** The keys of the request body *)

(** Whether the slider reaches the assignment of the request handler: the
    filter and the guard of the reduce.  The assignment writes the property
    of the slider as a key, unless the property is [__proto__]. *)
Definition injected (x : SliderModel.t) : bool :=
  SliderModel.enabled x
  && truthy (SliderModel.property x)
  && negb (PrimFloat.is_nan (SliderModel.value x)).

(** The value of the last injected slider of [l] whose property is [key]. *)
Fixpoint lastInjected (key : string) (l : list SliderModel.t) : option float :=
  match l with
  | [] => None
  | x :: rest =>
    match lastInjected key rest with
    | Some v => Some v
    | None =>
      if injected x && String.eqb (SliderModel.property x) key
      then Some (SliderModel.value x) else None
    end
  end.

(** The value of the last entry of [obj] under [key]. *)
Fixpoint lastBinding (key : string) (obj : Properties) : option JsValue :=
  match obj with
  | [] => None
  | (k, v) :: rest =>
    match lastBinding key rest with
    | Some w => Some w
    | None => if String.eqb k key then Some v else None
    end
  end.

(** One step of the reduce over the enabled sliders. *)
Definition writeSlider (acc : JsObject) (slider : SliderModel.t) : JsObject :=
  if truthy (SliderModel.property slider)
     && negb (PrimFloat.is_nan (SliderModel.value slider))
  then setProperty (SliderModel.property slider)
                   (VNum (SliderModel.value slider)) acc
  else acc.

(** Whether the assignment [obj[key] = v] leaves [obj] with an own property
    [key]: always, but for the key [__proto__] when the assignment reaches the
    setter. *)
Definition writesKey (key : string) (obj : JsObject) : bool :=
  hasKey key (properties obj)
  || negb (String.eqb key "__proto__" && reachesSetter (prototype obj)).

(** The order of [Object.keys]: an array index comes before every index that
    is not smaller, and before every key that is no index. *)
Definition indexFrom (n : N) (kv : string * JsValue) : Prop :=
  match arrayIndex (fst kv) with Some m => (n <= m)%N | None => True end.

Definition noIndex (kv : string * JsValue) : Prop :=
  arrayIndex (fst kv) = None.

Fixpoint ordered (l : Properties) : Prop :=
  match l with
  | [] => True
  | (k, _) :: rest =>
    match arrayIndex k with
    | Some n => Forall (indexFrom n) rest
    | None => Forall noIndex rest
    end
    /\ ordered rest
  end.

(** What holds of every object built from [{}] by assignments: its keys are
    pairwise distinct and in the order of [Object.keys], and it owns no
    property [__proto__] as long as its prototype is [Object.prototype]. *)
Definition builtObject (obj : JsObject) : Prop :=
  NoDup (map fst (properties obj))
  /\ ordered (properties obj)
  /\ (prototype obj = ObjectPrototype ->
      lookupKey "__proto__" (properties obj) = None).

(** ** States and requests of the examples *)

(** The page of the examples: the custom source is selected, the preset P1
    is loaded, the sliders container can be placed, and no element of the
    host page carries the id of a live control. *)
Definition examplePage : Host :=
  {| completion_source := "custom";
     preset_settings_openai := "P1";
     container_available := true;
     document_ids := [] |}.

Definition twoCollections : ExtensionSettings :=
  {| collections := [SliderCollection.mk true "A" [] ["P0"];
                     SliderCollection.mk false "B" [] ["P1"]] |}.

Definition boundActive : ExtensionSettings :=
  {| collections := [SliderCollection.mk true "A" [] ["P1"];
                     SliderCollection.mk false "B" [] []] |}.

Definition threeSliders : ExtensionSettings :=
  {| collections :=
       [SliderCollection.mk true "Default"
          [SliderModel.mk "Temp" "temperature" "0" "2" "0.1" 1.5 true;
           SliderModel.mk "Top P" "top_p" "0" "1" "0.01" 0.5 true;
           SliderModel.mk "Top K" "top_k" "0" "100" "1" 40 false]
          []] |}.

Definition invertedBounds : ExtensionSettings :=
  {| collections :=
       [SliderCollection.mk true "Default"
          [SliderModel.mk "Temp" "temperature" "2" "1" "0.1" 5 true] []] |}.

Definition unitBounds (v : float) : ExtensionSettings :=
  {| collections :=
       [SliderCollection.mk true "Default"
          [SliderModel.mk "Temp" "temperature" "0" "1" "0.01" v true] []] |}.

Definition tempSlider (enabled : bool) : SliderModel.t :=
  SliderModel.mk "Temp" "temperature" "0" "2" "0.1" 1.5 enabled.

Definition tempSettings (enabled : bool) : ExtensionSettings :=
  {| collections := [SliderCollection.mk true "A" [tempSlider enabled] []] |}.

Definition customRequest (body : string) : ChatCompletionRequestData :=
  {| chat_completion_source := "custom"; custom_include_body := body |}.

(** The text of a file the export writes for the slider Temp. *)
Definition jsonMember (key value : string) : string :=
  inQuotes key +:+ ": " +:+ value.

Definition tempFile : string :=
  "[{" +:+ jsonMember "name" (inQuotes "Temp")
  +:+ ", " +:+ jsonMember "property" (inQuotes "temperature")
  +:+ ", " +:+ jsonMember "min" (inQuotes "0")
  +:+ ", " +:+ jsonMember "max" (inQuotes "2")
  +:+ ", " +:+ jsonMember "step" (inQuotes "0.1")
  +:+ ", " +:+ jsonMember "value" "1.5"
  +:+ ", " +:+ jsonMember "enabled" "true" +:+ "}]".

Definition namelessSlider : SliderModel.t :=
  SliderModel.mk "" "temperature" "0" "2" "0.1" 1.5 true.

Definition namelessSettings : ExtensionSettings :=
  {| collections := [SliderCollection.mk true "A" [namelessSlider] []] |}.

(** ** Vocabulary of the further properties *)

(** The events of the rows and of the live controls: they edit the sliders of
    the active collection. *)
Definition isSliderEvent (e : Event) : bool :=
  match e with
  | CreateSliderClick | NameInput _ _ | PropertyInput _ _ | MinInput _ _
  | MaxInput _ _ | StepInput _ _ | EnabledChange _ _ | DeleteClick _ _
  | UpClick _ | DownClick _ | RangeInput _ _ => true
  | _ => false
  end.

(** A slider up to its value. *)
Definition shape (x : SliderModel.t) : SliderModel.t :=
  SliderModel.set_value 0%float x.

(** Whether the text holds a full stop. *)
Definition hasFullStop (s : string) : bool :=
  existsb (Ascii.eqb "."%char) (list_ascii_of_string s).

(** A slider of the sliders-only version as the collections version reads it
    when the flag [enabled] is set. *)
Definition enabledSlider (x : Legacy.SliderModel.t) : SliderModel.t :=
  SliderModel.mk (Legacy.SliderModel.name x) (Legacy.SliderModel.property x)
                 (Legacy.SliderModel.min x) (Legacy.SliderModel.max x)
                 (Legacy.SliderModel.step x) (Legacy.SliderModel.value x) true.

(** No collection has an empty name. *)
Definition namesNonEmpty (s : ExtensionSettings) : Prop :=
  Forall (fun n => truthy n = true) (map SliderCollection.name (collections s)).

(** * Properties *)

(** ** Counting active collections *)

Lemma activeCount_nil : activeCount [] = 0.
Proof. reflexivity. Qed.

Lemma activeCount_cons c l :
  activeCount (c :: l)
  = (if SliderCollection.active c then 1 else 0) + activeCount l.
Proof.
  unfold activeCount. rewrite filter_cons.
  destruct (SliderCollection.active c); case_decide; simpl; congruence.
Qed.

Lemma activeCount_app l1 l2 :
  activeCount (l1 ++ l2) = activeCount l1 + activeCount l2.
Proof. unfold activeCount. by rewrite filter_app, length_app. Qed.

Lemma someActive_false_count l : someActive l = false <-> activeCount l = 0.
Proof.
  unfold someActive. induction l as [|c l IH]; [done|].
  rewrite activeCount_cons. simpl.
  destruct (SliderCollection.active c); simpl; [split; [done|lia]|apply IH].
Qed.

Lemma activeCount_all_inactive l :
  activeCount (map (SliderCollection.set_active false) l) = 0.
Proof.
  induction l as [|c l IH]; [done|]. simpl. by rewrite activeCount_cons, IH.
Qed.


(** ** The accessor *)

Lemma getSettings_collections g :
  exists c l, collections (getSettings g) = c :: l.
Proof.
  unfold getSettings.
  destruct g as [| |[[|c l]]]; simpl; try destruct (negb _); simpl; eauto.
Qed.

(** On a stored list that is not empty and has an active member nothing is
    repaired. *)
Lemma getSettings_id s :
  collections s <> [] -> 1 <= activeCount (collections s) ->
  getSettings (NamespacePresent s) = s.
Proof.
  destruct s as [l]. simpl. intros Hne Hact. unfold getSettings. simpl.
  destruct l as [|c l]; [done|]. simpl length. simpl Nat.eqb. cbv iota.
  destruct (someActive (c :: l)) eqn:E; [done|].
  apply someActive_false_count in E. lia.
Qed.

Lemma getSettings_none_active c l :
  activeCount (c :: l) = 0 ->
  getSettings (NamespacePresent {| collections := c :: l |})
  = {| collections := SliderCollection.set_active true c :: l |}.
Proof.
  intros H0. apply someActive_false_count in H0.
  unfold getSettings. simpl. change (_ || _) with (someActive (c :: l)).
  by rewrite H0.
Qed.

Lemma getSettings_some_active l :
  1 <= activeCount l ->
  getSettings (NamespacePresent {| collections := l |}) = {| collections := l |}.
Proof.
  intros H1. apply getSettings_id; simpl; [|done].
  intros ->. rewrite activeCount_nil in H1. lia.
Qed.

Lemma getSettings_healthy g :
  collections (getSettings g) <> []
  /\ 1 <= activeCount (collections (getSettings g)).
Proof.
  destruct (getSettings_collections g) as (c & l & E).
  split; [by rewrite E|].
  destruct g as [| |[[|c' l']]]; try (vm_compute; lia).
  destruct (activeCount (c' :: l')) eqn:E0.
  - rewrite (getSettings_none_active _ _ E0). simpl.
    rewrite activeCount_cons. simpl. lia.
  - rewrite getSettings_some_active; simpl; lia.
Qed.

(** C3, as the code has it: every input of [getSettings], the namespace
    absent, the key [collections] missing, the list empty or with any number of
    active members, yields a collection list that is not empty and has at
    least one active member; it has exactly one when the stored list had at
    most one.  An absent namespace yields the single active collection named
    Default with no sliders and no presets, and so does an empty list.  Of a
    list that is not empty and has no active member exactly the first entry
    becomes active, all else is kept.  A list with an active member is
    returned as it is. *)
Theorem getSettings_repairs :
  (forall g, collections (getSettings g) <> []
             /\ 1 <= activeCount (collections (getSettings g)))
  /\ getSettings NamespaceAbsent
     = {| collections := [SliderCollection.mk true "Default" [] []] |}
  /\ getSettings (NamespacePresent {| collections := [] |})
     = {| collections := [SliderCollection.mk true "Default" [] []] |}
  /\ (forall c l,
        activeCount (c :: l) = 0 ->
        getSettings (NamespacePresent {| collections := c :: l |})
        = {| collections := SliderCollection.set_active true c :: l |}
        /\ activeCount
             (collections
                (getSettings (NamespacePresent {| collections := c :: l |}))) = 1)
  /\ (forall l,
        activeCount l <= 1 ->
        activeCount
          (collections (getSettings (NamespacePresent {| collections := l |})))
        = 1)
  /\ (forall l,
        1 <= activeCount l ->
        getSettings (NamespacePresent {| collections := l |})
        = {| collections := l |}).
Proof.
  split; [apply getSettings_healthy|].
  split; [done|]. split; [done|].
  split; [|split; [|apply getSettings_some_active]].
  - intros c l H0. split; [by apply getSettings_none_active|].
    rewrite (getSettings_none_active _ _ H0). simpl.
    rewrite activeCount_cons in *. simpl.
    destruct (SliderCollection.active c); lia.
  - intros [|c l] Hle; [done|].
    destruct (activeCount (c :: l)) eqn:E0.
    + rewrite (getSettings_none_active _ _ E0). simpl.
      rewrite activeCount_cons in *. simpl.
      destruct (SliderCollection.active c); lia.
    + rewrite getSettings_some_active; simpl; lia.
Qed.

Lemma getSettings_repairs_witness :
  getSettings
    (NamespacePresent
       {| collections := [SliderCollection.mk false "A" [] [];
                          SliderCollection.mk false "B" [] []] |})
  = {| collections := [SliderCollection.mk true "A" [] [];
                       SliderCollection.mk false "B" [] []] |}.
Proof.
  exact (proj1 (proj1 (proj2 (proj2 (proj2 getSettings_repairs)))
                  (SliderCollection.mk false "A" [] [])
                  [SliderCollection.mk false "B" [] []] eq_refl)).
Defined.

(** C3 as the specification states it fails: two stored collections that are
    both marked active come back both active. *)
Lemma getSettings_keeps_two_active :
  let stored :=
    {| collections := [SliderCollection.mk true "A" [] [];
                       SliderCollection.mk true "B" [] []] |} in
  getSettings (NamespacePresent stored) = stored
  /\ activeCount (collections (getSettings (NamespacePresent stored))) = 2.
Proof. split; reflexivity. Qed.

(** ** What a render leaves alone *)

Lemma activeCount_frame l l' :
  map frame l' = map frame l -> activeCount l' = activeCount l.
Proof.
  revert l'. induction l as [|c l IH]; intros [|c' l'] E; try done.
  simpl in E. injection E as Eactive _ _ El.
  by rewrite !activeCount_cons, (IH _ El), Eactive.
Qed.

Lemma names_frame l l' :
  map frame l' = map frame l ->
  map SliderCollection.name l' = map SliderCollection.name l.
Proof.
  intros E.
  assert (H : forall k, map SliderCollection.name k = map (fun p => snd (fst p)) (map frame k)).
  { intros k. rewrite map_map. by apply map_ext. }
  by rewrite !H, E.
Qed.

Lemma presets_frame l l' :
  map frame l' = map frame l ->
  map SliderCollection.presets l' = map SliderCollection.presets l.
Proof.
  intros E.
  assert (H : forall k, map SliderCollection.presets k = map snd (map frame k)).
  { intros k. rewrite map_map. by apply map_ext. }
  by rewrite !H, E.
Qed.

Lemma map_alter_fixed {A C} (g : A -> C) (f : A -> A) i (l : list A) :
  (forall x, g (f x) = g x) -> map g (alter f i l) = map g l.
Proof.
  intros Hf. revert i. induction l as [|c l IH]; intros [|i]; simpl; try done.
  - by rewrite Hf.
  - f_equal. apply IH.
Qed.

Lemma frame_alter f i l :
  (forall c, frame (f c) = frame c) -> map frame (alter f i l) = map frame l.
Proof. apply map_alter_fixed. Qed.


Lemma sameFrame_trans s1 s2 s3 :
  sameFrame s1 s2 -> sameFrame s2 s3 -> sameFrame s1 s3.
Proof. unfold sameFrame. congruence. Qed.

Lemma sameFrame_alterSliders f i s :
  sameFrame s (alterCollection (alterSliders f) i s).
Proof. unfold sameFrame. simpl. by apply frame_alter. Qed.

Lemma sameFrame_nonempty s s' :
  sameFrame s s' -> collections s <> [] -> collections s' <> [].
Proof.
  unfold sameFrame. destruct (collections s), (collections s'); done.
Qed.

Section RenderFrame.
Context {B : Builtins}.

Lemma renderSliders_sliders host ids l :
  (renderSliders host ids l).1.1 = map syncSlider l.
Proof.
  revert ids. induction l as [|s l IH]; intros ids; [done|].
  simpl. unfold syncSlider at 1. destruct (skipped s).
  - specialize (IH ids). destruct (renderSliders host ids l) as [[? ?] ?].
    simpl in *. by rewrite IH.
  - case_bool_decide.
    + specialize (IH ids). destruct (renderSliders host ids l) as [[? ?] ?].
      simpl in *. by rewrite IH.
    + match goal with |- context [renderSliders host ?i l] =>
        specialize (IH i); destruct (renderSliders host i l) as [[? ?] ?] end.
      simpl in *. by rewrite IH.
Qed.

Lemma findActive_lookup s i c :
  findActive s = Some (i, c) ->
  collections s !! i = Some c /\ SliderCollection.active c = true.
Proof. unfold findActive. intros H. apply list_find_Some in H. tauto. Qed.

Lemma renderCompletionSliders_settings host s :
  (renderCompletionSliders host s).1.1 = synced host s.
Proof.
  unfold renderCompletionSliders, synced.
  destruct (negb (container_available host)); [done|].
  destruct (findActive s) as [[i c]|] eqn:E; [|done].
  pose proof (renderSliders_sliders host (document_ids host)
                (SliderCollection.sliders c)) as H.
  destruct (renderSliders _ _ _) as [[l' cs] fx]. simpl in *. subst l'.
  unfold alterCollection. f_equal.
  apply findActive_lookup in E as [E _].
  revert i E. induction (collections s) as [|y l IH]; intros [|i] E; try done.
  - simpl in E. by injection E as ->.
  - simpl in *. f_equal. by apply IH.
Qed.

Lemma renderSliderConfigs_settings host s :
  (renderSliderConfigs host s).1 = synced host s.
Proof.
  unfold renderSliderConfigs.
  destruct (findActive s) as [[i c]|] eqn:E.
  - pose proof (renderCompletionSliders_settings host s) as H.
    by destruct (renderCompletionSliders host s) as [[? ?] ?].
  - unfold synced. rewrite E. by destruct (negb _).
Qed.

Lemma rerenderCompletionSliders_settings host s :
  (rerenderCompletionSliders host s).1 = synced host s.
Proof.
  unfold rerenderCompletionSliders.
  pose proof (renderCompletionSliders_settings host s) as H.
  by destruct (renderCompletionSliders host s) as [[? ?] ?].
Qed.

Lemma synced_frame host s : sameFrame s (synced host s).
Proof.
  unfold synced. destruct (negb _); [done|].
  destruct (findActive s) as [[i c]|]; [|done].
  apply sameFrame_alterSliders.
Qed.

Lemma andThen_settings (a b : Action) s :
  ((a >>> b) s).1 = (b (a s).1).1.
Proof.
  unfold andThen. destruct (a s) as [s1 e1]. simpl.
  by destruct (b s1) as [s2 e2].
Qed.

Lemma andThen_effects (a b : Action) s :
  ((a >>> b) s).2 = (a s).2 ++ (b (a s).1).2.
Proof.
  unfold andThen. destruct (a s) as [s1 e1]. simpl.
  by destruct (b s1) as [s2 e2].
Qed.
End RenderFrame.

(** ** The invariant of the collection list *)

Lemma activeCount_alter f i l c :
  l !! i = Some c ->
  activeCount (alter f i l) + b2n (SliderCollection.active c)
  = activeCount l + b2n (SliderCollection.active (f c)).
Proof.
  revert i. induction l as [|y l IH]; intros [|i] Hl; try done.
  - simpl in Hl. injection Hl as ->. simpl. rewrite !activeCount_cons.
    unfold b2n. lia.
  - simpl in Hl. specialize (IH _ Hl).
    change (alter f (S i) (y :: l)) with (y :: alter f i l).
    rewrite !activeCount_cons. lia.
Qed.

Lemma activeCount_delete i l c :
  l !! i = Some c ->
  activeCount (delete i l) + b2n (SliderCollection.active c) = activeCount l.
Proof.
  revert i. induction l as [|y l IH]; intros [|i] Hl; try done.
  - simpl in Hl. injection Hl as ->. simpl. rewrite activeCount_cons.
    unfold b2n. lia.
  - simpl in Hl. specialize (IH _ Hl).
    change (delete (S i) (y :: l)) with (y :: delete i l).
    rewrite !activeCount_cons. lia.
Qed.

Lemma activeCount_lookup i l c :
  l !! i = Some c -> b2n (SliderCollection.active c) <= activeCount l.
Proof. intros Hl. pose proof (activeCount_delete _ _ _ Hl). lia. Qed.

(** With exactly one active collection, every entry but the one [find]
    returns is inactive. *)
Lemma only_active s a ac i c :
  activeCount (collections s) = 1 ->
  findActive s = Some (a, ac) ->
  collections s !! i = Some c -> i <> a ->
  SliderCollection.active c = false.
Proof.
  intros H1 Ha Hi Hne. apply list_find_Some in Ha as (Ha & Hact & _).
  pose proof (activeCount_delete _ _ _ Ha) as Hd. rewrite Hact in Hd.
  assert (Hi' : delete a (collections s) !! (if decide (i < a) then i else i - 1)
                = Some c).
  { case_decide.
    - by rewrite list_lookup_delete_lt.
    - rewrite list_lookup_delete_ge by lia. by replace (S (i - 1)) with i by lia. }
  pose proof (activeCount_lookup _ _ _ Hi') as Hle. simpl in Hd.
  destruct (SliderCollection.active c); [simpl in Hle; lia|done].
Qed.

Lemma findActive_is_Some s :
  1 <= activeCount (collections s) -> is_Some (findActive s).
Proof.
  intros H. unfold findActive, activeCount in *.
  destruct (filter _ (collections s)) as [|c l] eqn:E; [simpl in H; lia|].
  assert (Hc : c ∈ filter (fun c => SliderCollection.active c = true)
                          (collections s)) by (rewrite E; left).
  apply list_elem_of_filter in Hc as [Hact Hc].
  by eapply list_find_elem_of.
Qed.

Lemma activeCount_pushActive c s :
  activeCount (collections (pushActive c s)) = b2n (SliderCollection.active c).
Proof.
  simpl. rewrite activeCount_app, activeCount_all_inactive, activeCount_cons.
  unfold b2n. simpl. destruct (SliderCollection.active c); done.
Qed.

Lemma names_pushActive c s :
  map SliderCollection.name (collections (pushActive c s))
  = map SliderCollection.name (collections s) ++ [SliderCollection.name c].
Proof. simpl. rewrite map_app, map_map. done. Qed.

Lemma findNamed_None name s :
  findNamed name s = None ->
  name ∉ map SliderCollection.name (collections s).
Proof.
  unfold findNamed. intros H. apply list_find_None in H.
  intros Hin. apply list_elem_of_fmap in Hin as (c & -> & Hc).
  rewrite Forall_forall in H. by apply (H c).
Qed.

(** The number of active collections after a selection in the dropdown is
    the number of collections that carry the selected name. *)
Lemma activeCount_select sel l :
  NoDup (map SliderCollection.name l) ->
  sel ∈ map SliderCollection.name l ->
  activeCount
    (map (fun c => SliderCollection.set_active
                     (bool_decide (SliderCollection.name c = sel)) c) l) = 1.
Proof.
  induction l as [|c l IH]; intros Hnd Hin.
  - by apply elem_of_nil in Hin.
  - simpl in *. apply NoDup_cons in Hnd as [Hc Hnd].
    rewrite activeCount_cons. simpl. case_bool_decide as E.
    + subst sel. simpl. f_equal.
      clear IH Hin. induction l as [|d l IHl]; [done|].
      simpl in *. rewrite activeCount_cons. simpl.
      rewrite not_elem_of_cons in Hc. destruct Hc as [Hne Hc].
      apply NoDup_cons in Hnd as [_ Hnd].
      rewrite bool_decide_false by congruence. simpl. by apply IHl.
    + apply elem_of_cons in Hin as [Hin|Hin]; [congruence|]. simpl.
      by apply IH.
Qed.

Lemma baseInvariant_sameFrame s s' :
  sameFrame s s' -> baseInvariant s -> baseInvariant s'.
Proof.
  intros Hf [Hne H1]. split; [by eapply sameFrame_nonempty|].
  by rewrite (activeCount_frame _ _ Hf).
Qed.

Lemma namesDistinct_sameFrame s s' :
  sameFrame s s' -> namesDistinct s -> namesDistinct s'.
Proof. unfold namesDistinct. intros Hf. by rewrite (names_frame _ _ Hf). Qed.

Lemma baseInvariant_getSettings s :
  baseInvariant s -> getSettings (NamespacePresent s) = s.
Proof. intros [Hne H1]. apply getSettings_id; [done|lia]. Qed.

Section CollectionOperations.
Context {B : Builtins}.

(** The settings an action leaves, read through the sequencing. *)
Ltac settings_of :=
  rewrite ?andThen_settings; cbn [modify emit fst];
  rewrite ?renderSliderConfigs_settings.

Lemma pushActive_preserves host name sliders s :
  findNamed name s = None ->
  let s' := synced host
              (pushActive (SliderCollection.mk true name sliders []) s) in
  baseInvariant s' /\ (namesDistinct s -> namesDistinct s').
Proof.
  intros Hfresh s'. split.
  - eapply baseInvariant_sameFrame; [apply synced_frame|]. split.
    + simpl. by destruct (map _ (collections s)).
    + by rewrite activeCount_pushActive.
  - intros Hnd. eapply namesDistinct_sameFrame; [apply synced_frame|].
    unfold namesDistinct. rewrite names_pushActive. simpl.
    apply NoDup_app. split; [done|]. split; [|apply NoDup_singleton].
    intros x Hx Hx'. apply list_elem_of_singleton in Hx'. subst x.
    by apply findNamed_None in Hfresh.
Qed.

Lemma createCollection_preserves host answer s :
  baseInvariant s ->
  baseInvariant (createCollection host answer s).1
  /\ (namesDistinct s -> namesDistinct (createCollection host answer s).1).
Proof.
  intros Hinv. unfold createCollection.
  rewrite (baseInvariant_getSettings _ Hinv).
  destruct answer as [name|]; [|done].
  destruct (negb (truthy name)); [done|].
  destruct (findNamed name s) as [[? ?]|] eqn:E; [done|].
  settings_of. by apply pushActive_preserves.
Qed.

Lemma processImport_preserves host newName parsedSliders s :
  baseInvariant s ->
  baseInvariant (processImport host newName parsedSliders s).1
  /\ (namesDistinct s ->
      namesDistinct (processImport host newName parsedSliders s).1).
Proof.
  intros Hinv. unfold processImport.
  destruct newName as [name|]; [|done].
  destruct (negb (truthy name)); [done|].
  destruct (findNamed name s) as [[? ?]|] eqn:E; [done|].
  settings_of. by apply pushActive_preserves.
Qed.

Lemma onImportFileLoaded_preserves host fileContent newName s :
  baseInvariant s ->
  baseInvariant (onImportFileLoaded host fileContent newName s).1
  /\ (namesDistinct s ->
      namesDistinct (onImportFileLoaded host fileContent newName s).1).
Proof.
  intros Hinv. unfold onImportFileLoaded.
  destruct (json_parse fileContent) as [v|]; [|done].
  destruct (negb (isArray v)); [done|].
  by apply processImport_preserves.
Qed.

Lemma deleteCollection_preserves host confirm s :
  baseInvariant s ->
  baseInvariant (deleteCollection host confirm s).1
  /\ (namesDistinct s -> namesDistinct (deleteCollection host confirm s).1).
Proof.
  intros Hinv. unfold deleteCollection.
  rewrite (baseInvariant_getSettings _ Hinv).
  destruct (Nat.eqb_spec (length (collections s)) 1) as [|Hlen]; [done|].
  destruct (findActive s) as [[i c]|] eqn:E; [|done].
  destruct (negb confirm); [done|]. settings_of.
  destruct Hinv as [Hne H1].
  apply findActive_lookup in E as [Hi Hact].
  pose proof (activeCount_delete _ _ _ Hi) as Hd. rewrite Hact in Hd.
  simpl in Hd.
  assert (Hlen' : 2 <= length (collections s)).
  { destruct (collections s) as [|? [|? ?]]; simpl in *; try done; lia. }
  destruct (delete i (collections s)) as [|d rest] eqn:Ed.
  { apply (f_equal length) in Ed. rewrite length_delete in Ed by eauto.
    simpl in Ed. lia. }
  split.
  - eapply baseInvariant_sameFrame; [apply synced_frame|]. split; [done|].
    simpl. rewrite activeCount_cons in *. simpl.
    destruct (SliderCollection.active d); simpl in *; lia.
  - intros Hnd. eapply namesDistinct_sameFrame; [apply synced_frame|].
    unfold namesDistinct in *. simpl.
    change (SliderCollection.name d :: map SliderCollection.name rest)
      with (map SliderCollection.name (d :: rest)).
    rewrite <- Ed. eapply sublist_NoDup; [exact Hnd|].
    apply (fmap_sublist SliderCollection.name), sublist_delete.
Qed.

Lemma onPresetChanged_preserves host s :
  baseInvariant s ->
  baseInvariant (onPresetChanged host s).1
  /\ (namesDistinct s -> namesDistinct (onPresetChanged host s).1).
Proof.
  intros Hinv. unfold onPresetChanged.
  destruct (findActive s) as [[a ac]|] eqn:Ea; [|done].
  destruct (findWithPreset _ s) as [[h hc]|] eqn:Eh; [|done].
  destruct (Nat.eqb_spec h a) as [|Hne]; [done|]. cbn [negb]. settings_of.
  set (s1 := alterCollection (SliderCollection.set_active true) h s).
  set (s2 := alterCollection (SliderCollection.set_active false) a s1).
  assert (Hh : collections s !! h = Some hc).
  { unfold findWithPreset in Eh. apply list_find_Some in Eh. tauto. }
  destruct Hinv as [Hnonempty H1].
  pose proof (only_active _ _ _ _ _ H1 Ea Hh Hne) as Hinactive.
  apply findActive_lookup in Ea as [Ha Hact].
  assert (Ha1 : collections s1 !! a = Some ac).
  { simpl. by rewrite list_lookup_alter_ne. }
  pose proof (activeCount_alter (SliderCollection.set_active true) _ _ _ Hh)
    as C1.
  pose proof (activeCount_alter (SliderCollection.set_active false) _ _ _ Ha1)
    as C2.
  rewrite Hinactive in C1. rewrite Hact in C2. simpl in C1, C2.
  split.
  - eapply baseInvariant_sameFrame; [apply synced_frame|]. split.
    + simpl. destruct (collections s); [done|].
      intros Hnil. apply (f_equal length) in Hnil.
      rewrite !length_alter in Hnil. done.
    + change (collections s2)
        with (alter (SliderCollection.set_active false) a (collections s1)).
      change (collections s1)
        with (alter (SliderCollection.set_active true) h (collections s)) in *.
      lia.
  - intros Hnd. eapply namesDistinct_sameFrame; [apply synced_frame|].
    unfold namesDistinct in *. simpl.
    by rewrite !map_alter_fixed.
Qed.

Lemma onCollectionsChange_preserves host selectedName s :
  namesDistinct s ->
  selectedName ∈ map SliderCollection.name (collections s) ->
  baseInvariant (onCollectionsChange host selectedName s).1
  /\ namesDistinct (onCollectionsChange host selectedName s).1.
Proof.
  intros Hnd Hsel. unfold onCollectionsChange. settings_of. split.
  - eapply baseInvariant_sameFrame; [apply synced_frame|]. split.
    + simpl. destruct (collections s); [|done]. by apply elem_of_nil in Hsel.
    + simpl. by apply activeCount_select.
  - eapply namesDistinct_sameFrame; [apply synced_frame|].
    unfold namesDistinct in *. simpl. by rewrite map_map.
Qed.
End CollectionOperations.

(** ** What the collection operations do when they go through *)

Section CollectionEffects.
Context {B : Builtins}.

Lemma names_synced host s :
  map SliderCollection.name (collections (synced host s))
  = map SliderCollection.name (collections s).
Proof. apply names_frame, synced_frame. Qed.

Lemma createCollection_fresh host name s :
  baseInvariant s -> truthy name = true -> findNamed name s = None ->
  map SliderCollection.name (collections (createCollection host (Some name) s).1)
  = map SliderCollection.name (collections s) ++ [name].
Proof.
  intros Hinv Hname Hfresh. unfold createCollection.
  rewrite (baseInvariant_getSettings _ Hinv), Hname, Hfresh. cbn [negb].
  rewrite !andThen_settings. cbn [modify emit fst].
  by rewrite renderSliderConfigs_settings, names_synced, names_pushActive.
Qed.

Lemma processImport_fresh host name parsedSliders s :
  truthy name = true -> findNamed name s = None ->
  map SliderCollection.name
      (collections (processImport host (Some name) parsedSliders s).1)
  = map SliderCollection.name (collections s) ++ [name].
Proof.
  intros Hname Hfresh. unfold processImport. rewrite Hname, Hfresh. cbn [negb].
  rewrite !andThen_settings. cbn [modify emit fst].
  by rewrite renderSliderConfigs_settings, names_synced, names_pushActive.
Qed.

Lemma frame_pushActive c s :
  map frame (collections (pushActive c s))
  = map frame (map (SliderCollection.set_active false) (collections s))
    ++ [frame c].
Proof. simpl. by rewrite map_app. Qed.

Lemma createCollection_fresh_frame host name s :
  baseInvariant s -> truthy name = true -> findNamed name s = None ->
  map frame (collections (createCollection host (Some name) s).1)
  = map frame (map (SliderCollection.set_active false) (collections s))
    ++ [(true, name, [])].
Proof.
  intros Hinv Hname Hfresh. unfold createCollection.
  rewrite (baseInvariant_getSettings _ Hinv), Hname, Hfresh. cbn [negb].
  rewrite !andThen_settings. cbn [modify emit fst].
  rewrite renderSliderConfigs_settings.
  rewrite (synced_frame host (pushActive _ s)). apply frame_pushActive.
Qed.

Lemma processImport_fresh_frame host name parsedSliders s :
  truthy name = true -> findNamed name s = None ->
  map frame (collections (processImport host (Some name) parsedSliders s).1)
  = map frame (map (SliderCollection.set_active false) (collections s))
    ++ [(true, name, [])].
Proof.
  intros Hname Hfresh. unfold processImport. rewrite Hname, Hfresh. cbn [negb].
  rewrite !andThen_settings. cbn [modify emit fst].
  rewrite renderSliderConfigs_settings.
  rewrite (synced_frame host (pushActive _ s)). apply frame_pushActive.
Qed.

Lemma deleteCollection_confirmed host s :
  baseInvariant s -> 1 < length (collections s) ->
  length (collections (deleteCollection host true s).1) + 1
  = length (collections s).
Proof.
  intros Hinv Hlen. unfold deleteCollection.
  rewrite (baseInvariant_getSettings _ Hinv).
  destruct (Nat.eqb_spec (length (collections s)) 1) as [|_]; [lia|].
  destruct (findActive_is_Some s) as [[i c] E]; [destruct Hinv; lia|].
  rewrite E. cbn [negb]. rewrite !andThen_settings. cbn [modify emit fst].
  rewrite renderSliderConfigs_settings.
  apply findActive_lookup in E as [Hi _].
  assert (Hmap : forall k : ExtensionSettings,
            length (collections k) = length (map frame (collections k))).
  { intros k. by rewrite length_map. }
  rewrite Hmap, synced_frame, <- Hmap. simpl.
  rewrite length_alter, length_delete by eauto. lia.
Qed.

End CollectionEffects.


(** ** Preset bindings *)

Lemma occurrences_cons x y l :
  occurrences x (y :: l) = b2n (bool_decide (y = x)) + occurrences x l.
Proof.
  unfold occurrences. rewrite filter_cons.
  case_decide; case_bool_decide; simpl; congruence.
Qed.

Lemma occurrences_app x l1 l2 :
  occurrences x (l1 ++ l2) = occurrences x l1 + occurrences x l2.
Proof. unfold occurrences. by rewrite filter_app, length_app. Qed.

Lemma occurrences_delete x i l y :
  l !! i = Some y ->
  occurrences x (delete i l) + b2n (bool_decide (y = x)) = occurrences x l.
Proof.
  revert i. induction l as [|z l IH]; intros [|i] Hl; try done.
  - simpl in Hl. injection Hl as ->. simpl. rewrite occurrences_cons. lia.
  - simpl in Hl. specialize (IH _ Hl).
    change (delete (S i) (z :: l)) with (z :: delete i l).
    rewrite !occurrences_cons. lia.
Qed.

Lemma occurrences_elem_of x l : x ∈ l <-> 1 <= occurrences x l.
Proof.
  unfold occurrences. split.
  - intros Hx.
    assert (Hin : x ∈ filter (fun y => y = x) l) by by apply list_elem_of_filter.
    destruct (filter _ l); [by apply elem_of_nil in Hin|simpl; lia].
  - intros Hle. destruct (filter (fun y => y = x) l) as [|y k] eqn:E;
      [simpl in Hle; lia|].
    assert (Hin : y ∈ filter (fun y => y = x) l) by (rewrite E; left).
    apply list_elem_of_filter in Hin as [-> Hin]. done.
Qed.

Lemma indexOf_Some x l : x ∈ l -> exists i, indexOf x l = Some i /\ l !! i = Some x.
Proof.
  intros Hx. unfold indexOf.
  destruct (list_find_elem_of (fun y => y = x) l x Hx eq_refl) as [[i y] E].
  rewrite E. exists i. split; [done|].
  apply list_find_Some in E as (E & -> & _). done.
Qed.

(** [splice(indexOf(x), 1)] on a list that holds [x] removes one occurrence of
    [x] and nothing else. *)
Lemma occurrences_spliceOne x y l :
  x ∈ l ->
  occurrences y (spliceOne (indexOf x l) l) + b2n (bool_decide (x = y))
  = occurrences y l.
Proof.
  intros Hx. destruct (indexOf_Some _ _ Hx) as (i & -> & Hi). simpl.
  by apply occurrences_delete.
Qed.

Lemma bindingCount_cons p c l :
  bindingCount p (c :: l)
  = occurrences p (SliderCollection.presets c) + bindingCount p l.
Proof. reflexivity. Qed.

Lemma bindingCount_app p l1 l2 :
  bindingCount p (l1 ++ l2) = bindingCount p l1 + bindingCount p l2.
Proof. unfold bindingCount. by rewrite map_app, list_sum_app. Qed.

Lemma bindingCount_frame p l l' :
  map frame l' = map frame l -> bindingCount p l' = bindingCount p l.
Proof.
  intros E. apply presets_frame in E. unfold bindingCount.
  assert (H : forall k,
            map (fun c => occurrences p (SliderCollection.presets c)) k
            = map (occurrences p) (map SliderCollection.presets k)).
  { intros k. by rewrite map_map. }
  by rewrite !H, E.
Qed.

Lemma bindingCount_alter p f i l c :
  l !! i = Some c ->
  bindingCount p (alter f i l) + occurrences p (SliderCollection.presets c)
  = bindingCount p l + occurrences p (SliderCollection.presets (f c)).
Proof.
  revert i. induction l as [|y l IH]; intros [|i] Hl; try done.
  - simpl in Hl. injection Hl as ->.
    change (alter f 0 (c :: l)) with (f c :: l).
    rewrite !bindingCount_cons. lia.
  - simpl in Hl. specialize (IH _ Hl).
    change (alter f (S i) (y :: l)) with (y :: alter f i l).
    rewrite !bindingCount_cons. lia.
Qed.

Lemma bindingCount_delete p i l c :
  l !! i = Some c ->
  bindingCount p (delete i l) + occurrences p (SliderCollection.presets c)
  = bindingCount p l.
Proof.
  revert i. induction l as [|y l IH]; intros [|i] Hl; try done.
  - simpl in Hl. injection Hl as ->. simpl. rewrite bindingCount_cons. lia.
  - simpl in Hl. specialize (IH _ Hl).
    change (delete (S i) (y :: l)) with (y :: delete i l).
    rewrite !bindingCount_cons. lia.
Qed.

Lemma bindingCount_lookup p i l c :
  l !! i = Some c ->
  occurrences p (SliderCollection.presets c) <= bindingCount p l.
Proof. intros Hl. pose proof (bindingCount_delete p _ _ _ Hl). lia. Qed.

Lemma bindingCount_same_presets p (f : SliderCollection.t -> SliderCollection.t) l :
  (forall c, SliderCollection.presets (f c) = SliderCollection.presets c) ->
  bindingCount p (map f l) = bindingCount p l.
Proof.
  intros Hf. unfold bindingCount. rewrite map_map. f_equal.
  apply map_ext. intros c. by rewrite Hf.
Qed.

(** A preset that occurs at most once overall is held by at most one
    collection. *)
Lemma bindingCount_one_holder p l i j ci cj :
  bindingCount p l <= 1 ->
  l !! i = Some ci -> l !! j = Some cj ->
  p ∈ SliderCollection.presets ci -> p ∈ SliderCollection.presets cj ->
  i = j.
Proof.
  intros Hle Hi Hj Hpi Hpj. destruct (decide (i = j)) as [|Hne]; [done|].
  apply occurrences_elem_of in Hpi, Hpj.
  pose proof (bindingCount_delete p _ _ _ Hi) as Hd.
  assert (Hj' : delete i l !! (if decide (j < i) then j else j - 1) = Some cj).
  { case_decide.
    - by rewrite list_lookup_delete_lt.
    - rewrite list_lookup_delete_ge by lia. by replace (S (j - 1)) with j by lia. }
  pose proof (bindingCount_lookup p _ _ _ Hj'). lia.
Qed.

Lemma getSettings_bindingCount p s :
  bindingCount p (collections (getSettings (NamespacePresent s)))
  = bindingCount p (collections s).
Proof.
  unfold getSettings. simpl. destruct (collections s) as [|c l]; simpl.
  - done.
  - destruct (negb _); [|done]. simpl. by rewrite !bindingCount_cons.
Qed.

(** ** The bind handler *)

Section Binding.
Context {B : Builtins}.

Lemma bindToPreset_settings host s :
  (bindToPreset host s).1
  = let s0 := getSettings (NamespacePresent s) in
    if truthy (preset_settings_openai host) then
      match findActive s0 with
      | Some (a, _) => synced host (rebound (preset_settings_openai host) a s0)
      | None => s0
      end
    else s0.
Proof.
  unfold bindToPreset. cbv zeta.
  destruct (truthy (preset_settings_openai host)); [|done]. cbn [negb].
  destruct (findActive _) as [[a ac]|]; [|done]. unfold rebound.
  destruct (findWithPreset _ _) as [[h hc]|].
  - rewrite !andThen_settings. cbn [modify fst].
    destruct (Nat.eqb h a); cbn [negb]; rewrite ?andThen_settings;
      cbn [modify emit fst id]; by rewrite renderSliderConfigs_settings.
  - rewrite !andThen_settings. cbn [modify emit fst].
    by rewrite renderSliderConfigs_settings.
Qed.

Lemma findWithPreset_lookup p s h hc :
  findWithPreset p s = Some (h, hc) ->
  collections s !! h = Some hc /\ p ∈ SliderCollection.presets hc.
Proof. unfold findWithPreset. intros H. apply list_find_Some in H. tauto. Qed.

Lemma findWithPreset_None p s :
  findWithPreset p s = None -> bindingCount p (collections s) = 0.
Proof.
  unfold findWithPreset. intros H. apply list_find_None in H.
  induction H as [|c l Hc _ IH]; [done|].
  rewrite bindingCount_cons, IH.
  destruct (occurrences p (SliderCollection.presets c)) eqn:E; [done|].
  exfalso. apply Hc, occurrences_elem_of. lia.
Qed.

Lemma occurrences_bind p q c :
  occurrences q (SliderCollection.presets (bind p c))
  = occurrences q (SliderCollection.presets c) + b2n (bool_decide (p = q)).
Proof.
  simpl. rewrite occurrences_app. f_equal.
  rewrite occurrences_cons. unfold occurrences. simpl. lia.
Qed.

Lemma occurrences_unbind p q c :
  p ∈ SliderCollection.presets c ->
  occurrences q (SliderCollection.presets (unbind p c))
  + b2n (bool_decide (p = q))
  = occurrences q (SliderCollection.presets c).
Proof. intros Hp. simpl. by apply occurrences_spliceOne. Qed.

(** The number of bindings of [q] after [rebound]: the selected preset loses
    its binding when the active collection held it, keeps its single binding
    when another collection held it, and gains one when none did. *)
Lemma rebound_bindingCount p q a ac s :
  collections s !! a = Some ac ->
  bindingCount q (collections (rebound p a s))
  = if bool_decide (p = q) then
      match findWithPreset p s with
      | Some (h, _) =>
        if Nat.eqb h a then bindingCount q (collections s) - 1
        else bindingCount q (collections s)
      | None => 1
      end
    else bindingCount q (collections s).
Proof.
  intros Ha. unfold rebound.
  destruct (findWithPreset p s) as [[h hc]|] eqn:Eh.
  - apply findWithPreset_lookup in Eh as [Hh Hp].
    pose proof (bindingCount_alter q (unbind p) _ _ _ Hh) as C1.
    pose proof (occurrences_unbind p q hc Hp) as C2.
    destruct (Nat.eqb_spec h a) as [->|Hne].
    + simpl. case_bool_decide; simpl in *; lia.
    + assert (Ha1 : alter (unbind p) h (collections s) !! a = Some ac)
        by by rewrite list_lookup_alter_ne.
      pose proof (bindingCount_alter q (bind p) _ _ _ Ha1) as C3.
      pose proof (occurrences_bind p q ac) as C4.
      simpl. case_bool_decide; simpl in *; lia.
  - pose proof (bindingCount_alter q (bind p) _ _ _ Ha) as C3.
    pose proof (occurrences_bind p q ac) as C4.
    pose proof (findWithPreset_None _ _ Eh) as C0.
    simpl. case_bool_decide; simpl in *; [subst q|]; lia.
Qed.

Lemma presetsUnique_sameFrame s s' :
  sameFrame s s' -> presetsUnique s -> presetsUnique s'.
Proof.
  intros Hf Hu p. rewrite (bindingCount_frame p _ _ Hf). apply Hu.
Qed.

Lemma presetsUnique_getSettings s :
  presetsUnique s -> presetsUnique (getSettings (NamespacePresent s)).
Proof. intros Hu p. rewrite getSettings_bindingCount. apply Hu. Qed.

Lemma bindToPreset_presetsUnique host s :
  presetsUnique s -> presetsUnique (bindToPreset host s).1.
Proof.
  intros Hu. rewrite bindToPreset_settings. cbv zeta.
  apply presetsUnique_getSettings in Hu.
  destruct (truthy _); [|done].
  destruct (findActive _) as [[a ac]|] eqn:Ea; [|done].
  eapply presetsUnique_sameFrame; [apply synced_frame|].
  apply findActive_lookup in Ea as [Ha _].
  intros q. rewrite (rebound_bindingCount _ _ _ _ _ Ha).
  specialize (Hu q). case_bool_decide; [|done].
  destruct (findWithPreset _ _) as [[h hc]|]; [|done].
  destruct (Nat.eqb h a); lia.
Qed.
End Binding.

(** ** Reachable states *)

Lemma wellFormed_sameFrame s s' :
  sameFrame s s' -> wellFormed s -> wellFormed s'.
Proof.
  intros Hf (H1 & H2 & H3). split; [|split].
  - by eapply baseInvariant_sameFrame.
  - by eapply namesDistinct_sameFrame.
  - by eapply presetsUnique_sameFrame.
Qed.

Section Reachable.
Context {B : Builtins}.

Lemma withActiveSliders_frame f s : sameFrame s (withActiveSliders f s).1.
Proof.
  unfold withActiveSliders. destruct (findActive s) as [[i c]|]; [|done].
  apply sameFrame_alterSliders.
Qed.

Lemma onSliderFieldInput_frame host index update s :
  sameFrame s (onSliderFieldInput host index update s).1.
Proof.
  unfold onSliderFieldInput. rewrite !andThen_settings. cbn [emit fst].
  rewrite rerenderCompletionSliders_settings.
  eapply sameFrame_trans; [apply withActiveSliders_frame|apply synced_frame].
Qed.

Lemma withActiveSliders_render_save_frame host f s :
  sameFrame s
    ((withActiveSliders f >>> renderSliderConfigs host
      >>> emit SaveSettingsDebounced) s).1.
Proof.
  rewrite !andThen_settings. cbn [emit fst].
  rewrite renderSliderConfigs_settings.
  eapply sameFrame_trans; [apply withActiveSliders_frame|apply synced_frame].
Qed.

Lemma slider_events_frame host e s :
  baseInvariant s ->
  match e with
  | CreateSliderClick | NameInput _ _ | PropertyInput _ _ | MinInput _ _
  | MaxInput _ _ | StepInput _ _ | EnabledChange _ _ | DeleteClick _ _
  | UpClick _ | DownClick _ | RangeInput _ _ => sameFrame s (handle host e s).1
  | _ => True
  end.
Proof.
  intros Hinv. destruct e; try done; simpl;
    try apply onSliderFieldInput_frame.
  - unfold createSlider. rewrite (baseInvariant_getSettings _ Hinv).
    destruct (findActive s); [|done].
    rewrite !andThen_settings, renderSliderConfigs_settings.
    eapply sameFrame_trans; [apply withActiveSliders_frame|apply synced_frame].
  - unfold onDeleteClick. destruct (negb confirm); [done|].
    destruct (findActive s); [|done]. apply withActiveSliders_render_save_frame.
  - unfold onUpClick. destruct (Nat.ltb 0 index); [|done].
    destruct (findActive s); [|done]. apply withActiveSliders_render_save_frame.
  - unfold onDownClick. destruct (findActive s) as [[i c]|]; [|done].
    destruct (Nat.ltb _ _); [|done]. apply withActiveSliders_render_save_frame.
  - unfold onRangeInput. rewrite andThen_settings. cbn [emit fst].
    apply withActiveSliders_frame.
Qed.

Lemma pushActive_presetsUnique host name sliders s :
  presetsUnique s ->
  presetsUnique
    (synced host (pushActive (SliderCollection.mk true name sliders []) s)).
Proof.
  intros Hu. eapply presetsUnique_sameFrame; [apply synced_frame|].
  intros p. simpl. rewrite bindingCount_app, bindingCount_same_presets by done.
  specialize (Hu p).
  change (bindingCount p [SliderCollection.mk true name sliders []]) with 0.
  lia.
Qed.

Lemma collection_events_presetsUnique host e s :
  baseInvariant s -> presetsUnique s ->
  match e with
  | CollectionsChange _ | ImportFileLoaded _ _ | DeleteCollectionClick _
  | CreateCollectionClick _ | PresetChanged =>
    presetsUnique (handle host e s).1
  | _ => True
  end.
Proof.
  intros Hinv Hu. destruct e; try done; simpl.
  - unfold onCollectionsChange. rewrite !andThen_settings. cbn [modify emit fst].
    rewrite renderSliderConfigs_settings.
    eapply presetsUnique_sameFrame; [apply synced_frame|].
    intros p. simpl. rewrite bindingCount_same_presets by done. apply Hu.
  - unfold onImportFileLoaded. destruct (json_parse fileContent) as [v|]; [|done].
    destruct (negb (isArray v)); [done|]. unfold processImport. destruct newName as [name|]; [|done].
    destruct (negb (truthy name)); [done|].
    destruct (findNamed name s); [done|].
    rewrite !andThen_settings. cbn [modify emit fst].
    rewrite renderSliderConfigs_settings. by apply pushActive_presetsUnique.
  - unfold deleteCollection. rewrite (baseInvariant_getSettings _ Hinv).
    destruct (Nat.eqb _ 1); [done|].
    destruct (findActive s) as [[i c]|] eqn:E; [|done].
    destruct (negb confirm); [done|].
    rewrite !andThen_settings. cbn [modify emit fst].
    rewrite renderSliderConfigs_settings.
    eapply presetsUnique_sameFrame; [apply synced_frame|].
    apply findActive_lookup in E as [Hi _].
    intros p. simpl.
    transitivity (bindingCount p (delete i (collections s))).
    + destruct (delete i (collections s)) as [|d rest]; [done|].
      simpl. by rewrite !bindingCount_cons.
    + pose proof (bindingCount_delete p _ _ _ Hi). specialize (Hu p). lia.
  - unfold createCollection. rewrite (baseInvariant_getSettings _ Hinv).
    destruct name as [name|]; [|done].
    destruct (negb (truthy name)); [done|].
    destruct (findNamed name s); [done|].
    rewrite !andThen_settings. cbn [modify emit fst].
    rewrite renderSliderConfigs_settings. by apply pushActive_presetsUnique.
  - unfold onPresetChanged. destruct (findActive s) as [[a ac]|]; [|done].
    destruct (findWithPreset _ s) as [[h hc]|]; [|done].
    destruct (negb _); [|done].
    rewrite !andThen_settings. cbn [modify emit fst].
    rewrite renderSliderConfigs_settings.
    eapply presetsUnique_sameFrame; [apply synced_frame|].
    intros p. simpl. unfold bindingCount.
    rewrite !(map_alter_fixed
                (fun c => occurrences p (SliderCollection.presets c))) by done.
    apply Hu.
Qed.
End Reachable.

Lemma activeCount_alter_fixed f i l :
  (forall c, SliderCollection.active (f c) = SliderCollection.active c) ->
  activeCount (alter f i l) = activeCount l.
Proof.
  intros Hf. revert i. induction l as [|c l IH]; intros [|i]; try done.
  - change (alter f 0 (c :: l)) with (f c :: l).
    by rewrite !activeCount_cons, Hf.
  - change (alter f (S i) (c :: l)) with (c :: alter f i l).
    by rewrite !activeCount_cons, IH.
Qed.

Section ReachableInvariant.
Context {B : Builtins}.

Lemma rebound_keeps_flags_and_names p a s :
  activeCount (collections (rebound p a s)) = activeCount (collections s)
  /\ map SliderCollection.name (collections (rebound p a s))
     = map SliderCollection.name (collections s)
  /\ length (collections (rebound p a s)) = length (collections s).
Proof.
  unfold rebound. destruct (findWithPreset p s) as [[h hc]|].
  - destruct (Nat.eqb h a); simpl;
      rewrite ?activeCount_alter_fixed, ?map_alter_fixed, ?length_alter by done;
      done.
  - simpl. by rewrite activeCount_alter_fixed, map_alter_fixed, length_alter.
Qed.

Lemma bindToPreset_preserves host s :
  baseInvariant s ->
  baseInvariant (bindToPreset host s).1
  /\ (namesDistinct s -> namesDistinct (bindToPreset host s).1).
Proof.
  intros Hinv. rewrite bindToPreset_settings. cbv zeta.
  rewrite (baseInvariant_getSettings _ Hinv).
  destruct (truthy _); [|done].
  destruct (findActive s) as [[a ac]|]; [|done].
  destruct (rebound_keeps_flags_and_names (preset_settings_openai host) a s)
    as (Hc & Hn & Hl).
  split.
  - eapply baseInvariant_sameFrame; [apply synced_frame|].
    destruct Hinv as [Hne H1]. split; [|by rewrite Hc].
    intros E. rewrite E in Hl. destruct (collections s); done.
  - intros Hnd. eapply namesDistinct_sameFrame; [apply synced_frame|].
    unfold namesDistinct. by rewrite Hn.
Qed.

Lemma handle_wellFormed host e s :
  wellFormed s ->
  (forall selectedName,
     e = CollectionsChange selectedName ->
     selectedName ∈ map SliderCollection.name (collections s)) ->
  wellFormed (handle host e s).1.
Proof.
  intros (Hinv & Hnd & Hu) Hsel.
  pose proof (slider_events_frame host e s Hinv) as Hframe.
  pose proof (collection_events_presetsUnique host e s Hinv Hu) as Hpre.
  destruct e; try (by eapply wellFormed_sameFrame; [exact Hframe|]);
    simpl in *.
  - destruct (onCollectionsChange_preserves host selectedName s Hnd
                (Hsel _ eq_refl)). done.
  - destruct (onImportFileLoaded_preserves host fileContent newName s Hinv).
    split; [done|split; [auto|done]].
  - destruct (deleteCollection_preserves host confirm s Hinv).
    split; [done|split; [auto|done]].
  - destruct (createCollection_preserves host name s Hinv).
    split; [done|split; [auto|done]].
  - destruct (bindToPreset_preserves host s Hinv).
    split; [done|split; [auto|by apply bindToPreset_presetsUnique]].
  - destruct (onPresetChanged_preserves host s Hinv).
    split; [done|split; [auto|done]].
Qed.

Lemma init_wellFormed host g :
  g = NamespaceAbsent \/ g = CollectionsUndefined ->
  wellFormed (init host g).1.
Proof.
  intros Hg. unfold init. rewrite andThen_settings. cbn [emit fst].
  rewrite renderSliderConfigs_settings.
  eapply wellFormed_sameFrame; [apply synced_frame|].
  assert (E : getSettings g = defaultSettings) by by destruct Hg as [->| ->].
  rewrite E. split; [|split].
  - split; [done|reflexivity].
  - unfold namesDistinct. simpl. apply NoDup_singleton.
  - intros p. vm_compute. lia.
Qed.

Lemma restart_wellFormed host s :
  wellFormed s -> wellFormed (init host (NamespacePresent s)).1.
Proof.
  intros Hwf. unfold init. rewrite andThen_settings. cbn [emit fst].
  rewrite renderSliderConfigs_settings.
  eapply wellFormed_sameFrame; [apply synced_frame|].
  destruct Hwf as (Hinv & ?). by rewrite (baseInvariant_getSettings _ Hinv).
Qed.

Lemma reachable_wellFormed s : reachable s -> wellFormed s.
Proof.
  induction 1 as [host|host|host s _ IH|host e s _ IH Hsel].
  - apply init_wellFormed. by left.
  - apply init_wellFormed. by right.
  - by apply restart_wellFormed.
  - by apply handle_wellFormed.
Qed.
End ReachableInvariant.

(** ** C1: the operations on collections and the invariant *)

Section InvariantTheorem.
Context {B : Builtins}.

(** C1, as the code has it.  From a state whose collection list is not empty
    and has exactly one active member, creating a collection, deleting one,
    importing one and the reaction to a preset change lead to such a state
    again, whatever the user answers; with a fresh, non-empty name the create
    and the import do append the new collection (it is the active one, has no
    preset binding, and every other collection is inactive, with its name and
    its bindings as before), and a confirmed delete of one of several does
    remove one.  A selection in the dropdown leads to such a
    state when the names of the collections are pairwise distinct and the
    selected name is one of them.  Distinctness of the names is itself kept by
    all five operations, and holds in every state reachable from a first
    start. *)
Theorem collection_operations_keep_invariant host s :
  baseInvariant s ->
  (forall answer, baseInvariant (createCollection host answer s).1)
  /\ (forall name,
        truthy name = true -> findNamed name s = None ->
        map SliderCollection.name
            (collections (createCollection host (Some name) s).1)
        = map SliderCollection.name (collections s) ++ [name]
        /\ map frame (collections (createCollection host (Some name) s).1)
           = map frame (map (SliderCollection.set_active false)
                            (collections s))
             ++ [(true, name, [])])
  /\ (forall confirm, baseInvariant (deleteCollection host confirm s).1)
  /\ (1 < length (collections s) ->
      length (collections (deleteCollection host true s).1) + 1
      = length (collections s))
  /\ (forall fileContent newName,
        baseInvariant (onImportFileLoaded host fileContent newName s).1)
  /\ (forall name parsedSliders,
        truthy name = true -> findNamed name s = None ->
        baseInvariant (processImport host (Some name) parsedSliders s).1
        /\ map SliderCollection.name
               (collections (processImport host (Some name) parsedSliders s).1)
           = map SliderCollection.name (collections s) ++ [name]
        /\ map frame
               (collections (processImport host (Some name) parsedSliders s).1)
           = map frame (map (SliderCollection.set_active false)
                            (collections s))
             ++ [(true, name, [])])
  /\ baseInvariant (onPresetChanged host s).1
  /\ (namesDistinct s ->
      (forall selectedName,
         selectedName ∈ map SliderCollection.name (collections s) ->
         baseInvariant (onCollectionsChange host selectedName s).1
         /\ namesDistinct (onCollectionsChange host selectedName s).1)
      /\ (forall answer, namesDistinct (createCollection host answer s).1)
      /\ (forall confirm, namesDistinct (deleteCollection host confirm s).1)
      /\ (forall fileContent newName,
            namesDistinct (onImportFileLoaded host fileContent newName s).1)
      /\ namesDistinct (onPresetChanged host s).1)
  /\ (reachable s -> namesDistinct s).
Proof.
  intros Hinv.
  split; [intros answer; apply createCollection_preserves, Hinv|].
  split.
  { intros name Hname Hfresh.
    split; [by apply createCollection_fresh
           |by apply createCollection_fresh_frame]. }
  split; [intros confirm; apply deleteCollection_preserves, Hinv|].
  split; [by apply deleteCollection_confirmed|].
  split; [intros fileContent newName; apply onImportFileLoaded_preserves, Hinv|].
  split.
  { intros name parsedSliders Hname Hfresh.
    split; [apply processImport_preserves, Hinv|].
    split; [by apply processImport_fresh|by apply processImport_fresh_frame]. }
  split; [apply onPresetChanged_preserves, Hinv|].
  split; [|intros Hr; apply (reachable_wellFormed s Hr)].
  intros Hnd.
  split; [intros selectedName Hsel; by apply onCollectionsChange_preserves|].
  split; [intros answer; by apply createCollection_preserves|].
  split; [intros confirm; by apply deleteCollection_preserves|].
  split; [intros fileContent newName; by apply onImportFileLoaded_preserves|].
  by apply onPresetChanged_preserves.
Qed.
End InvariantTheorem.

Lemma collection_operations_keep_invariant_witness :
  baseInvariant twoCollections
  /\ baseInvariant
       (createCollection (B := referenceBuiltins) examplePage (Some "C")
                         twoCollections).1
  /\ baseInvariant
       (deleteCollection (B := referenceBuiltins) examplePage true
                         twoCollections).1
  /\ baseInvariant
       (onPresetChanged (B := referenceBuiltins) examplePage twoCollections).1.
Proof.
  assert (H : baseInvariant twoCollections) by (split; [discriminate|reflexivity]).
  pose proof (collection_operations_keep_invariant
                (B := referenceBuiltins) examplePage twoCollections H)
    as (Hcreate & _ & Hdelete & _ & _ & _ & Hpreset & _).
  exact (conj H (conj (Hcreate (Some "C")) (conj (Hdelete true) Hpreset))).
Defined.

(** C1 as the specification states it fails for the dropdown: the invariant
    alone does not exclude two collections of one name, and selecting that
    name activates both. *)
Lemma dropdown_activates_every_namesake :
  let s := {| collections := [SliderCollection.mk true "A" [] [];
                              SliderCollection.mk false "B" [] [];
                              SliderCollection.mk false "B" [] []] |} in
  baseInvariant s
  /\ "B" ∈ map SliderCollection.name (collections s)
  /\ activeCount
       (collections
          (onCollectionsChange (B := referenceBuiltins) examplePage "B" s).1)
     = 2.
Proof.
  split; [split; [discriminate|reflexivity]|].
  split; [|reflexivity].
  apply elem_of_cons. right. apply elem_of_cons. by left.
Qed.

(** ** C6 and C10: binding the selected preset *)

Lemma bindingCount_two p l i j ci cj :
  i <> j -> l !! i = Some ci -> l !! j = Some cj ->
  occurrences p (SliderCollection.presets ci)
  + occurrences p (SliderCollection.presets cj) <= bindingCount p l.
Proof.
  intros Hne Hi Hj. pose proof (bindingCount_delete p _ _ _ Hi) as Hd.
  assert (Hj' : delete i l !! (if decide (j < i) then j else j - 1) = Some cj).
  { case_decide.
    - by rewrite list_lookup_delete_lt.
    - rewrite list_lookup_delete_ge by lia. by replace (S (j - 1)) with j by lia. }
  pose proof (bindingCount_lookup p _ _ _ Hj'). lia.
Qed.

Lemma bindingCount_zero p l i c :
  bindingCount p l = 0 -> l !! i = Some c -> p ∉ SliderCollection.presets c.
Proof.
  intros H0 Hi Hp. apply occurrences_elem_of in Hp.
  pose proof (bindingCount_lookup p _ _ _ Hi). lia.
Qed.

Section BindTheorems.
Context {B : Builtins}.

Lemma presetsAt_synced host s i : presetsAt i (synced host s) = presetsAt i s.
Proof.
  unfold presetsAt.
  rewrite <- !(list_lookup_fmap SliderCollection.presets).
  change (SliderCollection.presets <$> ?l) with (map SliderCollection.presets l).
  by rewrite (presets_frame _ _ (synced_frame host s)).
Qed.

Lemma findActive_getSettings s a ac :
  findActive s = Some (a, ac) -> getSettings (NamespacePresent s) = s.
Proof.
  intros E. apply findActive_lookup in E as [Ha Hact].
  apply getSettings_id.
  - intros Hnil. by rewrite Hnil in Ha.
  - pose proof (activeCount_lookup _ _ _ Ha) as Hle. by rewrite Hact in Hle.
Qed.

Lemma renderSliderConfigs_effects host s :
  exists fx, (renderSliderConfigs host s).2 = RenderSliderConfigs :: fx.
Proof.
  unfold renderSliderConfigs. destruct (findActive s); [|by eexists].
  destruct (renderCompletionSliders host s) as [[? ?] fx]. by eexists.
Qed.

(** C6, as the code has it.  Let the selected preset occur at most once in
    all the presets lists together.  When bind-to-preset runs while the
    holder of the preset is not the active collection, the holder's list no
    longer contains the preset afterwards and the list of the active
    collection contains it exactly once; the same holds of the active
    collection when no collection held the preset.  The preset still occurs
    at most once overall.  In every state reachable from a first start every
    preset name occurs at most once overall, so at most one collection is
    bound to it. *)
Theorem bindToPreset_moves_binding :
  (forall host s a ac,
     truthy (preset_settings_openai host) = true ->
     findActive s = Some (a, ac) ->
     bindingCount (preset_settings_openai host) (collections s) <= 1 ->
     (forall h hc,
        findWithPreset (preset_settings_openai host) s = Some (h, hc) ->
        h <> a ->
        exists ph pa,
          presetsAt h (bindToPreset host s).1 = Some ph
          /\ (preset_settings_openai host ∉ ph)
          /\ presetsAt a (bindToPreset host s).1 = Some pa
          /\ occurrences (preset_settings_openai host) pa = 1)
     /\ (findWithPreset (preset_settings_openai host) s = None ->
         exists pa,
           presetsAt a (bindToPreset host s).1 = Some pa
           /\ occurrences (preset_settings_openai host) pa = 1)
     /\ bindingCount (preset_settings_openai host)
                     (collections (bindToPreset host s).1) <= 1)
  /\ (forall s,
        reachable s ->
        presetsUnique s
        /\ forall presetName i j ci cj,
             collections s !! i = Some ci -> collections s !! j = Some cj ->
             presetName ∈ SliderCollection.presets ci ->
             presetName ∈ SliderCollection.presets cj ->
             i = j).
Proof.
  split.
  - intros host s a ac Hp Ea Hle.
    set (p := preset_settings_openai host) in *.
    rewrite bindToPreset_settings. cbv zeta.
    rewrite (findActive_getSettings _ _ _ Ea). fold p. rewrite Hp, Ea.
    pose proof (findActive_lookup _ _ _ Ea) as [Ha _].
    split; [|split].
    + intros h hc Eh Hne. rewrite !presetsAt_synced. unfold rebound.
      rewrite Eh. apply Nat.eqb_neq in Hne as Hneb. rewrite Hneb.
      apply findWithPreset_lookup in Eh as [Hh Hin].
      pose proof (bindingCount_two p _ _ _ _ _ Hne Hh Ha) as H2.
      pose proof (occurrences_unbind p p hc Hin) as Hun.
      rewrite bool_decide_true in Hun by done. simpl b2n in Hun.
      exists (SliderCollection.presets (unbind p hc)),
             (SliderCollection.presets (bind p ac)).
      unfold presetsAt. simpl collections.
      rewrite list_lookup_alter_ne, list_lookup_alter_eq, Hh by done.
      rewrite list_lookup_alter_eq, list_lookup_alter_ne, Ha by done.
      split; [done|]. split; [|split; [done|]].
      * intros Hin'. apply occurrences_elem_of in Hin'. lia.
      * rewrite occurrences_bind, bool_decide_true by done. simpl. lia.
    + intros Eh. rewrite presetsAt_synced. unfold rebound. rewrite Eh.
      exists (SliderCollection.presets (bind p ac)).
      unfold presetsAt. simpl collections. rewrite list_lookup_alter_eq, Ha.
      split; [done|].
      rewrite occurrences_bind, bool_decide_true by done.
      pose proof (findWithPreset_None _ _ Eh) as H0.
      pose proof (bindingCount_lookup p _ _ _ Ha). simpl. lia.
    + rewrite (bindingCount_frame p _ _ (synced_frame host _)).
      rewrite (rebound_bindingCount _ _ _ _ _ Ha), bool_decide_true by done.
      destruct (findWithPreset p s) as [[h hc]|]; [|done].
      destruct (Nat.eqb h a); lia.
  - intros s Hr. destruct (reachable_wellFormed s Hr) as (_ & _ & Hu).
    split; [done|]. intros p i j ci cj. apply bindingCount_one_holder, Hu.
Qed.

(** C10, as the code has it.  Let the selected preset occur at most once in
    all the presets lists together, and let the list of the active collection
    contain it.  Then bind-to-preset removes it from that list and adds it
    nowhere: afterwards no presets list contains it.  The handler shows none
    of its toasts: its effects start with the request of the debounced save
    and the render of the configuration, and what follows is what that render
    shows. *)
Theorem bindToPreset_toggles_off host s a ac :
  truthy (preset_settings_openai host) = true ->
  findActive s = Some (a, ac) ->
  preset_settings_openai host ∈ SliderCollection.presets ac ->
  bindingCount (preset_settings_openai host) (collections s) <= 1 ->
  (exists pa,
     presetsAt a (bindToPreset host s).1 = Some pa
     /\ (preset_settings_openai host ∉ pa))
  /\ bindingCount (preset_settings_openai host)
                  (collections (bindToPreset host s).1) = 0
  /\ (forall i c,
        collections (bindToPreset host s).1 !! i = Some c ->
        preset_settings_openai host ∉ SliderCollection.presets c)
  /\ exists fx,
       (bindToPreset host s).2
       = SaveSettingsDebounced :: RenderSliderConfigs :: fx.
Proof.
  intros Hp Ea Hin Hle. set (p := preset_settings_openai host) in *.
  pose proof (findActive_lookup _ _ _ Ea) as [Ha _].
  assert (Eh : exists hc, findWithPreset p s = Some (a, hc)).
  { destruct (findWithPreset p s) as [[h hc]|] eqn:Eh.
    - exists hc. apply findWithPreset_lookup in Eh as [Hh Hin'].
      by rewrite (bindingCount_one_holder p _ _ _ _ _ Hle Hh Ha Hin' Hin).
    - pose proof (findWithPreset_None _ _ Eh) as H0.
      by destruct (bindingCount_zero _ _ _ _ H0 Ha). }
  destruct Eh as [hc Eh].
  assert (Hc : hc = ac).
  { apply findWithPreset_lookup in Eh as [Hh _]. congruence. }
  subst hc.
  pose proof (occurrences_elem_of p (SliderCollection.presets ac)) as [Hocc _].
  specialize (Hocc Hin).
  pose proof (bindingCount_lookup p _ _ _ Ha) as Hlook.
  assert (H0 : bindingCount p (collections (bindToPreset host s).1) = 0).
  { rewrite bindToPreset_settings. cbv zeta.
    rewrite (findActive_getSettings _ _ _ Ea). fold p. rewrite Hp, Ea.
    rewrite (bindingCount_frame p _ _ (synced_frame host _)).
    rewrite (rebound_bindingCount _ _ _ _ _ Ha), bool_decide_true by done.
    rewrite Eh, Nat.eqb_refl. lia. }
  split; [|split; [done|split]].
  - rewrite bindToPreset_settings. cbv zeta.
    rewrite (findActive_getSettings _ _ _ Ea). fold p. rewrite Hp, Ea.
    rewrite presetsAt_synced. unfold rebound. rewrite Eh, Nat.eqb_refl.
    exists (SliderCollection.presets (unbind p ac)).
    unfold presetsAt. simpl collections. rewrite list_lookup_alter_eq, Ha.
    split; [done|]. intros Hin'. apply occurrences_elem_of in Hin'.
    pose proof (occurrences_unbind p p ac Hin) as Hun.
    rewrite bool_decide_true in Hun by done. simpl b2n in Hun.
    pose proof (mk_is_Some _ _ Ha). lia.
  - intros i c. by apply bindingCount_zero.
  - unfold bindToPreset. cbv zeta.
    rewrite (findActive_getSettings _ _ _ Ea). fold p. rewrite Hp, Ea, Eh.
    cbn [negb]. rewrite Nat.eqb_refl. cbn [negb].
    repeat (rewrite ?andThen_effects, ?andThen_settings;
            cbn [modify emit fst snd id app]).
    destruct (renderSliderConfigs_effects host
                (alterCollection (unbind p) a s)) as [fx Hfx].
    rewrite Hfx. by exists fx.
Qed.
End BindTheorems.

Lemma bindToPreset_moves_binding_witness :
  exists ph pa,
    presetsAt 1 (bindToPreset (B := referenceBuiltins) examplePage
                              twoCollections).1 = Some ph
    /\ ("P1" ∉ ph)
    /\ presetsAt 0 (bindToPreset (B := referenceBuiltins) examplePage
                                 twoCollections).1 = Some pa
    /\ occurrences "P1" pa = 1.
Proof.
  apply (proj1 (proj1 (bindToPreset_moves_binding (B := referenceBuiltins))
                  examplePage twoCollections 0
                  (SliderCollection.mk true "A" [] ["P0"])
                  eq_refl eq_refl (le_n 1))
               1 (SliderCollection.mk false "B" [] ["P1"]) eq_refl).
  discriminate.
Defined.

(** C6 as the specification states it fails: only the first collection holds
    the preset P1, but holds it twice; after the bind with the second
    collection active the first still holds it. *)
Lemma bindToPreset_leaves_second_occurrence :
  let s := {| collections := [SliderCollection.mk false "A" [] ["P1"; "P1"];
                              SliderCollection.mk true "B" [] []] |} in
  let s' := (bindToPreset (B := referenceBuiltins) examplePage s).1 in
  presetsAt 0 s = Some ["P1"; "P1"]
  /\ presetsAt 1 s = Some []
  /\ findActive s = Some (1, SliderCollection.mk true "B" [] [])
  /\ presetsAt 0 s' = Some ["P1"]
  /\ presetsAt 1 s' = Some ["P1"].
Proof. repeat split; reflexivity. Qed.

Lemma bindToPreset_toggles_off_witness :
  bindingCount "P1"
    (collections
       (bindToPreset (B := referenceBuiltins) examplePage boundActive).1) = 0.
Proof.
  refine (proj1 (proj2 (bindToPreset_toggles_off (B := referenceBuiltins)
                          examplePage boundActive 0
                          (SliderCollection.mk true "A" [] ["P1"])
                          eq_refl eq_refl _ (le_n 1)))).
  apply list_elem_of_here.
Defined.

(** C10 as stated fails: the active collection holds the preset P1, and so
    does a collection before it; the bind takes the preset from the earlier
    one and adds it to the active one a second time. *)
Lemma bindToPreset_binds_active_twice :
  let s := {| collections := [SliderCollection.mk false "A" [] ["P1"];
                              SliderCollection.mk true "B" [] ["P1"]] |} in
  let s' := (bindToPreset (B := referenceBuiltins) examplePage s).1 in
  findActive s = Some (1, SliderCollection.mk true "B" [] ["P1"])
  /\ presetsAt 0 s' = Some []
  /\ presetsAt 1 s' = Some ["P1"; "P1"].
Proof. repeat split; reflexivity. Qed.

(** ** C9: reordering sliders *)

Lemma swapEntries_length i j l : length (swapEntries i j l) = length l.
Proof.
  unfold swapEntries. destruct (l !! i), (l !! j); try done.
  by rewrite !length_insert.
Qed.

Lemma swapEntries_lookup i j l k :
  i < length l -> j < length l ->
  swapEntries i j l !! k
  = if decide (k = i) then l !! j
    else if decide (k = j) then l !! i else l !! k.
Proof.
  intros Hi Hj. unfold swapEntries.
  destruct (lookup_lt_is_Some_2 l i Hi) as [x Hx].
  destruct (lookup_lt_is_Some_2 l j Hj) as [y Hy].
  rewrite Hx, Hy. destruct (decide (k = i)) as [->|Hki].
  - rewrite list_lookup_insert_eq; [done|by rewrite length_insert].
  - rewrite list_lookup_insert_ne by done.
    destruct (decide (k = j)) as [->|Hkj].
    + by rewrite list_lookup_insert_eq.
    + by rewrite list_lookup_insert_ne.
Qed.

Section Reorder.
Context {B : Builtins}.

Lemma findActive_alterSliders f a ac s :
  findActive s = Some (a, ac) ->
  findActive (alterCollection (alterSliders f) a s)
  = Some (a, alterSliders f ac).
Proof.
  unfold findActive. intros E. apply list_find_Some in E as (Ha & Hact & Hbefore).
  apply list_find_Some. simpl. split; [|split; [done|]].
  - by rewrite list_lookup_alter_eq, Ha.
  - intros j y Hj Hlt. rewrite list_lookup_alter_ne in Hj by lia.
    by apply (Hbefore j).
Qed.

Lemma slidersAt_alterSliders f a ac s :
  collections s !! a = Some ac ->
  slidersAt a (alterCollection (alterSliders f) a s)
  = Some (f (SliderCollection.sliders ac)).
Proof.
  intros Ha. unfold slidersAt. simpl. by rewrite list_lookup_alter_eq, Ha.
Qed.

Lemma slidersAt_synced host s a ac :
  findActive s = Some (a, ac) ->
  slidersAt a (synced host s)
  = Some (map (rendered host) (SliderCollection.sliders ac)).
Proof.
  intros E. pose proof (findActive_lookup _ _ _ E) as [Ha _].
  unfold synced, rendered. destruct (container_available host); simpl.
  - rewrite E. by apply slidersAt_alterSliders.
  - unfold slidersAt. rewrite Ha. simpl. by rewrite map_id.
Qed.

(** The sliders of the active collection after a reorder handler that passed
    its guard: the swapped array as the render leaves it. *)
Lemma reorder_sliders host i j s a ac :
  findActive s = Some (a, ac) ->
  slidersAt a
    ((withActiveSliders (swapEntries i j) >>> renderSliderConfigs host
      >>> emit SaveSettingsDebounced) s).1
  = Some (map (rendered host) (swapEntries i j (SliderCollection.sliders ac))).
Proof.
  intros E. rewrite !andThen_settings. cbn [emit fst].
  rewrite renderSliderConfigs_settings. unfold withActiveSliders. rewrite E.
  cbn [fst].
  by rewrite (slidersAt_synced _ _ _ _ (findActive_alterSliders _ _ _ _ E)).
Qed.

Lemma swapEntries_Forall (P : SliderModel.t -> Prop) i j l :
  Forall P l -> Forall P (swapEntries i j l).
Proof.
  intros Hl. unfold swapEntries.
  destruct (l !! i) as [x|] eqn:Hx; [|done].
  destruct (l !! j) as [y|] eqn:Hy; [|done].
  apply Forall_insert; [apply Forall_insert; [done|]|].
  - by eapply Forall_lookup_1.
  - by eapply Forall_lookup_1.
Qed.

Lemma map_fixed (f : SliderModel.t -> SliderModel.t) l :
  Forall (fun x => f x = x) l -> f <$> l = l.
Proof.
  induction 1 as [|x l Hx _ IH]; [done|].
  change (f <$> x :: l) with (f x :: (f <$> l)). by rewrite Hx, IH.
Qed.

Lemma lookup_fixed (f : SliderModel.t -> SliderModel.t) l i :
  Forall (fun x => f x = x) l -> f <$> l !! i = l !! i.
Proof.
  intros Hl. destruct (l !! i) as [x|] eqn:Hx; [|done].
  simpl. f_equal. exact (Forall_lookup_1 _ _ _ _ Hl Hx).
Qed.

(** C9.  Let [l] be the slider array of the active collection.  The up
    control of the first row and the down control of the last row change
    nothing: the settings are the same and no effect is requested.  The up
    control of a row at index [0 < i < length l] exchanges the entries at
    [i - 1] and [i], the down control of a row at index [i < length l - 1]
    those at [i] and [i + 1]; every other index keeps its entry and the
    length is the same.  The entries are read after the render that ends the
    handler ([rendered], which can change the value of a slider only); when
    the sliders are as a render leaves them, the array afterwards is the
    array before with the two entries exchanged. *)
Theorem reorder_swaps_adjacent host s a ac :
  findActive s = Some (a, ac) ->
  onUpClick host 0 s = (s, [])
  /\ onDownClick host (length (SliderCollection.sliders ac) - 1) s = (s, [])
  /\ (forall i,
        0 < i < length (SliderCollection.sliders ac) ->
        exists l',
          slidersAt a (onUpClick host i s).1 = Some l'
          /\ length l' = length (SliderCollection.sliders ac)
          /\ l' !! (i - 1)
             = rendered host <$> SliderCollection.sliders ac !! i
          /\ l' !! i
             = rendered host <$> SliderCollection.sliders ac !! (i - 1)
          /\ (forall k,
                k <> i - 1 -> k <> i ->
                l' !! k = rendered host <$> SliderCollection.sliders ac !! k)
          /\ (Forall (fun x => rendered host x = x)
                     (SliderCollection.sliders ac) ->
              l' = swapEntries i (i - 1) (SliderCollection.sliders ac)
              /\ l' !! (i - 1) = SliderCollection.sliders ac !! i
              /\ l' !! i = SliderCollection.sliders ac !! (i - 1)
              /\ forall k,
                   k <> i - 1 -> k <> i ->
                   l' !! k = SliderCollection.sliders ac !! k))
  /\ (forall i,
        i < length (SliderCollection.sliders ac) - 1 ->
        exists l',
          slidersAt a (onDownClick host i s).1 = Some l'
          /\ length l' = length (SliderCollection.sliders ac)
          /\ l' !! i
             = rendered host <$> SliderCollection.sliders ac !! (i + 1)
          /\ l' !! (i + 1)
             = rendered host <$> SliderCollection.sliders ac !! i
          /\ (forall k,
                k <> i -> k <> i + 1 ->
                l' !! k = rendered host <$> SliderCollection.sliders ac !! k)
          /\ (Forall (fun x => rendered host x = x)
                     (SliderCollection.sliders ac) ->
              l' = swapEntries i (i + 1) (SliderCollection.sliders ac)
              /\ l' !! i = SliderCollection.sliders ac !! (i + 1)
              /\ l' !! (i + 1) = SliderCollection.sliders ac !! i
              /\ forall k,
                   k <> i -> k <> i + 1 ->
                   l' !! k = SliderCollection.sliders ac !! k)).
Proof.
  intros E. split; [done|]. split.
  { unfold onDownClick. rewrite E. by rewrite Nat.ltb_irrefl. }
  split.
  - intros i [Hpos Hlt]. unfold onUpClick.
    destruct (Nat.ltb_spec 0 i) as [_|]; [|lia]. rewrite E.
    eexists. split; [by apply reorder_sliders|].
    split; [by rewrite length_map, swapEntries_length|].
    change (map (rendered host) ?l) with (rendered host <$> l).
    rewrite !list_lookup_fmap, !swapEntries_lookup by lia.
    repeat case_decide; try lia. split; [done|]. split; [done|]. split.
    + intros k Hk1 Hk2. rewrite list_lookup_fmap, swapEntries_lookup by lia.
      by repeat case_decide; try lia.
    + intros Hstable.
      rewrite (map_fixed _ _ (swapEntries_Forall _ i (i - 1) _ Hstable)).
      rewrite !(lookup_fixed _ _ _ Hstable).
      split; [done|]. split; [done|]. split; [done|].
      intros k Hk1 Hk2. rewrite swapEntries_lookup by lia.
      by repeat case_decide; try lia.
  - intros i Hlt. unfold onDownClick. rewrite E.
    destruct (Nat.ltb_spec i (length (SliderCollection.sliders ac) - 1))
      as [_|]; [|lia].
    eexists. split; [by apply reorder_sliders|].
    split; [by rewrite length_map, swapEntries_length|].
    change (map (rendered host) ?l) with (rendered host <$> l).
    rewrite !list_lookup_fmap, !swapEntries_lookup by lia.
    repeat case_decide; try lia. split; [done|]. split; [done|]. split.
    + intros k Hk1 Hk2. rewrite list_lookup_fmap, swapEntries_lookup by lia.
      by repeat case_decide; try lia.
    + intros Hstable.
      rewrite (map_fixed _ _ (swapEntries_Forall _ i (i + 1) _ Hstable)).
      rewrite !(lookup_fixed _ _ _ Hstable).
      split; [done|]. split; [done|]. split; [done|].
      intros k Hk1 Hk2. rewrite swapEntries_lookup by lia.
      by repeat case_decide; try lia.
Qed.
End Reorder.

Lemma reorder_swaps_adjacent_witness :
  exists l',
    slidersAt 0 (onUpClick (B := referenceBuiltins) examplePage 1
                           threeSliders).1 = Some l'
    /\ l'
       = [SliderModel.mk "Top P" "top_p" "0" "1" "0.01" 0.5 true;
          SliderModel.mk "Temp" "temperature" "0" "2" "0.1" 1.5 true;
          SliderModel.mk "Top K" "top_k" "0" "100" "1" 40 false].
Proof.
  destruct (proj1 (proj2 (proj2 (reorder_swaps_adjacent
                                   (B := referenceBuiltins) examplePage
                                   threeSliders 0 _ eq_refl))) 1)
    as (l' & Hl' & _ & _ & _ & _ & Hstable).
  { split; repeat constructor. }
  exists l'. split; [exact Hl'|].
  apply Hstable. repeat constructor.
Defined.

(** ** Comparisons of binary64 values *)

Lemma SFcompare_refl a : SFcompare a a = Some Eq \/ SFcompare a a = None.
Proof.
  destruct a as [s|s| |s m e]; simpl; auto; destruct s; auto;
    rewrite Z.compare_refl, Pos.compare_cont_refl; auto.
Qed.

Lemma SFcompare_antisym a b c :
  SFcompare a b = Some c -> SFcompare b a = Some (CompOpp c).
Proof.
  destruct a as [s|s| |s m e], b as [s'|s'| |s' m' e']; simpl;
    try discriminate; intros [= <-]; f_equal;
    try (by repeat match goal with
                   | |- context [if ?b then _ else _] => destruct b
                   end).
  rewrite (Z.compare_antisym e e').
  destruct s, s'; try done; simpl;
    destruct (e ?= e')%Z; simpl; try done;
    change PosDef.Pos.compare_cont with Pos.compare_cont;
    by rewrite ?Pos.compare_cont_antisym.
Qed.

Lemma SFcompare_total a b :
  a <> S754_nan -> b <> S754_nan -> exists c, SFcompare a b = Some c.
Proof. destruct a, b; simpl; try congruence; eauto. Qed.

Lemma is_nan_false x : PrimFloat.is_nan x = false <-> Prim2SF x <> S754_nan.
Proof.
  unfold PrimFloat.is_nan. rewrite FloatAxioms.eqb_spec. unfold SFeqb.
  destruct (SFcompare_refl (Prim2SF x)) as [E|E]; rewrite E; simpl.
  - split; [|done]. intros _ Hn. rewrite Hn in E. done.
  - split; [done|]. intros Hn. by destruct (Prim2SF x).
Qed.

Lemma ltb_irrefl x : PrimFloat.ltb x x = false.
Proof.
  rewrite FloatAxioms.ltb_spec. unfold SFltb.
  by destruct (SFcompare_refl (Prim2SF x)) as [-> | ->].
Qed.

(** On numbers [y <= x] is the negation of [x < y]. *)
Lemma leb_of_not_ltb x y :
  PrimFloat.is_nan x = false -> PrimFloat.is_nan y = false ->
  PrimFloat.ltb x y = false -> PrimFloat.leb y x = true.
Proof.
  intros Hx Hy. rewrite FloatAxioms.ltb_spec, FloatAxioms.leb_spec.
  unfold SFltb, SFleb. apply is_nan_false in Hx, Hy.
  destruct (SFcompare_total _ _ Hx Hy) as [c Hc]. rewrite Hc.
  rewrite (SFcompare_antisym _ _ _ Hc). by destruct c.
Qed.

Lemma leb_true_numbers x y :
  PrimFloat.leb x y = true ->
  PrimFloat.is_nan x = false /\ PrimFloat.is_nan y = false
  /\ PrimFloat.ltb y x = false.
Proof.
  rewrite FloatAxioms.leb_spec, FloatAxioms.ltb_spec. unfold SFleb, SFltb.
  intros H. destruct (SFcompare (Prim2SF x) (Prim2SF y)) as [c|] eqn:Hc; [|done].
  rewrite (SFcompare_antisym _ _ _ Hc).
  split; [|split].
  - apply is_nan_false. intros E. rewrite E in Hc. done.
  - apply is_nan_false. intros E. rewrite E in Hc. by destruct (Prim2SF x).
  - by destruct c.
Qed.

Lemma leb_refl x : PrimFloat.is_nan x = false -> PrimFloat.leb x x = true.
Proof. intros Hx. apply leb_of_not_ltb; [done..|apply ltb_irrefl]. Qed.

(** ** C7: the render clamps the stored value *)

Section Clamp.
Context {B : Builtins}.

Lemma clampValue_clamped x :
  clampValue x
  = SliderModel.set_value
      (clamped (parseFloat (SliderModel.min x)) (parseFloat (SliderModel.max x))
               (SliderModel.value x)) x.
Proof.
  unfold clampValue, clamped. destruct x as [n p lo hi st v en]. simpl.
  destruct (PrimFloat.ltb v (parseFloat lo)); simpl;
    by destruct (PrimFloat.ltb (parseFloat hi) _).
Qed.

Lemma clamped_not_above lo hi v : PrimFloat.ltb hi (clamped lo hi v) = false.
Proof.
  unfold clamped. cbv zeta.
  set (v1 := if PrimFloat.ltb v lo then lo else v).
  destruct (PrimFloat.ltb hi v1) eqn:E; [apply ltb_irrefl|exact E].
Qed.

Lemma clamped_not_below lo hi v :
  PrimFloat.ltb hi lo = false -> PrimFloat.ltb (clamped lo hi v) lo = false.
Proof.
  intros Hb. unfold clamped. destruct (PrimFloat.ltb v lo) eqn:E1.
  - rewrite Hb. apply ltb_irrefl.
  - by destruct (PrimFloat.ltb hi v).
Qed.

Lemma clamped_within lo hi v :
  PrimFloat.leb lo hi = true -> PrimFloat.is_nan v = false ->
  PrimFloat.leb lo (clamped lo hi v) = true
  /\ PrimFloat.leb (clamped lo hi v) hi = true.
Proof.
  intros Hb Hv. destruct (leb_true_numbers _ _ Hb) as (Hlo & Hhi & Hlt).
  unfold clamped. destruct (PrimFloat.ltb v lo) eqn:E1.
  - rewrite Hlt. split; [by apply leb_refl|done].
  - destruct (PrimFloat.ltb hi v) eqn:E2.
    + split; [done|by apply leb_refl].
    + split; by apply leb_of_not_ltb.
Qed.

Lemma clamped_id lo hi v :
  PrimFloat.ltb v lo = false -> PrimFloat.ltb hi v = false ->
  clamped lo hi v = v.
Proof. intros H1 H2. unfold clamped. by rewrite H1, H2. Qed.

Lemma skipped_clampValue x : skipped (clampValue x) = skipped x.
Proof. by rewrite clampValue_clamped. Qed.

Lemma clamped_idempotent lo hi v :
  clamped lo hi (clamped lo hi v) = clamped lo hi v.
Proof.
  unfold clamped. destruct (PrimFloat.ltb v lo) eqn:E1.
  - destruct (PrimFloat.ltb hi lo) eqn:E2.
    + by rewrite E2, E2.
    + by rewrite ltb_irrefl, E2.
  - destruct (PrimFloat.ltb hi v) eqn:E2.
    + destruct (PrimFloat.ltb hi lo) eqn:E3.
      * by rewrite E3.
      * by rewrite ltb_irrefl.
    + by rewrite E1, E2.
Qed.

(** A second render changes nothing: the sliders a render leaves are the
    sliders the next one finds. *)
Lemma rendered_idempotent host x :
  rendered host (rendered host x) = rendered host x.
Proof.
  unfold rendered. destruct (container_available host); [|done].
  unfold syncSlider. destruct (skipped x) eqn:E; [by rewrite E|].
  rewrite skipped_clampValue, E.
  rewrite (clampValue_clamped (clampValue x)), (clampValue_clamped x).
  destruct x as [n p lo hi st v en]. simpl.
  by rewrite clamped_idempotent.
Qed.

(** Every live control shows a slider as the render stored it. *)
Lemma renderSliders_controls host ids l :
  Forall (fun c => exists x, x ∈ l /\ skipped x = false
                             /\ c = controlOf host (clampValue x))
         (renderSliders host ids l).1.2.
Proof.
  revert ids. induction l as [|s l IH]; intros ids; [by constructor|].
  assert (Hweak : forall ids',
            Forall (fun c => exists x, x ∈ s :: l /\ skipped x = false
                                       /\ c = controlOf host (clampValue x))
                   (renderSliders host ids' l).1.2).
  { intros ids'. eapply Forall_impl; [apply IH|].
    intros c (x & Hx & Hs & ->). exists x. split; [by right|done]. }
  simpl. destruct (skipped s) eqn:Es.
  - specialize (Hweak ids). by destruct (renderSliders host ids l) as [[? ?] ?].
  - case_bool_decide.
    + specialize (Hweak ids). by destruct (renderSliders host ids l) as [[? ?] ?].
    + match goal with |- context [renderSliders host ?i l] =>
        specialize (Hweak i); destruct (renderSliders host i l) as [[? ?] ?] end.
      simpl in *. constructor; [|done]. exists s. split; [by left|done].
Qed.

(** C7, as the code has it.  Let the sliders container be on the page and
    let [x] be a slider of the active collection that the render does not
    skip (enabled, name and property not empty).  After the render the slider
    at the same index differs from [x] in its value at most.  The stored value
    is never above [parseFloat(max)]; it is not below [parseFloat(min)] unless
    [parseFloat(max)] is below [parseFloat(min)].  When the bounds are numbers
    with min at most max and the value is a number, the stored value lies
    between them; a value that is already between them is kept.  With bounds
    parsed as 0 and 1 a stored 5 becomes 1 and a stored -5 becomes 0.  The
    value the render assigns to the inputs of a live control is the value it
    stored for the slider of that control.  (What the range input displays
    for it is the page's: it sanitises the value it is given against its own
    bounds and step.) *)
Theorem render_clamps_value host s a ac i x :
  container_available host = true ->
  findActive s = Some (a, ac) ->
  SliderCollection.sliders ac !! i = Some x ->
  skipped x = false ->
  let lo := parseFloat (SliderModel.min x) in
  let hi := parseFloat (SliderModel.max x) in
  exists l' x',
    slidersAt a (renderCompletionSliders host s).1.1 = Some l'
    /\ l' !! i = Some x'
    /\ x' = SliderModel.set_value (SliderModel.value x') x
    /\ PrimFloat.ltb hi (SliderModel.value x') = false
    /\ (PrimFloat.ltb hi lo = false ->
        PrimFloat.ltb (SliderModel.value x') lo = false)
    /\ (PrimFloat.leb lo hi = true ->
        PrimFloat.is_nan (SliderModel.value x) = false ->
        PrimFloat.leb lo (SliderModel.value x') = true
        /\ PrimFloat.leb (SliderModel.value x') hi = true)
    /\ (PrimFloat.ltb (SliderModel.value x) lo = false ->
        PrimFloat.ltb hi (SliderModel.value x) = false ->
        x' = x)
    /\ (lo = 0%float -> hi = 1%float ->
        (SliderModel.value x = 5%float -> SliderModel.value x' = 1%float)
        /\ (SliderModel.value x = (-5)%float ->
            SliderModel.value x' = 0%float))
    /\ Forall (fun c => exists y,
                 y ∈ l' /\ skipped y = false
                 /\ control_title c = SliderModel.name y
                 /\ control_assigned_value c = SliderModel.value y)
              (renderCompletionSliders host s).1.2.
Proof.
  intros Hc Ea Hi Hs lo hi.
  exists (map syncSlider (SliderCollection.sliders ac)), (clampValue x).
  assert (Hsync : syncSlider x = clampValue x) by (unfold syncSlider; by rewrite Hs).
  split.
  { rewrite renderCompletionSliders_settings.
    rewrite (slidersAt_synced _ _ _ _ Ea). unfold rendered. by rewrite Hc. }
  split.
  { change (map syncSlider ?l) with (syncSlider <$> l).
    by rewrite list_lookup_fmap, Hi, <- Hsync. }
  rewrite clampValue_clamped. fold lo hi. cbn [SliderModel.value SliderModel.set_value].
  split; [by destruct x|].
  split; [apply clamped_not_above|].
  split; [apply clamped_not_below|].
  split; [apply clamped_within|].
  split.
  { intros H1 H2. rewrite clamped_id by done. by destruct x. }
  split.
  { intros -> ->. split; intros ->; reflexivity. }
  unfold renderCompletionSliders. rewrite Hc, Ea. cbn [negb].
  pose proof (renderSliders_controls host (document_ids host)
                (SliderCollection.sliders ac)) as Hctl.
  destruct (renderSliders host (document_ids host) (SliderCollection.sliders ac))
    as [[l1 cs] fx]. cbn [fst snd] in *.
  eapply Forall_impl; [exact Hctl|].
  intros c (y & Hy & Hsy & ->). exists (clampValue y).
  split; [|split; [by rewrite skipped_clampValue|by rewrite clampValue_clamped]].
  apply list_elem_of_fmap. exists y. split; [|done].
  unfold syncSlider. by rewrite Hsy.
Qed.
End Clamp.

Lemma render_clamps_value_witness :
  exists l' x',
    slidersAt 0 (renderCompletionSliders (B := referenceBuiltins) examplePage
                                         (unitBounds 5)).1.1 = Some l'
    /\ l' !! 0 = Some x'
    /\ SliderModel.value x' = 1%float.
Proof.
  destruct (render_clamps_value (B := referenceBuiltins) examplePage
              (unitBounds 5) 0 _ 0 _ eq_refl eq_refl eq_refl eq_refl)
    as (l' & x' & H1 & H2 & _ & _ & _ & _ & _ & H8 & _).
  exists l', x'. split; [exact H1|]. split; [exact H2|].
  exact (proj1 (H8 eq_refl eq_refl) eq_refl).
Defined.

(** C7 as the specification states it fails on bounds in the wrong order:
    with min 2 and max 1 a stored 5 becomes 1, which is below the minimum;
    that 1 is the value the settings keep and the value the render assigns to
    the inputs of the live control. *)
Lemma render_leaves_value_below_min :
  (renderCompletionSliders (B := referenceBuiltins) examplePage
                           invertedBounds).1
  = ({| collections :=
          [SliderCollection.mk true "Default"
             [SliderModel.mk "Temp" "temperature" "2" "1" "0.1" 1 true] []] |},
     [{| control_id := "custom_slider_temperature";
         control_title := "Temp";
         control_min := "2";
         control_max := "1";
         control_step := "0.1";
         control_assigned_value := 1;
         control_hidden := false |}])
  /\ Ref.parseFloat "2" = 2%float
  /\ PrimFloat.ltb 1 (Ref.parseFloat "2") = true.
Proof. repeat split; vm_compute; reflexivity. Qed.

(** ** The request handler *)

(** *** Plain objects *)

Lemma lookupKey_None key l : lookupKey key l = None <-> key ∉ map fst l.
Proof.
  induction l as [|[k w] l IH]; simpl.
  - split; [intros _; apply not_elem_of_nil|done].
  - destruct (String.eqb_spec k key) as [->|Hne].
    + split; [done|]. intros H. exfalso. apply H. by left.
    + rewrite IH, not_elem_of_cons. split; [by intros ?|by intros [_ ?]].
Qed.

Lemma hasKey_false key l : hasKey key l = false <-> lookupKey key l = None.
Proof. unfold hasKey. destruct (lookupKey key l); naive_solver. Qed.

Lemma hasKey_true key l : hasKey key l = true <-> is_Some (lookupKey key l).
Proof.
  unfold hasKey. destruct (lookupKey key l); split; try done;
    try (by intros [? ?]).
Qed.

Lemma lookupKey_elem_of k v l : lookupKey k l = Some v -> (k, v) ∈ l.
Proof.
  induction l as [|[k0 w] l IH]; simpl; [done|].
  destruct (String.eqb_spec k0 k) as [->|].
  - intros [= ->]. by left.
  - intros H. right. by apply IH.
Qed.

Lemma lookupKey_app k l1 l2 :
  lookupKey k (l1 ++ l2)
  = match lookupKey k l1 with Some v => Some v | None => lookupKey k l2 end.
Proof.
  induction l1 as [|[k0 w] l1 IH]; simpl; [done|].
  by destruct (String.eqb k0 k).
Qed.

Lemma lookupKey_updateProperty k k' v l :
  lookupKey k (updateProperty k' v l)
  = if String.eqb k' k then (if hasKey k' l then Some v else None)
    else lookupKey k l.
Proof.
  unfold hasKey. induction l as [|[k0 w] l IH]; simpl.
  - by destruct (String.eqb k' k).
  - destruct (String.eqb_spec k0 k') as [->|Hne]; simpl.
    + destruct (String.eqb_spec k' k) as [->|]; [done|done].
    + rewrite IH. destruct (String.eqb_spec k0 k) as [->|]; [|done].
      by destruct (String.eqb_spec k' k) as [->|].
Qed.

Lemma keys_updateProperty k v l :
  map fst (updateProperty k v l) = map fst l.
Proof.
  induction l as [|[k0 w] l IH]; simpl; [done|].
  destruct (String.eqb k0 k); simpl; congruence.
Qed.

Lemma insertIndexed_perm n k v l : insertIndexed n k v l ≡ₚ (k, v) :: l.
Proof.
  induction l as [|[k0 w] l IH]; simpl; [done|].
  destruct (arrayIndex k0) as [m|]; [|done].
  destruct (N.leb m n); [|done].
  rewrite IH. apply perm_swap.
Qed.

Lemma createProperty_perm k v l : createProperty k v l ≡ₚ (k, v) :: l.
Proof.
  unfold createProperty. destruct (arrayIndex k).
  - apply insertIndexed_perm.
  - symmetry. apply Permutation_cons_append.
Qed.

Lemma lookupKey_insertIndexed k n k' v l :
  lookupKey k' l = None ->
  lookupKey k (insertIndexed n k' v l)
  = if String.eqb k' k then Some v else lookupKey k l.
Proof.
  induction l as [|[k0 w] l IH]; simpl; [done|].
  destruct (String.eqb_spec k0 k') as [->|Hne]; [done|]. intros Hk'.
  destruct (arrayIndex k0) as [m|]; [|done].
  destruct (N.leb m n); [|done].
  simpl. rewrite (IH Hk').
  destruct (String.eqb_spec k0 k) as [->|]; [|done].
  by destruct (String.eqb_spec k' k) as [->|].
Qed.

Lemma lookupKey_createProperty k k' v l :
  lookupKey k' l = None ->
  lookupKey k (createProperty k' v l)
  = if String.eqb k' k then Some v else lookupKey k l.
Proof.
  intros Hk'. unfold createProperty. destruct (arrayIndex k').
  - by apply lookupKey_insertIndexed.
  - rewrite lookupKey_app. simpl.
    destruct (String.eqb_spec k' k) as [->|].
    + by rewrite Hk'.
    + by destruct (lookupKey k l).
Qed.

Lemma lookupKey_defineProperty k k' v l :
  lookupKey k (defineProperty k' v l)
  = if String.eqb k' k then Some v else lookupKey k l.
Proof.
  unfold defineProperty. destruct (hasKey k' l) eqn:E.
  - rewrite lookupKey_updateProperty, E. done.
  - apply lookupKey_createProperty. by apply hasKey_false.
Qed.

Lemma lastBinding_unique k obj :
  NoDup (map fst obj) -> lastBinding k obj = lookupKey k obj.
Proof.
  induction obj as [|[k0 w] obj IH]; simpl; intros Hnd; [done|].
  apply NoDup_cons in Hnd as [Hk0 Hnd]. rewrite (IH Hnd).
  destruct (String.eqb_spec k0 k) as [->|]; [|by destruct (lookupKey k obj)].
  apply lookupKey_None in Hk0. by rewrite Hk0.
Qed.

(** *** The order of the keys *)

Lemma Forall_insertIndexed (P : string * JsValue -> Prop) n k v l :
  P (k, v) -> Forall P l -> Forall P (insertIndexed n k v l).
Proof.
  intros Hkv Hl. rewrite insertIndexed_perm. by constructor.
Qed.

Lemma ordered_app_noIndex k v l :
  arrayIndex k = None -> ordered l -> ordered (l ++ [(k, v)]).
Proof.
  intros Hk. induction l as [|[k0 w] l IH]; simpl.
  - rewrite Hk. done.
  - intros [Hhead Hrest]. split; [|by apply IH].
    destruct (arrayIndex k0).
    + apply Forall_app. split; [done|]. constructor; [|done].
      unfold indexFrom. simpl. by rewrite Hk.
    + apply Forall_app. split; [done|]. by constructor.
Qed.

Lemma ordered_insertIndexed n k v l :
  arrayIndex k = Some n -> ordered l -> ordered (insertIndexed n k v l).
Proof.
  intros Hk. induction l as [|[k0 w] l IH]; simpl.
  - rewrite Hk. done.
  - intros [Hhead Hrest]. destruct (arrayIndex k0) as [m|] eqn:Ek0.
    + destruct (N.leb_spec m n) as [Hle|Hlt]; simpl.
      * rewrite Ek0. split; [|by apply IH].
        apply Forall_insertIndexed; [|done].
        unfold indexFrom. simpl. by rewrite Hk.
      * rewrite Hk, Ek0. split; [|done].
        constructor.
        -- unfold indexFrom. simpl. rewrite Ek0. lia.
        -- eapply Forall_impl; [exact Hhead|].
           intros kv. unfold indexFrom. destruct (arrayIndex kv.1); lia.
    + simpl. rewrite Hk, Ek0. split; [|done].
      constructor.
      * unfold indexFrom. simpl. by rewrite Ek0.
      * eapply Forall_impl; [exact Hhead|].
        intros kv Hkv. unfold indexFrom. by rewrite Hkv.
Qed.

Lemma ordered_createProperty k v l :
  ordered l -> ordered (createProperty k v l).
Proof.
  intros Hl. unfold createProperty. destruct (arrayIndex k) eqn:Ek.
  - by apply ordered_insertIndexed.
  - by apply ordered_app_noIndex.
Qed.

Lemma Forall_updateProperty (P : string * JsValue -> Prop) k v l :
  (forall w, P (k, w) -> P (k, v)) ->
  Forall P l -> Forall P (updateProperty k v l).
Proof.
  intros HP. induction 1 as [|[k0 w] l Hkw Hl IH]; simpl; [done|].
  destruct (String.eqb_spec k0 k) as [->|].
  - constructor; [by eapply HP|done].
  - by constructor.
Qed.

Lemma ordered_updateProperty k v l :
  ordered l -> ordered (updateProperty k v l).
Proof.
  induction l as [|[k0 w] l IH]; simpl; [done|].
  intros [Hhead Hrest]. destruct (String.eqb_spec k0 k) as [->|]; simpl.
  - done.
  - split; [|by apply IH].
    destruct (arrayIndex k0); by apply Forall_updateProperty.
Qed.

(** In an ordered list every entry in front of an array index is a smaller
    or equal index: the new index goes behind all of them. *)
Lemma insertIndexed_last n k v l :
  Forall (fun kv => exists m, arrayIndex kv.1 = Some m /\ (m <= n)%N) l ->
  insertIndexed n k v l = l ++ [(k, v)].
Proof.
  induction 1 as [|[k0 w] l (m & Hm & Hle) _ IH]; simpl; [done|].
  simpl in Hm. rewrite Hm.
  destruct (N.leb_spec m n); [|lia]. by rewrite IH.
Qed.

Lemma ordered_before_index l1 k v l2 n :
  ordered (l1 ++ (k, v) :: l2) -> arrayIndex k = Some n ->
  Forall (fun kv => exists m, arrayIndex kv.1 = Some m /\ (m <= n)%N) l1.
Proof.
  intros Hord Hk. induction l1 as [|[k0 w] l1 IH]; [done|].
  simpl in Hord. destruct Hord as [Hhead Hrest].
  constructor; [|by apply IH]. simpl.
  destruct (arrayIndex k0) as [m|].
  - apply Forall_app in Hhead as [_ Hhead].
    apply Forall_cons in Hhead as [Hkv _].
    unfold indexFrom in Hkv. simpl in Hkv. rewrite Hk in Hkv. by exists m.
  - apply Forall_app in Hhead as [_ Hhead].
    apply Forall_cons in Hhead as [Hkv _].
    unfold noIndex in Hkv. simpl in Hkv. congruence.
Qed.

(** *** Assignments *)

Lemma getProperty_setProperty k k' v obj :
  getProperty k (setProperty k' v obj)
  = if String.eqb k' k && writesKey k' obj then Some v else getProperty k obj.
Proof.
  unfold getProperty, setProperty, writesKey.
  destruct (hasKey k' (properties obj)) eqn:Eown; simpl.
  - rewrite lookupKey_updateProperty, Eown, andb_true_r. done.
  - destruct (String.eqb k' "__proto__" && reachesSetter (prototype obj)); simpl.
    + rewrite andb_false_r. by destruct v.
    + rewrite andb_true_r. apply lookupKey_createProperty.
      by apply hasKey_false.
Qed.

(** Every key but [__proto__] is written. *)
Lemma writesKey_ordinary k obj : k <> "__proto__" -> writesKey k obj = true.
Proof.
  intros Hk. unfold writesKey.
  destruct (String.eqb_spec k "__proto__"); [done|]. by rewrite orb_true_r.
Qed.

Lemma getProperty_setProperty_ne k k' v obj :
  k' <> k -> getProperty k (setProperty k' v obj) = getProperty k obj.
Proof.
  intros Hne. rewrite getProperty_setProperty.
  by destruct (String.eqb_spec k' k).
Qed.

Lemma getProperty_setProperty_eq k v obj :
  k <> "__proto__" -> getProperty k (setProperty k v obj) = Some v.
Proof.
  intros Hk. by rewrite getProperty_setProperty, String.eqb_refl,
                        writesKey_ordinary.
Qed.

Lemma prototype_setProperty k v obj :
  k <> "__proto__" -> prototype (setProperty k v obj) = prototype obj.
Proof.
  intros Hk. unfold setProperty. destruct (hasKey _ _); [done|].
  by destruct (String.eqb_spec k "__proto__").
Qed.

Lemma prototype_setProperty_number k n obj :
  prototype (setProperty k (VNum n) obj) = prototype obj.
Proof.
  unfold setProperty. destruct (hasKey _ _); [done|]. by destruct (_ && _).
Qed.

Lemma builtObject_emptyObject : builtObject emptyObject.
Proof. split; [constructor|]. done. Qed.

Lemma builtObject_setProperty k v obj :
  builtObject obj -> builtObject (setProperty k v obj).
Proof.
  intros (Hnd & Hord & Hproto). unfold setProperty.
  destruct (hasKey k (properties obj)) eqn:Eown.
  - split; [|split]; simpl.
    + by rewrite keys_updateProperty.
    + by apply ordered_updateProperty.
    + intros Hp. apply lookupKey_None. rewrite keys_updateProperty.
      apply lookupKey_None. by apply Hproto.
  - pose proof (proj1 (hasKey_false _ _) Eown) as Hnone.
    pose proof (proj1 (lookupKey_None _ _) Hnone) as Hfresh.
    destruct (String.eqb_spec k "__proto__") as [->|Hk]; simpl.
    + destruct (reachesSetter (prototype obj)) eqn:Eset.
      * unfold setPrototype. destruct v; split; try split; simpl; done.
      * split; [|split]; simpl.
        -- rewrite createProperty_perm. simpl. by constructor.
        -- by apply ordered_createProperty.
        -- intros Hp. rewrite Hp in Eset. done.
    + split; [|split]; simpl.
      * rewrite createProperty_perm. simpl. by constructor.
      * by apply ordered_createProperty.
      * intros Hp. rewrite (lookupKey_createProperty _ _ _ _ Hnone).
        destruct (String.eqb_spec k "__proto__"); [done|]. by apply Hproto.
Qed.

Lemma builtObject_objectAssign target source :
  builtObject target -> builtObject (objectAssign target source).
Proof.
  unfold objectAssign. revert target.
  induction source as [|[k v] source IH]; intros target Ht; [done|].
  simpl. apply IH. by apply builtObject_setProperty.
Qed.

(** [Object.assign] key by key: every key but [__proto__] ends with the value
    of its last entry in the source. *)
Lemma getProperty_objectAssign k target source :
  k <> "__proto__" ->
  getProperty k (objectAssign target source)
  = match lastBinding k source with
    | Some v => Some v
    | None => getProperty k target
    end.
Proof.
  intros Hk. unfold objectAssign. revert target.
  induction source as [|[k0 v] source IH]; intros target; simpl; [done|].
  rewrite IH. destruct (lastBinding k source); [done|].
  rewrite getProperty_setProperty.
  destruct (String.eqb_spec k0 k) as [->|]; [|done].
  by rewrite writesKey_ordinary.
Qed.

(** A key that is not in the source is left as it was. *)
Lemma getProperty_objectAssign_absent k target source :
  Forall (fun kv => fst kv <> k) source ->
  getProperty k (objectAssign target source) = getProperty k target.
Proof.
  unfold objectAssign. intros Hs. revert target.
  induction Hs as [|[k0 v] source Hk0 _ IH]; intros target; [done|].
  cbn [fold_left fst snd]. rewrite IH. by apply getProperty_setProperty_ne.
Qed.

Lemma prototype_objectAssign target source :
  Forall (fun kv => fst kv <> "__proto__") source ->
  prototype (objectAssign target source) = prototype target.
Proof.
  unfold objectAssign. intros Hs. revert target.
  induction Hs as [|[k0 v] source Hk0 _ IH]; intros target; [done|].
  cbn [fold_left fst snd]. rewrite IH. by apply prototype_setProperty.
Qed.

Lemma lookupKey_None_Forall k (l : Properties) :
  lookupKey k l = None -> Forall (fun kv => fst kv <> k) l.
Proof.
  intros H. apply lookupKey_None in H. apply Forall_forall.
  intros [k0 v] Hin Hk. simpl in Hk. subst k0. apply H.
  by apply (list_elem_of_fmap_2 fst) in Hin.
Qed.

Section RequestHandler.
Context {B : Builtins}.

Lemma mergeItems_invariant (P : JsObject -> Prop) items obj :
  (forall acc fields, P acc -> P (objectAssign acc fields)) ->
  P obj ->
  P (fold_left (fun acc item =>
                  match item with
                  | VObject fields => objectAssign acc fields
                  | _ => acc
                  end) items obj).
Proof.
  intros Hstep. revert obj.
  induction items as [|item items IH]; intros obj Hobj; [done|].
  simpl. apply IH. destruct item; try done. by apply Hstep.
Qed.

Lemma mergeYamlIntoObject_invariant (P : JsObject -> Prop) obj yamlString :
  (forall acc fields, P acc -> P (objectAssign acc fields)) ->
  P obj -> P (mergeYamlIntoObject obj yamlString).
Proof.
  intros Hstep Hobj. unfold mergeYamlIntoObject.
  destruct (negb _); [done|].
  destruct (yaml_parse yamlString) as [[]|]; try done.
  - by apply mergeItems_invariant.
  - by apply Hstep.
Qed.

Lemma mergeYamlIntoObject_built obj yamlString :
  builtObject obj -> builtObject (mergeYamlIntoObject obj yamlString).
Proof.
  apply mergeYamlIntoObject_invariant.
  intros acc fields. apply builtObject_objectAssign.
Qed.

Lemma sliderValues_fold l :
  sliderValues l
  = fold_left (fun acc x => if injected x then writeSlider acc x else acc) l
              emptyObject.
Proof.
  unfold sliderValues. generalize emptyObject as acc.
  induction l as [|x l IH]; intros acc; [done|].
  rewrite filter_cons. cbn [fold_left].
  assert (Hx : injected x
               = SliderModel.enabled x
                 && (truthy (SliderModel.property x)
                     && negb (PrimFloat.is_nan (SliderModel.value x)))).
  { unfold injected. by rewrite andb_assoc. }
  rewrite Hx. unfold writeSlider.
  destruct (SliderModel.enabled x); case_decide; try done; cbn [andb fold_left];
    rewrite IH; by destruct (truthy _ && negb _).
Qed.

Lemma sliderValues_skip l1 x l2 :
  injected x = false -> sliderValues (l1 ++ x :: l2) = sliderValues (l1 ++ l2).
Proof.
  intros Hx. rewrite !sliderValues_fold, !fold_left_app. simpl. by rewrite Hx.
Qed.

Lemma writeSlider_built acc x : builtObject acc -> builtObject (writeSlider acc x).
Proof.
  intros Hacc. unfold writeSlider.
  destruct (_ && _); [by apply builtObject_setProperty|done].
Qed.

Lemma fold_writeSlider_built l acc :
  builtObject acc ->
  builtObject
    (fold_left (fun acc x => if injected x then writeSlider acc x else acc)
               l acc).
Proof.
  revert acc. induction l as [|x l IH]; intros acc Hacc; [done|].
  simpl. apply IH. destruct (injected x); [|done]. by apply writeSlider_built.
Qed.

(** The reduce never replaces the prototype of its accumulator, and writes no
    key [__proto__] into an accumulator that starts as [{}]: the values are
    numbers, which the setter ignores. *)
Lemma writeSlider_proto acc x :
  prototype acc = ObjectPrototype -> getProperty "__proto__" acc = None ->
  prototype (writeSlider acc x) = ObjectPrototype
  /\ getProperty "__proto__" (writeSlider acc x) = None.
Proof.
  intros Hp Hk. unfold writeSlider. destruct (_ && _); [|done].
  rewrite prototype_setProperty_number. split; [done|].
  rewrite getProperty_setProperty. unfold writesKey.
  destruct (String.eqb_spec (SliderModel.property x) "__proto__") as [->|];
    [|done].
  rewrite (proj2 (hasKey_false _ _) Hk), Hp. done.
Qed.

Lemma fold_writeSlider_proto l acc :
  prototype acc = ObjectPrototype -> getProperty "__proto__" acc = None ->
  prototype
    (fold_left (fun acc x => if injected x then writeSlider acc x else acc)
               l acc) = ObjectPrototype
  /\ getProperty "__proto__"
       (fold_left (fun acc x => if injected x then writeSlider acc x else acc)
                  l acc) = None.
Proof.
  revert acc. induction l as [|x l IH]; intros acc Hp Hk; [done|].
  simpl. destruct (injected x); [|by apply IH].
  destruct (writeSlider_proto acc x Hp Hk) as [Hp' Hk']. by apply IH.
Qed.

Lemma sliderValues_proto l :
  prototype (sliderValues l) = ObjectPrototype
  /\ getProperty "__proto__" (sliderValues l) = None.
Proof. rewrite sliderValues_fold. by apply fold_writeSlider_proto. Qed.

Lemma sliderValues_built l : builtObject (sliderValues l).
Proof.
  rewrite sliderValues_fold. apply fold_writeSlider_built.
  apply builtObject_emptyObject.
Qed.

Lemma sliderValues_keys l : NoDup (map fst (properties (sliderValues l))).
Proof. apply sliderValues_built. Qed.

Lemma sliderValues_no_proto l :
  Forall (fun kv => fst kv <> "__proto__") (properties (sliderValues l)).
Proof. apply lookupKey_None_Forall, sliderValues_proto. Qed.

Lemma fold_writeSlider_get key l acc :
  key <> "__proto__" ->
  getProperty key
    (fold_left (fun acc x => if injected x then writeSlider acc x else acc)
               l acc)
  = match lastInjected key l with
    | Some v => Some (VNum v)
    | None => getProperty key acc
    end.
Proof.
  intros Hkey. revert acc. induction l as [|x l IH]; intros acc; [done|].
  simpl. rewrite IH. destruct (lastInjected key l); [done|].
  destruct (injected x) eqn:Ex; simpl; [|done].
  unfold writeSlider. unfold injected in Ex.
  destruct (SliderModel.enabled x); [|done]. simpl in Ex. rewrite Ex.
  rewrite getProperty_setProperty.
  destruct (String.eqb_spec (SliderModel.property x) key) as [->|]; [|done].
  by rewrite writesKey_ordinary.
Qed.

Lemma sliderValues_get key l :
  key <> "__proto__" ->
  getProperty key (sliderValues l)
  = match lastInjected key l with Some v => Some (VNum v) | None => None end.
Proof.
  intros Hkey. by rewrite sliderValues_fold, fold_writeSlider_get.
Qed.

(** The object handed to [yaml.stringify], key by key: the value of the last
    injected slider with that property, else what the body-merge text held. *)
Lemma customBody_get key ac data :
  key <> "__proto__" ->
  getProperty key (customBody ac data)
  = match lastInjected key (SliderCollection.sliders ac) with
    | Some v => Some (VNum v)
    | None =>
      getProperty key
        (mergeYamlIntoObject emptyObject (custom_include_body data))
    end.
Proof.
  intros Hkey. unfold customBody.
  rewrite (getProperty_objectAssign _ _ _ Hkey).
  rewrite (lastBinding_unique _ _ (sliderValues_keys _)).
  fold (getProperty key (sliderValues (SliderCollection.sliders ac))).
  rewrite (sliderValues_get _ _ Hkey). by destruct (lastInjected _ _).
Qed.

(** The sliders leave the key [__proto__] and the prototype as the body-merge
    text made them. *)
Lemma customBody_proto ac data :
  getProperty "__proto__" (customBody ac data)
  = getProperty "__proto__"
      (mergeYamlIntoObject emptyObject (custom_include_body data))
  /\ prototype (customBody ac data)
     = prototype (mergeYamlIntoObject emptyObject (custom_include_body data)).
Proof.
  unfold customBody. split.
  - apply getProperty_objectAssign_absent, sliderValues_no_proto.
  - apply prototype_objectAssign, sliderValues_no_proto.
Qed.

Lemma customBody_built ac data : builtObject (customBody ac data).
Proof.
  unfold customBody. apply builtObject_objectAssign, mergeYamlIntoObject_built.
  apply builtObject_emptyObject.
Qed.

Lemma lastInjected_Some key l v :
  lastInjected key l = Some v ->
  exists x, x ∈ l /\ injected x = true /\ SliderModel.property x = key
            /\ SliderModel.value x = v.
Proof.
  induction l as [|x l IH]; simpl; [done|].
  destruct (lastInjected key l) as [w|].
  - intros [= <-]. destruct (IH eq_refl) as (y & Hy & H).
    exists y. split; [by right|done].
  - destruct (injected x) eqn:Ex; simpl; [|done].
    destruct (String.eqb_spec (SliderModel.property x) key); [|done].
    intros [= <-]. exists x. split; [by left|done].
Qed.

Lemma lastInjected_is_Some l1 x l2 :
  injected x = true ->
  is_Some (lastInjected (SliderModel.property x) (l1 ++ x :: l2)).
Proof.
  intros Hx. induction l1 as [|y l1 IH]; simpl.
  - destruct (lastInjected _ l2); [done|].
    by rewrite Hx, String.eqb_refl.
  - destruct IH as [v ->]. done.
Qed.

Lemma lastInjected_own l1 x l2 :
  injected x = true ->
  Forall (fun y => injected y = true ->
                   SliderModel.property y <> SliderModel.property x) l2 ->
  lastInjected (SliderModel.property x) (l1 ++ x :: l2)
  = Some (SliderModel.value x).
Proof.
  intros Hx Hl2.
  assert (H2 : lastInjected (SliderModel.property x) l2 = None).
  { induction Hl2 as [|y l2 Hy _ IH]; [done|]. simpl. rewrite IH.
    destruct (injected y); [|done]. simpl.
    destruct (String.eqb_spec (SliderModel.property y) (SliderModel.property x));
      [|done].
    by destruct Hy. }
  induction l1 as [|y l1 IH]; simpl.
  - by rewrite H2, Hx, String.eqb_refl.
  - by rewrite IH.
Qed.

Lemma lastInjected_absent key l :
  Forall (fun y => injected y = true -> SliderModel.property y <> key) l ->
  lastInjected key l = None.
Proof.
  induction 1 as [|y l Hy _ IH]; [done|]. simpl. rewrite IH.
  destruct (injected y); [|done]. simpl.
  destruct (String.eqb_spec (SliderModel.property y) key); [|done].
  by destruct Hy.
Qed.

Lemma onChatCompletionSettingsReady_custom s a ac data :
  chat_completion_source data = "custom" ->
  findActive s = Some (a, ac) ->
  onChatCompletionSettingsReady s data
  = {| chat_completion_source := chat_completion_source data;
       custom_include_body := yaml_stringify (customBody ac data) |}.
Proof.
  intros Hsrc Ea. unfold onChatCompletionSettingsReady. by rewrite Hsrc, Ea.
Qed.
End RequestHandler.

(** ** C2, C4 and C5: what reaches the request body *)

Section RequestTheorems.
Context {B : Builtins}.

(** C2, as the code has it.  With the custom source and an active collection
    the handler rewrites the body-merge field to the serialisation of one
    object, [customBody].  In that object the property of every enabled
    slider with a non-empty property other than [__proto__] and a numeric
    value is a key; its value is the value of the last such slider with that
    property, so the slider's own value when no later such slider shares its
    property, whatever the parsed body-merge data held under that key.  A key
    that is the property of no such slider has the value the parsed data gave
    it.  A slider whose property is [__proto__] writes nothing: the object
    has that key, and its prototype, as the body-merge data made them.  For
    the single slider Temp and an empty body-merge text the object is
    [{temperature: 1.5}], and parsing the field back yields it whenever the
    YAML library reads back what it wrote for this object. *)
Theorem request_body_gets_slider_values s a ac data :
  chat_completion_source data = "custom" ->
  findActive s = Some (a, ac) ->
  onChatCompletionSettingsReady s data
  = {| chat_completion_source := chat_completion_source data;
       custom_include_body := yaml_stringify (customBody ac data) |}
  /\ (forall x,
        x ∈ SliderCollection.sliders ac -> injected x = true ->
        SliderModel.property x <> "__proto__" ->
        exists y,
          y ∈ SliderCollection.sliders ac /\ injected y = true
          /\ SliderModel.property y = SliderModel.property x
          /\ lastInjected (SliderModel.property x) (SliderCollection.sliders ac)
             = Some (SliderModel.value y)
          /\ getProperty (SliderModel.property x) (customBody ac data)
             = Some (VNum (SliderModel.value y)))
  /\ (forall l1 x l2,
        SliderCollection.sliders ac = l1 ++ x :: l2 -> injected x = true ->
        SliderModel.property x <> "__proto__" ->
        Forall (fun y => injected y = true ->
                         SliderModel.property y <> SliderModel.property x) l2 ->
        getProperty (SliderModel.property x) (customBody ac data)
        = Some (VNum (SliderModel.value x)))
  /\ (forall key,
        Forall (fun y => injected y = true -> SliderModel.property y <> key)
               (SliderCollection.sliders ac) ->
        getProperty key (customBody ac data)
        = getProperty key
            (mergeYamlIntoObject emptyObject (custom_include_body data)))
  /\ (getProperty "__proto__" (customBody ac data)
      = getProperty "__proto__"
          (mergeYamlIntoObject emptyObject (custom_include_body data))
      /\ prototype (customBody ac data)
         = prototype
             (mergeYamlIntoObject emptyObject (custom_include_body data)))
  /\ (SliderCollection.sliders ac = [tempSlider true] ->
      custom_include_body data = "" ->
      customBody ac data = objectLiteral [("temperature", VNum 1.5)]
      /\ (yaml_parse (yaml_stringify (objectLiteral [("temperature", VNum 1.5)]))
          = Some (VObject [("temperature", VNum 1.5)]) ->
          yaml_parse
            (custom_include_body (onChatCompletionSettingsReady s data))
          = Some (VObject [("temperature", VNum 1.5)]))).
Proof.
  intros Hsrc Ea.
  pose proof (onChatCompletionSettingsReady_custom s a ac data Hsrc Ea) as Hrun.
  split; [done|]. split; [|split; [|split; [|split]]].
  - intros x Hx Hinj Hproto. apply list_elem_of_split in Hx as (l1 & l2 & Hl).
    rewrite (customBody_get _ _ _ Hproto).
    destruct (lastInjected_is_Some l1 x l2 Hinj) as [v Hv]. rewrite <- Hl in Hv.
    destruct (lastInjected_Some _ _ _ Hv) as (y & Hy & Hyinj & Hyp & <-).
    rewrite Hv. by exists y.
  - intros l1 x l2 Hl Hinj Hproto Hlater.
    by rewrite (customBody_get _ _ _ Hproto), Hl, lastInjected_own.
  - intros key Hkey. destruct (decide (key = "__proto__")) as [->|Hproto].
    + apply customBody_proto.
    + by rewrite (customBody_get _ _ _ Hproto), lastInjected_absent.
  - apply customBody_proto.
  - intros Hl Hbody.
    assert (Hobj : customBody ac data
                   = objectLiteral [("temperature", VNum 1.5)]).
    { unfold customBody. rewrite Hl, Hbody. reflexivity. }
    split; [done|]. intros Hround. by rewrite Hrun, Hobj.
Qed.

Lemma sliderValues_none_enabled l :
  Forall (fun x => SliderModel.enabled x = false) l ->
  sliderValues l = emptyObject.
Proof.
  intros Hl. rewrite sliderValues_fold.
  induction Hl as [|x l Hx _ IH]; [done|].
  simpl. unfold injected. by rewrite Hx.
Qed.

(** C5, as the code has it.  With the custom source and no enabled slider in
    the active collection the handler still rewrites the body-merge field: to
    the serialisation of the object parsed from it, with no key added; an
    empty text becomes the serialisation of the empty object.  The source
    field is not touched. *)
Theorem no_enabled_slider_reserializes_body s a ac data :
  chat_completion_source data = "custom" ->
  findActive s = Some (a, ac) ->
  Forall (fun x => SliderModel.enabled x = false) (SliderCollection.sliders ac) ->
  customBody ac data
  = mergeYamlIntoObject emptyObject (custom_include_body data)
  /\ onChatCompletionSettingsReady s data
     = {| chat_completion_source := chat_completion_source data;
          custom_include_body :=
            yaml_stringify
              (mergeYamlIntoObject emptyObject (custom_include_body data)) |}
  /\ (custom_include_body data = "" ->
      custom_include_body (onChatCompletionSettingsReady s data)
      = yaml_stringify emptyObject).
Proof.
  intros Hsrc Ea Hoff.
  assert (Hobj : customBody ac data
                 = mergeYamlIntoObject emptyObject (custom_include_body data)).
  { unfold customBody. by rewrite (sliderValues_none_enabled _ Hoff). }
  rewrite (onChatCompletionSettingsReady_custom s a ac data Hsrc Ea), Hobj.
  split; [done|]. split; [done|]. intros Hbody. simpl. by rewrite Hbody.
Qed.

Lemma renderSliders_skip host ids l1 x l2 :
  skipped x = true ->
  (renderSliders host ids (l1 ++ x :: l2)).1.2
  = (renderSliders host ids (l1 ++ l2)).1.2
  /\ (renderSliders host ids (l1 ++ x :: l2)).2
     = (renderSliders host ids (l1 ++ l2)).2.
Proof.
  intros Hx. revert ids. induction l1 as [|y l1 IH]; intros ids.
  - simpl. rewrite Hx. by destruct (renderSliders host ids l2) as [[? ?] ?].
  - simpl. destruct (skipped y).
    + specialize (IH ids).
      destruct (renderSliders host ids (l1 ++ x :: l2)) as [[? ?] ?].
      destruct (renderSliders host ids (l1 ++ l2)) as [[? ?] ?].
      simpl in *. done.
    + case_bool_decide.
      * specialize (IH ids).
        destruct (renderSliders host ids (l1 ++ x :: l2)) as [[? ?] ?].
        destruct (renderSliders host ids (l1 ++ l2)) as [[? ?] ?].
        simpl in *. destruct IH as [-> ->]. done.
      * match goal with |- context [renderSliders host ?i (l1 ++ l2)] =>
          specialize (IH i);
          destruct (renderSliders host i (l1 ++ x :: l2)) as [[? ?] ?];
          destruct (renderSliders host i (l1 ++ l2)) as [[? ?] ?] end.
        simpl in *. destruct IH as [-> ->]. done.
Qed.

Lemma renderSliders_delete host ids l i x :
  l !! i = Some x -> skipped x = true ->
  (renderSliders host ids l).1.2 = (renderSliders host ids (delete i l)).1.2
  /\ (renderSliders host ids l).2 = (renderSliders host ids (delete i l)).2.
Proof.
  intros Hi Hx.
  pose proof (renderSliders_skip host ids (take i l) x (drop (S i) l) Hx) as H.
  rewrite (take_drop_middle l i x Hi) in H. by rewrite delete_take_drop.
Qed.

Lemma skipped_of_empty x :
  truthy (SliderModel.property x) = false \/ truthy (SliderModel.name x) = false ->
  skipped x = true.
Proof.
  unfold skipped. intros [-> | ->]; simpl;
    by rewrite ?orb_true_r.
Qed.

Lemma not_injected_of_empty_property x :
  truthy (SliderModel.property x) = false -> injected x = false.
Proof. unfold injected. intros ->. by rewrite andb_false_r. Qed.

(** C4, as the code has it.  A slider of the active collection whose property
    or whose name is empty gets no live control, whatever its enabled flag
    and its value: the render shows the controls and the warnings it would
    show without that slider, and stores the slider as it was.  A slider whose
    property is empty brings nothing into the request: the handler returns
    what it would return without the slider.  A slider whose name is empty
    but which is enabled, with a property other than [__proto__] and a numeric
    value, is written into the request body all the same. *)
Theorem empty_property_or_name_is_skipped host s a ac i x data :
  findActive s = Some (a, ac) ->
  SliderCollection.sliders ac !! i = Some x ->
  (truthy (SliderModel.property x) = false
   \/ truthy (SliderModel.name x) = false ->
   (renderCompletionSliders host s).1.2
   = (renderCompletionSliders host (withoutSlider a i s)).1.2
   /\ (renderCompletionSliders host s).2
      = (renderCompletionSliders host (withoutSlider a i s)).2
   /\ exists l',
        slidersAt a (renderCompletionSliders host s).1.1 = Some l'
        /\ l' !! i = Some x)
  /\ (truthy (SliderModel.property x) = false ->
      onChatCompletionSettingsReady s data
      = onChatCompletionSettingsReady (withoutSlider a i s) data)
  /\ (truthy (SliderModel.name x) = false -> injected x = true ->
      SliderModel.property x <> "__proto__" ->
      chat_completion_source data = "custom" ->
      custom_include_body (onChatCompletionSettingsReady s data)
      = yaml_stringify (customBody ac data)
      /\ exists v,
           getProperty (SliderModel.property x) (customBody ac data)
           = Some (VNum v)).
Proof.
  intros Ea Hi.
  pose proof (findActive_alterSliders (delete i) _ _ _ Ea) as Ea'.
  fold (withoutSlider a i s) in Ea'.
  pose proof (take_drop_middle _ _ _ Hi) as Hsplit.
  assert (Hdel : delete i (SliderCollection.sliders ac)
                 = take i (SliderCollection.sliders ac)
                   ++ drop (S i) (SliderCollection.sliders ac))
    by apply delete_take_drop.
  split; [|split].
  - intros Hempty. pose proof (skipped_of_empty x Hempty) as Hskip.
    split; [|split].
    + unfold renderCompletionSliders. destruct (negb _); [done|].
      rewrite Ea, Ea'. cbn [alterSliders SliderCollection.sliders
                            SliderCollection.set_sliders].
      destruct (renderSliders_delete host (document_ids host) _ _ _ Hi Hskip)
        as [H _]. revert H.
      destruct (renderSliders host _ (SliderCollection.sliders ac)) as [[? ?] ?].
      by destruct (renderSliders host _ (delete i _)) as [[? ?] ?].
    + unfold renderCompletionSliders. destruct (negb _); [done|].
      rewrite Ea, Ea'. cbn [alterSliders SliderCollection.sliders
                            SliderCollection.set_sliders].
      destruct (renderSliders_delete host (document_ids host) _ _ _ Hi Hskip)
        as [_ H]. revert H.
      destruct (renderSliders host _ (SliderCollection.sliders ac)) as [[? ?] ?].
      by destruct (renderSliders host _ (delete i _)) as [[? ?] ?].
    + rewrite renderCompletionSliders_settings, (slidersAt_synced _ _ _ _ Ea).
      eexists. split; [done|].
      change (map (rendered host) ?l) with (rendered host <$> l).
      rewrite list_lookup_fmap, Hi. simpl. f_equal.
      unfold rendered, syncSlider. rewrite Hskip. by destruct (container_available host).
  - intros Hprop. unfold onChatCompletionSettingsReady.
    destruct (negb _); [done|]. rewrite Ea, Ea'. f_equal. f_equal.
    unfold customBody. f_equal.
    cbn [alterSliders SliderCollection.sliders SliderCollection.set_sliders].
    rewrite Hdel, <- Hsplit at 1. f_equal.
    by apply sliderValues_skip, not_injected_of_empty_property.
  - intros _ Hinj Hproto Hsrc.
    rewrite (onChatCompletionSettingsReady_custom s a ac data Hsrc Ea).
    split; [done|]. rewrite (customBody_get _ _ _ Hproto), <- Hsplit.
    destruct (lastInjected_is_Some (take i (SliderCollection.sliders ac)) x
                (drop (S i) (SliderCollection.sliders ac)) Hinj) as [v Hv].
    rewrite Hv. by exists v.
Qed.
End RequestTheorems.

Lemma request_body_gets_slider_values_witness :
  yaml_parse (Builtins := referenceBuiltins)
    (custom_include_body
       (onChatCompletionSettingsReady (B := referenceBuiltins)
          (tempSettings true) (customRequest "")))
  = Some (VObject [("temperature", VNum 1.5)]).
Proof.
  exact (proj2 (proj2 (proj2 (proj2 (proj2 (proj2
           (request_body_gets_slider_values (B := referenceBuiltins)
              (tempSettings true) 0
              (SliderCollection.mk true "A" [tempSlider true] [])
              (customRequest "") eq_refl eq_refl)))))
           eq_refl eq_refl) eq_refl).
Defined.

(** C2 as the specification states it fails when two enabled sliders share a
    property: the pair of the earlier one is not in the object that is
    written, the later one replaces it. *)
Lemma later_slider_replaces_earlier :
  let early := SliderModel.mk "Temp" "temperature" "0" "2" "0.1" 0.5 true in
  let late := SliderModel.mk "Heat" "temperature" "0" "2" "0.1" 1.5 true in
  let ac := SliderCollection.mk true "A" [early; late] [] in
  injected early = true
  /\ customBody (B := referenceBuiltins) ac (customRequest "")
     = objectLiteral [("temperature", VNum 1.5)]
  /\ custom_include_body
       (onChatCompletionSettingsReady (B := referenceBuiltins)
          {| collections := [ac] |} (customRequest ""))
     = "temperature: 1.5" +:+ Ref.newline.
Proof. repeat split; vm_compute; reflexivity. Qed.

(** A number assigned to [__proto__] writes nothing: the one slider of the
    collection reaches the assignment, and the object is empty. *)
Example proto_slider_writes_no_key :
  let x := SliderModel.mk "Proto" "__proto__" "0" "2" "0.1" 1.5 true in
  let ac := SliderCollection.mk true "A" [x] [] in
  injected x = true
  /\ customBody (B := referenceBuiltins) ac (customRequest "") = emptyObject
  /\ custom_include_body
       (onChatCompletionSettingsReady (B := referenceBuiltins)
          {| collections := [ac] |} (customRequest ""))
     = "{}" +:+ Ref.newline.
Proof. repeat split; vm_compute; reflexivity. Qed.

Lemma no_enabled_slider_reserializes_body_witness :
  custom_include_body
    (onChatCompletionSettingsReady (B := referenceBuiltins)
       (tempSettings false) (customRequest ""))
  = yaml_stringify (Builtins := referenceBuiltins) emptyObject.
Proof.
  refine (proj2 (proj2
            (no_enabled_slider_reserializes_body (B := referenceBuiltins)
               (tempSettings false) 0
               (SliderCollection.mk true "A" [tempSlider false] [])
               (customRequest "") eq_refl eq_refl _))
            eq_refl).
  repeat constructor.
Defined.

(** C5 as the specification states it fails in its own scenario: with the
    slider Temp disabled and an empty body-merge text the field is not left
    empty, it becomes the text of the empty object. *)
Lemma disabled_slider_still_rewrites_body :
  custom_include_body (customRequest "") = ""
  /\ custom_include_body
       (onChatCompletionSettingsReady (B := referenceBuiltins)
          (tempSettings false) (customRequest ""))
     = "{}" +:+ Ref.newline.
Proof. split; vm_compute; reflexivity. Qed.

Lemma empty_property_or_name_is_skipped_witness :
  (renderCompletionSliders (B := referenceBuiltins) examplePage
                           namelessSettings).1.2
  = (renderCompletionSliders (B := referenceBuiltins) examplePage
                             (withoutSlider 0 0 namelessSettings)).1.2.
Proof.
  exact (proj1 (proj1
           (empty_property_or_name_is_skipped (B := referenceBuiltins)
              examplePage namelessSettings 0
              (SliderCollection.mk true "A" [namelessSlider] []) 0
              namelessSlider (customRequest "") eq_refl eq_refl)
           (or_intror eq_refl))).
Defined.

(** C4 as the specification states it fails for an empty name: the slider
    gets no live control, but the request handler writes its key. *)
Lemma nameless_slider_is_injected :
  truthy (SliderModel.name namelessSlider) = false
  /\ (renderCompletionSliders (B := referenceBuiltins) examplePage
                              namelessSettings).1.2 = []
  /\ customBody (B := referenceBuiltins)
       (SliderCollection.mk true "A" [namelessSlider] []) (customRequest "")
     = objectLiteral [("temperature", VNum 1.5)]
  /\ custom_include_body
       (onChatCompletionSettingsReady (B := referenceBuiltins)
          namelessSettings (customRequest ""))
     = "temperature: 1.5" +:+ Ref.newline.
Proof. repeat split; vm_compute; reflexivity. Qed.

(** ** C8: an import file that is not a JSON array *)

Section ImportFile.
Context {B : Builtins}.

(** C8.  When the text of the import file is not JSON, or is JSON whose top
    level value is not an array, the import shows one error toast and leaves
    the settings as they were, whatever the user would have answered to the
    prompt. *)
Theorem import_rejects_bad_file host fileContent newName s :
  (json_parse fileContent = None ->
   onImportFileLoaded host fileContent newName s
   = (s, [Toast ToastError "Failed to parse JSON file."]))
  /\ (forall v,
        json_parse fileContent = Some v -> isArray v = false ->
        onImportFileLoaded host fileContent newName s
        = (s, [Toast ToastError "Invalid JSON file format."])).
Proof.
  unfold onImportFileLoaded. split.
  - by intros ->.
  - intros v -> Hv. by rewrite Hv.
Qed.
End ImportFile.

Lemma import_rejects_bad_file_witness :
  onImportFileLoaded (B := referenceBuiltins) examplePage "{" (Some "C")
                     twoCollections
  = (twoCollections, [Toast ToastError "Failed to parse JSON file."])
  /\ onImportFileLoaded (B := referenceBuiltins) examplePage "{}" (Some "C")
                        twoCollections
     = (twoCollections, [Toast ToastError "Invalid JSON file format."]).
Proof.
  split.
  - exact (proj1 (import_rejects_bad_file (B := referenceBuiltins) examplePage
                    "{" (Some "C") twoCollections) eq_refl).
  - exact (proj2 (import_rejects_bad_file (B := referenceBuiltins) examplePage
                    "{}" (Some "C") twoCollections) (VObject []) eq_refl eq_refl).
Defined.

(** * Further properties of the handlers *)

(** ** The settings accessor *)

(** X1.  [getSettings] is idempotent: the settings it returns are returned as
    they are by the next call.  Of a stored list that is not empty it changes
    at most the first entry, and that one only by setting its [active] flag
    when no entry of the list is active: no collection is added, removed,
    renamed or deactivated, and no slider or preset binding is touched. *)
Theorem getSettings_idempotent_and_conservative :
  (forall g, getSettings (NamespacePresent (getSettings g)) = getSettings g)
  /\ (forall c l,
        exists c',
          collections
            (getSettings (NamespacePresent {| collections := c :: l |}))
          = c' :: l
          /\ (c' = c
              \/ (activeCount (c :: l) = 0
                  /\ c' = SliderCollection.set_active true c))).
Proof.
  split.
  - intros g. destruct (getSettings_healthy g) as [Hne Hact].
    by apply getSettings_id.
  - intros c l. destruct (activeCount (c :: l)) eqn:E0.
    + exists (SliderCollection.set_active true c).
      rewrite (getSettings_none_active _ _ E0). split; [done|]. by right.
    + exists c. rewrite getSettings_some_active by lia. split; [done|].
      by left.
Qed.

(** ** What every session keeps *)

Section SessionInvariants.
Context {B : Builtins}.

Lemma namesNonEmpty_sameFrame s s' :
  sameFrame s s' -> namesNonEmpty s -> namesNonEmpty s'.
Proof. unfold namesNonEmpty. intros Hf. by rewrite (names_frame _ _ Hf). Qed.

Lemma namesNonEmpty_pushActive host name sliders s :
  truthy name = true -> namesNonEmpty s ->
  namesNonEmpty
    (synced host (pushActive (SliderCollection.mk true name sliders []) s)).
Proof.
  intros Hname Hs. eapply namesNonEmpty_sameFrame; [apply synced_frame|].
  unfold namesNonEmpty. rewrite names_pushActive.
  apply Forall_app. split; [done|]. by repeat constructor.
Qed.

Lemma Forall_delete_names (P : string -> Prop) i (l : list SliderCollection.t) :
  Forall P (map SliderCollection.name l) ->
  Forall P (map SliderCollection.name
              (alter (SliderCollection.set_active true) 0 (delete i l))).
Proof.
  intros Hl. rewrite map_alter_fixed by done.
  change (map SliderCollection.name ?l) with (SliderCollection.name <$> l) in *.
  rewrite Forall_fmap in *. by apply Forall_delete.
Qed.

Lemma handle_namesNonEmpty host e s :
  baseInvariant s -> namesNonEmpty s -> namesNonEmpty (handle host e s).1.
Proof.
  intros Hinv Hs.
  pose proof (slider_events_frame host e s Hinv) as Hframe.
  destruct e; try (by eapply namesNonEmpty_sameFrame; [exact Hframe|]);
    simpl in *.
  - unfold onCollectionsChange. rewrite !andThen_settings. cbn [modify emit fst].
    rewrite renderSliderConfigs_settings.
    eapply namesNonEmpty_sameFrame; [apply synced_frame|].
    unfold namesNonEmpty. simpl. by rewrite map_map.
  - unfold onImportFileLoaded. destruct (json_parse fileContent) as [v|]; [|done].
    destruct (negb (isArray v)); [done|]. unfold processImport.
    destruct newName as [name|]; [|done].
    destruct (truthy name) eqn:Hname; [|done]. cbn [negb].
    destruct (findNamed name s); [done|].
    rewrite !andThen_settings. cbn [modify emit fst].
    rewrite renderSliderConfigs_settings. by apply namesNonEmpty_pushActive.
  - unfold deleteCollection. rewrite (baseInvariant_getSettings _ Hinv).
    destruct (Nat.eqb _ 1); [done|].
    destruct (findActive s) as [[i c]|] eqn:E; [|done].
    destruct (negb confirm); [done|].
    rewrite !andThen_settings. cbn [modify emit fst].
    rewrite renderSliderConfigs_settings.
    eapply namesNonEmpty_sameFrame; [apply synced_frame|].
    by apply Forall_delete_names.
  - unfold createCollection. rewrite (baseInvariant_getSettings _ Hinv).
    destruct name as [name|]; [|done].
    destruct (truthy name) eqn:Hname; [|done]. cbn [negb].
    destruct (findNamed name s); [done|].
    rewrite !andThen_settings. cbn [modify emit fst].
    rewrite renderSliderConfigs_settings. by apply namesNonEmpty_pushActive.
  - rewrite bindToPreset_settings. cbv zeta.
    rewrite (baseInvariant_getSettings _ Hinv).
    destruct (truthy _); [|done].
    destruct (findActive s) as [[a ac]|]; [|done].
    eapply namesNonEmpty_sameFrame; [apply synced_frame|].
    destruct (rebound_keeps_flags_and_names (preset_settings_openai host) a s)
      as (_ & Hn & _).
    unfold namesNonEmpty. by rewrite Hn.
  - unfold onPresetChanged. destruct (findActive s) as [[a ac]|]; [|done].
    destruct (findWithPreset _ s) as [[h hc]|]; [|done].
    destruct (negb _); [|done].
    rewrite !andThen_settings. cbn [modify emit fst].
    rewrite renderSliderConfigs_settings.
    eapply namesNonEmpty_sameFrame; [apply synced_frame|].
    unfold namesNonEmpty. simpl. by rewrite !map_alter_fixed.
Qed.

Lemma reachable_namesNonEmpty s : reachable s -> namesNonEmpty s.
Proof.
  induction 1 as [host|host|host s Hr IH|host e s Hr IH Hsel].
  - unfold init. rewrite andThen_settings. cbn [emit fst].
    rewrite renderSliderConfigs_settings.
    eapply namesNonEmpty_sameFrame; [apply synced_frame|].
    by repeat constructor.
  - unfold init. rewrite andThen_settings. cbn [emit fst].
    rewrite renderSliderConfigs_settings.
    eapply namesNonEmpty_sameFrame; [apply synced_frame|].
    by repeat constructor.
  - unfold init. rewrite andThen_settings. cbn [emit fst].
    rewrite renderSliderConfigs_settings.
    eapply namesNonEmpty_sameFrame; [apply synced_frame|].
    destruct (reachable_wellFormed s Hr) as (Hinv & _).
    by rewrite (baseInvariant_getSettings _ Hinv).
  - apply handle_namesNonEmpty; [|done].
    by destruct (reachable_wellFormed s Hr).
Qed.

(** X3.  In every state a session reaches from a first start, by restarts and
    by any of the events of the panel, the rows, the live controls and the
    host (the collection selector offering the names of the collections), the
    collection list is not empty and exactly one collection is active, so that
    [find] returns the active collection and [getSettings] repairs nothing;
    and no collection has an empty name. *)
Theorem reachable_has_one_active s :
  reachable s ->
  baseInvariant s
  /\ is_Some (findActive s)
  /\ getSettings (NamespacePresent s) = s
  /\ namesNonEmpty s.
Proof.
  intros Hr. destruct (reachable_wellFormed s Hr) as (Hinv & _).
  split; [done|]. split; [|split].
  - apply findActive_is_Some. destruct Hinv as [_ ->]. lia.
  - by apply baseInvariant_getSettings.
  - by apply reachable_namesNonEmpty.
Qed.
End SessionInvariants.

Lemma reachable_has_one_active_witness :
  let s :=
    (handle (B := referenceBuiltins) examplePage
            (CreateCollectionClick (Some "B"))
            (init (B := referenceBuiltins) examplePage NamespaceAbsent).1).1 in
  baseInvariant s
  /\ is_Some (findActive s)
  /\ getSettings (NamespacePresent s) = s
  /\ namesNonEmpty s.
Proof.
  apply (reachable_has_one_active (B := referenceBuiltins)).
  apply reachable_event; [apply reachable_absent|]. intros ? [=].
Defined.

(** ** Edits of the sliders of the active collection *)

Lemma alterSliders_id c : alterSliders (fun l => l) c = c.
Proof. by destruct c. Qed.

Lemma alterCollection_id a s : alterCollection (alterSliders (fun l => l)) a s = s.
Proof.
  destruct s as [l]. unfold alterCollection. simpl. f_equal.
  apply list_alter_id. intros c. apply alterSliders_id.
Qed.

Section SliderEdits.
Context {B : Builtins}.

Lemma synced_alterSliders host f a ac s :
  findActive s = Some (a, ac) ->
  synced host (alterCollection (alterSliders f) a s)
  = alterCollection (alterSliders (fun l => map (rendered host) (f l))) a s.
Proof.
  intros E. unfold synced, rendered.
  destruct (container_available host); simpl.
  - rewrite (findActive_alterSliders f a ac s E).
    unfold alterCollection. simpl. rewrite list_alter_alter_eq. f_equal.
  - unfold alterCollection. f_equal. apply list_alter_ext; [|done].
    intros c _. unfold alterSliders. by rewrite map_id.
Qed.

(** The settings after an edit of the active slider array that is followed
    by a render. *)
Lemma edit_then_render host f s a ac :
  findActive s = Some (a, ac) ->
  synced host (withActiveSliders f s).1
  = alterCollection (alterSliders (fun l => map (rendered host) (f l))) a s.
Proof.
  intros E. unfold withActiveSliders. rewrite E. cbn [fst].
  by apply (synced_alterSliders host f a ac).
Qed.

Lemma slidersAt_edit f s a ac :
  findActive s = Some (a, ac) ->
  slidersAt a (alterCollection (alterSliders f) a s)
  = Some (f (SliderCollection.sliders ac)).
Proof.
  intros E. apply slidersAt_alterSliders. by apply findActive_lookup in E as [? _].
Qed.

Lemma renderSliders_warnings host ids l :
  Forall (fun e => exists m, e = Toast ToastWarning m)
         (renderSliders host ids l).2.
Proof.
  revert ids. induction l as [|s l IH]; intros ids; [by constructor|].
  simpl. destruct (skipped s).
  - specialize (IH ids). by destruct (renderSliders host ids l) as [[? ?] ?].
  - case_bool_decide.
    + specialize (IH ids). destruct (renderSliders host ids l) as [[? ?] ?].
      simpl in *. constructor; [by eexists|done].
    + match goal with |- context [renderSliders host ?i l] =>
        specialize (IH i); destruct (renderSliders host i l) as [[? ?] ?] end.
      done.
Qed.

Lemma renderCompletionSliders_warnings host s :
  Forall (fun e => exists m, e = Toast ToastWarning m)
         (renderCompletionSliders host s).2.
Proof.
  unfold renderCompletionSliders. destruct (negb _); [by constructor|].
  destruct (findActive s) as [[i c]|]; [|by constructor].
  pose proof (renderSliders_warnings host (document_ids host)
                (SliderCollection.sliders c)) as H.
  by destruct (renderSliders _ _ _) as [[? ?] ?].
Qed.

Lemma renderSliderConfigs_never_saves host s :
  SaveSettingsDebounced ∉ (renderSliderConfigs host s).2.
Proof.
  unfold renderSliderConfigs.
  assert (Hw : forall fx,
            Forall (fun e => exists m, e = Toast ToastWarning m) fx ->
            SaveSettingsDebounced ∉ RenderSliderConfigs :: fx).
  { intros fx Hfx Hin. apply elem_of_cons in Hin as [|Hin]; [done|].
    rewrite Forall_forall in Hfx. by destruct (Hfx _ Hin). }
  destruct (findActive s); [|by apply Hw; constructor].
  pose proof (renderCompletionSliders_warnings host s) as H.
  destruct (renderCompletionSliders host s) as [[? ?] fx]. by apply Hw.
Qed.

(** The settings after an event of a row or of a live control: the slider
    array of the active collection is replaced, nothing else. *)
Lemma slider_event_settings host e s a ac :
  findActive s = Some (a, ac) -> isSliderEvent e = true ->
  exists f, (handle host e s).1 = alterCollection (alterSliders f) a s.
Proof.
  intros E He.
  assert (Hfield : forall index update,
            exists f, (onSliderFieldInput host index update s).1
                      = alterCollection (alterSliders f) a s).
  { intros index update. unfold onSliderFieldInput.
    rewrite !andThen_settings. cbn [emit fst].
    rewrite rerenderCompletionSliders_settings, (edit_then_render _ _ _ _ _ E).
    by eexists. }
  assert (Hrender : forall f,
            exists g, ((withActiveSliders f >>> renderSliderConfigs host
                        >>> emit SaveSettingsDebounced) s).1
                      = alterCollection (alterSliders g) a s).
  { intros f. rewrite !andThen_settings. cbn [emit fst].
    rewrite renderSliderConfigs_settings, (edit_then_render _ _ _ _ _ E).
    by eexists. }
  assert (Hid : exists f, s = alterCollection (alterSliders f) a s).
  { exists (fun l => l). by rewrite alterCollection_id. }
  destruct e; try done; simpl; try apply Hfield.
  - unfold createSlider. rewrite (findActive_getSettings _ _ _ E), E.
    rewrite !andThen_settings, renderSliderConfigs_settings.
    rewrite (edit_then_render _ _ _ _ _ E). by eexists.
  - unfold onDeleteClick. destruct (negb confirm); [done|]. rewrite E.
    apply Hrender.
  - unfold onUpClick. destruct (Nat.ltb 0 index); [|done]. rewrite E.
    apply Hrender.
  - unfold onDownClick. rewrite E. destruct (Nat.ltb _ _); [|done].
    apply Hrender.
  - unfold onRangeInput. rewrite andThen_settings. cbn [emit fst].
    unfold withActiveSliders. rewrite E. by eexists.
Qed.

(** X4.  An event of a row of the configuration panel or of a live control
    (create slider, the six field edits, delete, up, down, the range input)
    never reaches beyond the slider array of the active collection: the same
    collection is active afterwards, its name, flag and preset bindings are
    the same, the number of collections is the same and every other collection
    is exactly as before. *)
Theorem slider_events_keep_collections host e s a ac :
  findActive s = Some (a, ac) -> isSliderEvent e = true ->
  exists ac',
    findActive (handle host e s).1 = Some (a, ac')
    /\ frame ac' = frame ac
    /\ length (collections (handle host e s).1) = length (collections s)
    /\ forall j, j <> a ->
         collections (handle host e s).1 !! j = collections s !! j.
Proof.
  intros E He. destruct (slider_event_settings host e s a ac E He) as [f ->].
  exists (alterSliders f ac). split; [by apply findActive_alterSliders|].
  split; [done|]. split.
  - simpl. apply length_alter.
  - intros j Hj. simpl. by apply list_lookup_alter_ne.
Qed.

Lemma rendered_newSlider host : rendered host newSlider = newSlider.
Proof. unfold rendered. by destruct (container_available host). Qed.

(** X5.  [createSlider] puts the new slider (named New Slider, empty property,
    bounds 0 and 1, value 0, enabled) in front of the sliders of the active
    collection, which keep their order.  It does not request a save.  As long
    as its property is empty the new slider writes no key to the request body
    and gets no live control. *)
Theorem createSlider_prepends host s :
  exists a ac,
    findActive (getSettings (NamespacePresent s)) = Some (a, ac)
    /\ slidersAt a (createSlider host s).1
       = Some (newSlider :: map (rendered host) (SliderCollection.sliders ac))
    /\ (SaveSettingsDebounced ∉ (createSlider host s).2)
    /\ (forall l, sliderValues (newSlider :: l) = sliderValues l)
    /\ (forall ids l,
          (renderSliders host ids (newSlider :: l)).1.2
          = (renderSliders host ids l).1.2).
Proof.
  destruct (getSettings_healthy (NamespacePresent s)) as [_ Hact].
  destruct (findActive_is_Some _ Hact) as [[a ac] E].
  exists a, ac. split; [done|]. split; [|split; [|split]].
  - unfold createSlider. rewrite E.
    rewrite !andThen_settings, renderSliderConfigs_settings.
    rewrite (edit_then_render _ _ _ _ _ E), (slidersAt_edit _ _ _ _ E).
    cbn [map]. by rewrite rendered_newSlider.
  - unfold createSlider. rewrite E. rewrite andThen_effects.
    unfold withActiveSliders at 1. rewrite E. simpl.
    apply renderSliderConfigs_never_saves.
  - intros l. reflexivity.
  - intros ids l. simpl.
    by destruct (renderSliders host ids l) as [[? ?] ?].
Qed.

Lemma last_effect_saves (a : Action) s :
  last ((a >>> emit SaveSettingsDebounced) s).2 = Some SaveSettingsDebounced.
Proof. rewrite andThen_effects. simpl. apply last_snoc. Qed.

(** X7.  The delete control of the row at [index] does nothing when the user
    declines.  When the user confirms, the entry at [index] is removed from
    the sliders of the active collection: the entries before it stay at their
    index, the later ones move up by one, and the save is requested; entries
    are read after the render that ends the handler.  For an index outside the
    array no entry is removed. *)
Theorem onDeleteClick_removes_one host index s a ac :
  findActive s = Some (a, ac) ->
  onDeleteClick host index false s = (s, [])
  /\ slidersAt a (onDeleteClick host index true s).1
     = Some (map (rendered host)
                 (delete index (SliderCollection.sliders ac)))
  /\ (forall l',
        slidersAt a (onDeleteClick host index true s).1 = Some l' ->
        (index < length (SliderCollection.sliders ac) ->
         length l' + 1 = length (SliderCollection.sliders ac))
        /\ (length (SliderCollection.sliders ac) <= index ->
            l' = map (rendered host) (SliderCollection.sliders ac))
        /\ (forall k, k < index ->
              l' !! k = rendered host <$> SliderCollection.sliders ac !! k)
        /\ (forall k, index <= k ->
              l' !! k
              = rendered host <$> SliderCollection.sliders ac !! S k))
  /\ last (onDeleteClick host index true s).2 = Some SaveSettingsDebounced.
Proof.
  intros E. split; [done|].
  assert (Hrun : slidersAt a (onDeleteClick host index true s).1
                 = Some (map (rendered host)
                             (delete index (SliderCollection.sliders ac)))).
  { unfold onDeleteClick. cbn [negb]. rewrite E.
    rewrite !andThen_settings. cbn [emit fst].
    rewrite renderSliderConfigs_settings, (edit_then_render _ _ _ _ _ E).
    by rewrite (slidersAt_edit _ _ _ _ E). }
  split; [done|]. split.
  - rewrite Hrun. intros l' [= <-].
    change (map (rendered host) ?l) with (rendered host <$> l).
    split; [|split; [|split]].
    + intros Hlt. rewrite length_fmap.
      pose proof (length_delete (SliderCollection.sliders ac) index) as Hd.
      rewrite (Hd (lookup_lt_is_Some_2 _ _ Hlt)). lia.
    + intros Hge. f_equal. apply list_eq. intros k.
      destruct (decide (k < index)).
      * by rewrite list_lookup_delete_lt.
      * rewrite list_lookup_delete_ge by lia.
        rewrite !lookup_ge_None_2; [done|lia..].
    + intros k Hk. by rewrite list_lookup_fmap, list_lookup_delete_lt.
    + intros k Hk. by rewrite list_lookup_fmap, list_lookup_delete_ge.
  - unfold onDeleteClick. cbn [negb]. rewrite E.
    change (withActiveSliders (delete index) >>> renderSliderConfigs host
            >>> emit SaveSettingsDebounced)
      with (withActiveSliders (delete index)
            >>> (renderSliderConfigs host >>> emit SaveSettingsDebounced)).
    rewrite andThen_effects. rewrite last_app, last_effect_saves. done.
Qed.

Lemma onSliderFieldInput_sliders host index update s a ac :
  findActive s = Some (a, ac) ->
  slidersAt a (onSliderFieldInput host index update s).1
  = Some (map (rendered host)
              (alter update index (SliderCollection.sliders ac))).
Proof.
  intros E. unfold onSliderFieldInput.
  rewrite !andThen_settings. cbn [emit fst].
  rewrite rerenderCompletionSliders_settings, (edit_then_render _ _ _ _ _ E).
  by rewrite (slidersAt_edit _ _ _ _ E).
Qed.

Lemma alter_lookup_insert (update : SliderModel.t -> SliderModel.t)
    (i : nat) (l : list SliderModel.t) x :
  l !! i = Some x -> alter update i l = <[i := update x]> l.
Proof.
  intros Hx. apply list_eq. intros k. destruct (decide (k = i)) as [->|].
  - rewrite list_lookup_alter_eq, Hx, list_lookup_insert_eq; [done|].
    by eapply lookup_lt_Some.
  - by rewrite list_lookup_alter_ne, list_lookup_insert_ne.
Qed.

(** X6.  An edit in the row at [index] overwrites the one field of the slider
    at that index of the active collection and keeps every other slider and
    every other field; the live controls are rendered again, which can clamp
    stored values ([rendered]), and the save is requested last. *)
Theorem field_edit_writes_one_field host index s a ac x :
  findActive s = Some (a, ac) ->
  SliderCollection.sliders ac !! index = Some x ->
  let l := SliderCollection.sliders ac in
  (forall v,
     slidersAt a (onNameInput host index v s).1
     = Some (map (rendered host) (<[index := SliderModel.set_name v x]> l))
     /\ last (onNameInput host index v s).2 = Some SaveSettingsDebounced)
  /\ (forall v,
        slidersAt a (onPropertyInput host index v s).1
        = Some (map (rendered host)
                    (<[index := SliderModel.set_property v x]> l))
        /\ last (onPropertyInput host index v s).2
           = Some SaveSettingsDebounced)
  /\ (forall v,
        slidersAt a (onMinInput host index v s).1
        = Some (map (rendered host) (<[index := SliderModel.set_min v x]> l))
        /\ last (onMinInput host index v s).2 = Some SaveSettingsDebounced)
  /\ (forall v,
        slidersAt a (onMaxInput host index v s).1
        = Some (map (rendered host) (<[index := SliderModel.set_max v x]> l))
        /\ last (onMaxInput host index v s).2 = Some SaveSettingsDebounced)
  /\ (forall v,
        slidersAt a (onStepInput host index v s).1
        = Some (map (rendered host) (<[index := SliderModel.set_step v x]> l))
        /\ last (onStepInput host index v s).2 = Some SaveSettingsDebounced)
  /\ (forall v,
        slidersAt a (onEnabledChange host index v s).1
        = Some (map (rendered host)
                    (<[index := SliderModel.set_enabled v x]> l))
        /\ last (onEnabledChange host index v s).2
           = Some SaveSettingsDebounced).
Proof.
  intros E Hx l.
  assert (H : forall update,
            slidersAt a (onSliderFieldInput host index update s).1
            = Some (map (rendered host) (<[index := update x]> l))
            /\ last (onSliderFieldInput host index update s).2
               = Some SaveSettingsDebounced).
  { intros update. split.
    - rewrite (onSliderFieldInput_sliders _ _ _ _ _ _ E).
      by rewrite (alter_lookup_insert _ _ _ _ Hx).
    - unfold onSliderFieldInput.
      rewrite andThen_effects, last_app, last_effect_saves. done. }
  repeat split; apply H.
Qed.
End SliderEdits.

Lemma slider_events_keep_collections_witness :
  exists ac',
    findActive (handle (B := referenceBuiltins) examplePage (UpClick 1)
                       threeSliders).1 = Some (0, ac')
    /\ frame ac' = (true, "Default", [])
    /\ length (collections (handle (B := referenceBuiltins) examplePage
                                   (UpClick 1) threeSliders).1) = 1
    /\ forall j, j <> 0 ->
         collections (handle (B := referenceBuiltins) examplePage (UpClick 1)
                             threeSliders).1 !! j
         = collections threeSliders !! j.
Proof.
  exact (slider_events_keep_collections (B := referenceBuiltins) examplePage
           (UpClick 1) threeSliders 0 _ eq_refl eq_refl).
Defined.

Lemma onDeleteClick_removes_one_witness :
  slidersAt 0 (onDeleteClick (B := referenceBuiltins) examplePage 1 true
                             threeSliders).1
  = Some [SliderModel.mk "Temp" "temperature" "0" "2" "0.1" 1.5 true;
          SliderModel.mk "Top K" "top_k" "0" "100" "1" 40 false].
Proof.
  exact (proj1 (proj2 (onDeleteClick_removes_one (B := referenceBuiltins)
                         examplePage 1 threeSliders 0 _ eq_refl))).
Defined.

Lemma field_edit_writes_one_field_witness :
  slidersAt 0 (onMaxInput (B := referenceBuiltins) examplePage 0 "1"
                          threeSliders).1
  = Some [SliderModel.mk "Temp" "temperature" "0" "1" "0.1" 1 true;
          SliderModel.mk "Top P" "top_p" "0" "1" "0.01" 0.5 true;
          SliderModel.mk "Top K" "top_k" "0" "100" "1" 40 false].
Proof.
  exact (proj1 (proj1 (proj2 (proj2 (proj2
           (field_edit_writes_one_field (B := referenceBuiltins) examplePage 0
              threeSliders 0 _ _ eq_refl eq_refl)))) "1")).
Defined.

(** ** The live control and the next request *)

Section RangeInputTheorem.
Context {B : Builtins}.

(** X9.  Moving the live control of the slider at [index] (a slider that has
    one: enabled, with a name and a property) stores [parseFloat(text)] as its
    value, as it is (no render follows, so the value is not clamped), changes
    no other slider and requests the save only.  If no later slider writes the
    property of the slider, and the property is not [__proto__], the next
    request with the custom source carries the number under that property;
    when the text parses to NaN the slider writes nothing, and the key holds
    what the body-merge text gave it unless an earlier slider writes it.  For
    the property [__proto__] the request has that key as the body-merge text
    made it, whatever the control shows. *)
Theorem range_input_reaches_request index text s a ac x data :
  findActive s = Some (a, ac) ->
  SliderCollection.sliders ac !! index = Some x ->
  skipped x = false ->
  chat_completion_source data = "custom" ->
  Forall (fun y => injected y = true ->
                   SliderModel.property y <> SliderModel.property x)
         (drop (S index) (SliderCollection.sliders ac)) ->
  exists ac',
    findActive (onRangeInput index text s).1 = Some (a, ac')
    /\ SliderCollection.sliders ac'
       = <[index := SliderModel.set_value (parseFloat text) x]>
           (SliderCollection.sliders ac)
    /\ (onRangeInput index text s).2 = [SaveSettingsDebounced]
    /\ custom_include_body
         (onChatCompletionSettingsReady (onRangeInput index text s).1 data)
       = yaml_stringify (customBody ac' data)
    /\ (PrimFloat.is_nan (parseFloat text) = false ->
        SliderModel.property x <> "__proto__" ->
        getProperty (SliderModel.property x) (customBody ac' data)
        = Some (VNum (parseFloat text)))
    /\ (PrimFloat.is_nan (parseFloat text) = true ->
        Forall (fun y => injected y = true ->
                         SliderModel.property y <> SliderModel.property x)
               (take index (SliderCollection.sliders ac)) ->
        getProperty (SliderModel.property x) (customBody ac' data)
        = getProperty (SliderModel.property x)
            (mergeYamlIntoObject emptyObject (custom_include_body data)))
    /\ (SliderModel.property x = "__proto__" ->
        getProperty (SliderModel.property x) (customBody ac' data)
        = getProperty (SliderModel.property x)
            (mergeYamlIntoObject emptyObject (custom_include_body data))).
Proof.
  intros E Hx Hshown Hsrc Hlater.
  assert (Hen : SliderModel.enabled x = true
                /\ truthy (SliderModel.property x) = true).
  { unfold skipped in Hshown.
    destruct (SliderModel.enabled x), (truthy (SliderModel.property x)); done. }
  destruct Hen as [Hen Hprop].
  set (x' := SliderModel.set_value (parseFloat text) x).
  set (f := fun l : list SliderModel.t =>
              alter (SliderModel.set_value (parseFloat text)) index l).
  assert (Hs : (onRangeInput index text s).1
               = alterCollection (alterSliders f) a s).
  { unfold onRangeInput. rewrite andThen_settings. cbn [emit fst].
    unfold withActiveSliders. by rewrite E. }
  assert (Hl : SliderCollection.sliders (alterSliders f ac)
               = take index (SliderCollection.sliders ac)
                 ++ x' :: drop (S index) (SliderCollection.sliders ac)).
  { cbn [alterSliders SliderCollection.sliders SliderCollection.set_sliders].
    unfold f. rewrite (alter_lookup_insert _ _ _ _ Hx).
    apply insert_take_drop. by eapply lookup_lt_Some. }
  assert (Ea : findActive (onRangeInput index text s).1
               = Some (a, alterSliders f ac)).
  { rewrite Hs. by apply findActive_alterSliders. }
  exists (alterSliders f ac). split; [done|]. split.
  { cbn [alterSliders SliderCollection.sliders SliderCollection.set_sliders].
    unfold f. by rewrite (alter_lookup_insert _ _ _ _ Hx). }
  split.
  { unfold onRangeInput. rewrite andThen_effects.
    unfold withActiveSliders at 1. by rewrite E. }
  split.
  { by rewrite (onChatCompletionSettingsReady_custom _ _ _ _ Hsrc Ea). }
  assert (Hinj : injected x' = negb (PrimFloat.is_nan (parseFloat text))).
  { unfold injected, x'. simpl. by rewrite Hen, Hprop. }
  change (SliderModel.property x) with (SliderModel.property x').
  split; [|split].
  - intros Hnum Hproto.
    rewrite (customBody_get _ _ _ Hproto), Hl, lastInjected_own; [done| |done].
    by rewrite Hinj, Hnum.
  - intros Hnan Hearlier.
    destruct (decide (SliderModel.property x' = "__proto__")) as [->|Hproto];
      [apply customBody_proto|].
    rewrite (customBody_get _ _ _ Hproto), Hl, lastInjected_absent; [done|].
    apply Forall_app. split; [done|]. constructor; [|done].
    by rewrite Hinj, Hnan.
  - intros ->. apply customBody_proto.
Qed.
End RangeInputTheorem.

Lemma range_input_reaches_request_witness :
  exists ac',
    findActive (onRangeInput (B := referenceBuiltins) 0 "0.75" threeSliders).1
    = Some (0, ac')
    /\ getProperty "temperature"
         (customBody (B := referenceBuiltins) ac' (customRequest ""))
       = Some (VNum 0.75).
Proof.
  destruct (range_input_reaches_request (B := referenceBuiltins) 0 "0.75"
              threeSliders 0 _ _ (customRequest "")
              eq_refl eq_refl eq_refl eq_refl)
    as (ac' & Ea & _ & _ & _ & Hnum & _).
  { repeat constructor; intros _ [=]. }
  exists ac'. split; [exact Ea|]. apply (Hnum eq_refl). intros [=].
Defined.

(** ** The collection selector, the preset hook, delete and import *)

Lemma lookup_names_distinct (l : list SliderCollection.t) i j ci cj :
  NoDup (map SliderCollection.name l) ->
  l !! i = Some ci -> l !! j = Some cj ->
  SliderCollection.name ci = SliderCollection.name cj -> i = j.
Proof.
  intros Hnd Hi Hj Hn.
  apply (NoDup_lookup _ i j (SliderCollection.name ci) Hnd).
  - change (map SliderCollection.name l) with (SliderCollection.name <$> l).
    by rewrite list_lookup_fmap, Hi.
  - change (map SliderCollection.name l) with (SliderCollection.name <$> l).
    by rewrite list_lookup_fmap, Hj, Hn.
Qed.

Section CollectionSwitches.
Context {B : Builtins}.

(** What a render does to the settings, given the active collection. *)
Lemma synced_active host s a ac :
  findActive s = Some (a, ac) ->
  synced host s
  = alterCollection (alterSliders (map (rendered host))) a s.
Proof.
  intros E. rewrite <- (alterCollection_id a s) at 1.
  by rewrite (synced_alterSliders host _ a ac).
Qed.

Lemma renderSliderConfigs_active host s a ac :
  findActive s = Some (a, ac) ->
  (renderSliderConfigs host s).1
  = alterCollection (alterSliders (map (rendered host))) a s
  /\ findActive (renderSliderConfigs host s).1
     = Some (a, alterSliders (map (rendered host)) ac).
Proof.
  intros E. rewrite renderSliderConfigs_settings, (synced_active _ _ _ _ E).
  split; [done|]. by apply findActive_alterSliders.
Qed.

(** The settings and the effects of a change of the collection list that is
    followed by the save and the render of the configuration. *)
Lemma change_save_render host (f : ExtensionSettings -> ExtensionSettings) s :
  ((modify f >>> emit SaveSettingsDebounced >>> renderSliderConfigs host) s).1
  = (renderSliderConfigs host (f s)).1
  /\ SaveSettingsDebounced
     ∈ ((modify f >>> emit SaveSettingsDebounced
         >>> renderSliderConfigs host) s).2.
Proof.
  split.
  - by rewrite !andThen_settings.
  - rewrite !andThen_effects. cbn [modify emit fst snd]. simpl. by left.
Qed.

Lemma onCollectionsChange_unfold host selectedName s :
  (onCollectionsChange host selectedName s).1
  = (renderSliderConfigs host
       {| collections :=
            map (fun c => SliderCollection.set_active
                            (bool_decide (SliderCollection.name c
                                          = selectedName)) c)
                (collections s) |}).1
  /\ SaveSettingsDebounced ∈ (onCollectionsChange host selectedName s).2.
Proof.
  exact (change_save_render host
           (fun settings =>
              {| collections :=
                   map (fun c => SliderCollection.set_active
                                   (bool_decide (SliderCollection.name c
                                                 = selectedName)) c)
                       (collections settings) |}) s).
Qed.

Lemma onCollectionsChange_active host selectedName s i c :
  namesDistinct s ->
  collections s !! i = Some c ->
  SliderCollection.name c = selectedName ->
  findActive (onCollectionsChange host selectedName s).1
  = Some (i, SliderCollection.mk true (SliderCollection.name c)
               (map (rendered host) (SliderCollection.sliders c))
               (SliderCollection.presets c))
  /\ (forall j cj,
        j <> i -> collections s !! j = Some cj ->
        collections (onCollectionsChange host selectedName s).1 !! j
        = Some (SliderCollection.set_active false cj)).
Proof.
  intros Hnd Hi Hname.
  destruct (onCollectionsChange_unfold host selectedName s) as [-> _].
  set (selected := {| collections := _ |}).
  assert (Ea : findActive selected
               = Some (i, SliderCollection.set_active true c)).
  { apply list_find_Some. unfold selected. simpl.
    change (map ?g (collections s)) with (g <$> collections s).
    rewrite list_lookup_fmap, Hi. simpl.
    rewrite bool_decide_true by done. split; [done|]. split; [done|].
    intros j y Hj Hlt. rewrite list_lookup_fmap in Hj.
    destruct (collections s !! j) as [cj|] eqn:Ej; [|done].
    simpl in Hj. injection Hj as <-. simpl.
    rewrite bool_decide_false; [done|]. intros Hn.
    pose proof (lookup_names_distinct _ _ _ _ _ Hnd Hi Ej) as Heq.
    rewrite Hname, Hn in Heq. specialize (Heq eq_refl). lia. }
  destruct (renderSliderConfigs_active host _ _ _ Ea) as [-> ->].
  split; [done|].
  intros j cj Hj Ej. unfold selected. simpl.
  rewrite list_lookup_alter_ne by done.
  change (map ?g (collections s)) with (g <$> collections s).
  rewrite list_lookup_fmap, Ej. simpl.
  rewrite bool_decide_false; [done|]. intros Hn.
  pose proof (lookup_names_distinct _ _ _ _ _ Hnd Hi Ej) as Heq.
  rewrite Hname, Hn in Heq. specialize (Heq eq_refl). lia.
Qed.

(** X11.  A selection in the collection selector, when the names of the
    collections are pairwise distinct: the collection that carries the
    selected name becomes the active one and every other collection is
    inactive afterwards; names, preset bindings and the sliders of the other
    collections are kept, the sliders of the selected collection are rendered.
    A name that no collection carries deactivates every collection.  The save
    is requested in either case. *)
Theorem onCollectionsChange_selects host selectedName s :
  (forall i c,
     namesDistinct s ->
     collections s !! i = Some c ->
     SliderCollection.name c = selectedName ->
     findActive (onCollectionsChange host selectedName s).1
     = Some (i, SliderCollection.mk true (SliderCollection.name c)
                  (map (rendered host) (SliderCollection.sliders c))
                  (SliderCollection.presets c))
     /\ (forall j cj,
           j <> i -> collections s !! j = Some cj ->
           collections (onCollectionsChange host selectedName s).1 !! j
           = Some (SliderCollection.set_active false cj)))
  /\ ((selectedName ∉ map SliderCollection.name (collections s)) ->
      findActive (onCollectionsChange host selectedName s).1 = None
      /\ collections (onCollectionsChange host selectedName s).1
         = map (SliderCollection.set_active false) (collections s))
  /\ SaveSettingsDebounced ∈ (onCollectionsChange host selectedName s).2.
Proof.
  split; [intros i c; apply onCollectionsChange_active|].
  destruct (onCollectionsChange_unfold host selectedName s) as [Hs Hfx].
  split; [|done]. rewrite Hs. set (selected := {| collections := _ |}).
  intros Hnot.
  assert (Hsel : selected
                 = {| collections :=
                        map (SliderCollection.set_active false)
                            (collections s) |}).
  { unfold selected. f_equal. apply map_ext_in. intros c Hc.
    rewrite bool_decide_false; [done|]. intros Hn. apply Hnot.
    apply list_elem_of_fmap. exists c. split; [done|].
    by apply list_elem_of_In. }
  assert (Enone : findActive selected = None).
  { rewrite Hsel. apply list_find_None. simpl.
    apply Forall_forall. intros c Hc.
    apply list_elem_of_fmap in Hc as (c0 & -> & _). done. }
  assert (Hsame : synced host selected = selected).
  { unfold synced. rewrite Enone. by destruct (negb _). }
  rewrite renderSliderConfigs_settings, Hsame. split; [done|].
  by rewrite Hsel.
Qed.

Lemma onPresetChanged_active host s a ac h hc :
  activeCount (collections s) = 1 ->
  findActive s = Some (a, ac) ->
  findWithPreset (preset_settings_openai host) s = Some (h, hc) ->
  h <> a ->
  findActive (onPresetChanged host s).1
  = Some (h, SliderCollection.mk true (SliderCollection.name hc)
               (map (rendered host) (SliderCollection.sliders hc))
               (SliderCollection.presets hc))
  /\ collections (onPresetChanged host s).1 !! a
     = Some (SliderCollection.set_active false ac)
  /\ (forall j, j <> h -> j <> a ->
        collections (onPresetChanged host s).1 !! j = collections s !! j)
  /\ SaveSettingsDebounced ∈ (onPresetChanged host s).2.
Proof.
  intros H1 E Eh Hne. pose proof (findActive_lookup _ _ _ E) as [Ha Hact].
  unfold onPresetChanged. rewrite E, Eh.
  apply Nat.eqb_neq in Hne as Hneb. rewrite Hneb. cbn [negb].
  apply findWithPreset_lookup in Eh as [Hh _].
  set (switch := fun s0 =>
         alterCollection (SliderCollection.set_active false) a
           (alterCollection (SliderCollection.set_active true) h s0)).
  assert (Hrun : forall r,
            (modify (alterCollection (SliderCollection.set_active true) h)
             >>> modify (alterCollection (SliderCollection.set_active false) a)
             >>> r) s
            = (modify switch >>> r) s).
  { intros r. unfold andThen, modify, switch. simpl. by destruct (r _). }
  rewrite Hrun. destruct (change_save_render host switch s) as [-> Hfx].
  assert (Ea : findActive (switch s)
               = Some (h, SliderCollection.set_active true hc)).
  { apply list_find_Some. simpl.
    rewrite list_lookup_alter_ne, list_lookup_alter_eq, Hh by done.
    split; [done|]. split; [done|].
    intros j y Hj Hlt. destruct (decide (j = a)) as [->|Hja].
    - rewrite list_lookup_alter_eq, list_lookup_alter_ne, Ha in Hj by done.
      simpl in Hj. by injection Hj as <-.
    - rewrite !list_lookup_alter_ne in Hj by lia.
      by rewrite (only_active s a ac j y H1 E Hj Hja). }
  destruct (renderSliderConfigs_active host _ _ _ Ea) as [-> ->].
  split; [done|]. split; [|split; [|done]].
  - simpl. rewrite list_lookup_alter_ne by done.
    by rewrite list_lookup_alter_eq, list_lookup_alter_ne, Ha by done.
  - intros j Hjh Hja. simpl. by rewrite !list_lookup_alter_ne by done.
Qed.


(** X13.  A confirmed delete of one of several collections removes the active
    collection, with its sliders and its preset bindings; the collections that
    remain keep their order, names and bindings, the first of them is the
    active one afterwards, and the others keep their sliders.  The save is
    requested. *)
Theorem deleteCollection_removes_active host s a ac :
  findActive s = Some (a, ac) ->
  1 < length (collections s) ->
  let after := (deleteCollection host true s).1 in
  map SliderCollection.name (collections after)
  = delete a (map SliderCollection.name (collections s))
  /\ map SliderCollection.presets (collections after)
     = delete a (map SliderCollection.presets (collections s))
  /\ (exists c0, findActive after = Some (0, c0))
  /\ (forall j, j <> 0 ->
        collections after !! j = delete a (collections s) !! j)
  /\ SaveSettingsDebounced ∈ (deleteCollection host true s).2.
Proof.
  intros E Hlen after. pose proof (findActive_lookup _ _ _ E) as [Ha _].
  set (remove := fun s0 =>
         {| collections :=
              alter (SliderCollection.set_active true) 0
                    (delete a (collections s0)) |}).
  assert (Hrun : deleteCollection host true s
                 = (modify remove >>> emit SaveSettingsDebounced
                    >>> renderSliderConfigs host) s).
  { unfold deleteCollection. rewrite (findActive_getSettings _ _ _ E), E.
    destruct (Nat.eqb_spec (length (collections s)) 1); [lia|]. done. }
  unfold after. rewrite Hrun.
  destruct (change_save_render host remove s) as [-> Hfx].
  destruct (delete a (collections s)) as [|c0 rest] eqn:Ed.
  { pose proof (length_delete (collections s) a (mk_is_Some _ _ Ha)) as Hd.
    rewrite Ed in Hd. simpl in Hd. lia. }
  assert (Ea : findActive (remove s)
               = Some (0, SliderCollection.set_active true c0)).
  { apply list_find_Some. simpl. rewrite Ed. simpl.
    split; [done|]. split; [done|]. intros j y _ Hlt. lia. }
  destruct (renderSliderConfigs_active host _ _ _ Ea) as [-> ->].
  change (map ?g ?l) with (g <$> l).
  rewrite <- !list_fmap_delete. simpl. rewrite !Ed.
  split; [done|]. split; [done|]. split; [by eexists|]. split; [|done].
  intros [|j] Hj; [done|]. done.
Qed.

Lemma findActive_pushActive c s :
  SliderCollection.active c = true ->
  findActive (pushActive c s) = Some (length (collections s), c).
Proof.
  intros Hc. apply list_find_Some. simpl. split; [|split; [done|]].
  - rewrite lookup_app_r by (rewrite length_map; lia).
    by rewrite length_map, Nat.sub_diag.
  - intros j y Hj Hlt. rewrite lookup_app_l in Hj by (rewrite length_map; lia).
    change (map ?g ?l) with (g <$> l) in Hj. rewrite list_lookup_fmap in Hj.
    destruct (collections s !! j); [|done]. simpl in Hj. by injection Hj as <-.
Qed.

(** The settings after a new active collection was pushed and the
    configuration rendered. *)
Lemma render_pushActive host c s :
  SliderCollection.active c = true ->
  collections (renderSliderConfigs host (pushActive c s)).1
  = map (SliderCollection.set_active false) (collections s)
    ++ [alterSliders (map (rendered host)) c]
  /\ findActive (renderSliderConfigs host (pushActive c s)).1
     = Some (length (collections s), alterSliders (map (rendered host)) c).
Proof.
  intros Hc. pose proof (findActive_pushActive c s Hc) as Ea.
  destruct (renderSliderConfigs_active host _ _ _ Ea) as [-> ->].
  split; [|done]. simpl.
  replace (length (collections s))
    with (length (map (SliderCollection.set_active false) (collections s)) + 0)
    by (rewrite length_map; lia).
  by rewrite alter_app_r.
Qed.

Lemma asSliderModel_sliderJson x : asSliderModel (sliderJson x) = x.
Proof. by destruct x. Qed.

(** X15.  An import of a file that holds the JSON of an array of sliders,
    each entry an object with the seven fields of the interface as the export
    writes them, under a name that is not empty and not taken: the new
    collection is appended after the existing ones with that name, those
    sliders (as the render leaves them) and no preset binding; it is the
    active one and every existing collection is inactive and otherwise
    unchanged.  The save is requested, and the last effect is the toast with
    the number of imported sliders. *)
Theorem import_appends_parsed_sliders host fileContent sliders name s :
  json_parse fileContent = Some (VArray (map sliderJson sliders)) ->
  truthy name = true ->
  findNamed name s = None ->
  let r := onImportFileLoaded host fileContent (Some name) s in
  collections r.1
  = map (SliderCollection.set_active false) (collections s)
    ++ [SliderCollection.mk true name (map (rendered host) sliders) []]
  /\ findActive r.1
     = Some (length (collections s),
             SliderCollection.mk true name (map (rendered host) sliders) [])
  /\ SaveSettingsDebounced ∈ r.2
  /\ last r.2
     = Some (Toast ToastSuccess
               ("Imported " +:+ pretty (length sliders)
                +:+ " sliders into collection " +:+ inQuotes name +:+ ".")).
Proof.
  intros Hparse Hname Hfresh r.
  assert (Hread : map asSliderModel (map sliderJson sliders) = sliders).
  { rewrite map_map. rewrite <- (map_id sliders) at 2. apply map_ext.
    apply asSliderModel_sliderJson. }
  set (c := SliderCollection.mk true name sliders []).
  assert (Hr : r = ((modify (pushActive c) >>> emit SaveSettingsDebounced
                     >>> renderSliderConfigs host)
                    >>> emit (Toast ToastSuccess
                                ("Imported " +:+ pretty (length sliders)
                                 +:+ " sliders into collection "
                                 +:+ inQuotes name +:+ "."))) s).
  { unfold r, onImportFileLoaded, processImport. rewrite Hparse. cbn [isArray negb].
    rewrite Hname, Hfresh. cbn [negb arrayItems]. rewrite Hread.
    unfold andThen, modify, emit. simpl.
    by destruct (renderSliderConfigs host _) as [s2 e2]. }
  destruct (change_save_render host (pushActive c) s) as [Hs Hfx].
  destruct (render_pushActive host c s eq_refl) as [Hcols Ea].
  rewrite Hr. rewrite andThen_settings, andThen_effects. cbn [emit fst snd].
  rewrite Hs. split; [done|]. split; [done|]. split.
  - apply elem_of_app. by left.
  - apply last_snoc.
Qed.

(** X14.  [createCollection] under a name that is not empty and not taken
    appends a collection with that name, no sliders and no preset binding; it
    is the active one and every existing collection is inactive and otherwise
    unchanged.  The save and the render of the configuration are requested and
    nothing else; no toast is shown. *)
Theorem createCollection_appends_empty_collection host name s :
  truthy name = true ->
  findNamed name (getSettings (NamespacePresent s)) = None ->
  let s0 := getSettings (NamespacePresent s) in
  collections (createCollection host (Some name) s).1
  = map (SliderCollection.set_active false) (collections s0)
    ++ [SliderCollection.mk true name [] []]
  /\ findActive (createCollection host (Some name) s).1
     = Some (length (collections s0), SliderCollection.mk true name [] [])
  /\ (createCollection host (Some name) s).2
     = [SaveSettingsDebounced; RenderSliderConfigs].
Proof.
  intros Hname Hfresh s0.
  set (c := SliderCollection.mk true name [] []).
  assert (Hr : createCollection host (Some name) s
               = (modify (pushActive c) >>> emit SaveSettingsDebounced
                  >>> renderSliderConfigs host) s0).
  { unfold createCollection, s0. by rewrite Hname, Hfresh. }
  destruct (change_save_render host (pushActive c) s0) as [Hs _].
  destruct (render_pushActive host c s0 eq_refl) as [Hcols Ea].
  rewrite Hr, Hs. split; [done|]. split; [done|].
  rewrite !andThen_effects. cbn [modify emit fst snd app].
  unfold renderSliderConfigs, renderCompletionSliders.
  rewrite (findActive_pushActive c s0 eq_refl).
  by destruct (negb (container_available host)).
Qed.

(** X16.  What the handlers refuse changes nothing: the collection list is the
    one [getSettings] returns (for [processImport], the one it was called on)
    and neither the save nor a render is requested.  Refused are a prompt that
    was cancelled or left empty, a name that a collection already has, the
    delete of the only collection, a delete that was not confirmed, and
    bind-to-preset while the host has no preset selected. *)
Theorem refused_operations_change_nothing host s :
  let s0 := getSettings (NamespacePresent s) in
  createCollection host None s = (s0, [])
  /\ createCollection host (Some "") s = (s0, [])
  /\ (forall name,
        truthy name = true -> is_Some (findNamed name s0) ->
        createCollection host (Some name) s
        = (s0, [Toast ToastWarning
                  "Collection with this name already exists."]))
  /\ (forall parsedSliders,
        processImport host None parsedSliders s = (s, [])
        /\ processImport host (Some "") parsedSliders s = (s, []))
  /\ (forall name parsedSliders,
        truthy name = true -> is_Some (findNamed name s) ->
        processImport host (Some name) parsedSliders s
        = (s, [Toast ToastWarning
                 "Collection with this name already exists."]))
  /\ (length (collections s0) = 1 ->
      forall confirm,
        deleteCollection host confirm s
        = (s0, [Toast ToastWarning "Cannot delete the last collection."]))
  /\ (1 < length (collections s0) ->
      deleteCollection host false s = (s0, []))
  /\ (truthy (preset_settings_openai host) = false ->
      bindToPreset host s
      = (s0, [Toast ToastWarning "No Chat Completion preset selected."])).
Proof.
  intros s0. split; [done|]. split; [done|]. split.
  { intros name Hname [? Hn]. unfold createCollection. fold s0.
    by rewrite Hname, Hn. }
  split; [done|]. split.
  { intros name parsedSliders Hname [? Hn]. unfold processImport.
    by rewrite Hname, Hn. }
  split.
  { intros Hlen confirm. unfold deleteCollection. fold s0. by rewrite Hlen. }
  split.
  { intros Hlen. unfold deleteCollection. fold s0.
    destruct (Nat.eqb_spec (length (collections s0)) 1); [lia|].
    by destruct (findActive s0) as [[? ?]|]. }
  intros Hp. unfold bindToPreset. fold s0. by rewrite Hp.
Qed.
End CollectionSwitches.


Lemma deleteCollection_removes_active_witness :
  map SliderCollection.name
      (collections (deleteCollection (B := referenceBuiltins) examplePage true
                                     twoCollections).1)
  = ["B"].
Proof.
  refine (proj1 (deleteCollection_removes_active (B := referenceBuiltins)
                   examplePage twoCollections 0 _ eq_refl _)).
  simpl. lia.
Defined.

Lemma createCollection_appends_empty_collection_witness :
  collections
    (createCollection (B := referenceBuiltins) examplePage (Some "C")
                      twoCollections).1
  = [SliderCollection.mk false "A" [] ["P0"];
     SliderCollection.mk false "B" [] ["P1"];
     SliderCollection.mk true "C" [] []].
Proof.
  exact (proj1 (createCollection_appends_empty_collection
                  (B := referenceBuiltins) examplePage "C" twoCollections
                  eq_refl eq_refl)).
Defined.

Lemma import_appends_parsed_sliders_witness :
  collections
    (onImportFileLoaded (B := referenceBuiltins) examplePage tempFile
                        (Some "C") twoCollections).1
  = [SliderCollection.mk false "A" [] ["P0"];
     SliderCollection.mk false "B" [] ["P1"];
     SliderCollection.mk true "C" [tempSlider true] []].
Proof.
  exact (proj1 (import_appends_parsed_sliders (B := referenceBuiltins)
                  examplePage tempFile [tempSlider true] "C" twoCollections
                  eq_refl eq_refl eq_refl)).
Defined.

(** ** The body-merge text *)

Lemma setProperty_keeps_keys k k' v obj :
  is_Some (getProperty k obj) ->
  is_Some (getProperty k (setProperty k' v obj)).
Proof.
  intros H. rewrite getProperty_setProperty. by destruct (_ && _).
Qed.

Lemma objectAssign_keeps_keys k target source :
  is_Some (getProperty k target) ->
  is_Some (getProperty k (objectAssign target source)).
Proof.
  unfold objectAssign. revert target.
  induction source as [|[k0 v] source IH]; intros target H; [done|].
  simpl. apply IH. by apply setProperty_keeps_keys.
Qed.

Section MergeYaml.
Context {B : Builtins}.

(** X19.  [mergeYamlIntoObject] never fails and never drops a key of the
    object it is given: whatever the text, every key the object had it still
    has, and an object built from [{}] by assignments stays one (its keys
    pairwise distinct, in the order of [Object.keys]).  The object is returned
    as it is for the empty text, for a text the YAML parser rejects, and for a
    document that is a scalar or an array with no mapping among its items.
    For a document that is a mapping every key but [__proto__] has the value
    the mapping gives it (the last one, should the parser report a key twice),
    else the value it had; for an array every such key of every mapping among
    the items is a key of the result.  The key [__proto__] is not copied like
    the others.  A mapping without it leaves that key and the prototype of
    the object as they were.  A mapping that holds nothing else, merged into
    an object that does not own that key and whose prototype chain reaches
    the setter of [Object.prototype] (as that of [{}] does), adds no key: it
    replaces the prototype when the value is a mapping, a sequence or null,
    and does nothing otherwise. *)
Theorem mergeYamlIntoObject_lookup obj yamlString :
  mergeYamlIntoObject obj "" = obj
  /\ (yaml_parse yamlString = None -> mergeYamlIntoObject obj yamlString = obj)
  /\ (forall v,
        yaml_parse yamlString = Some v ->
        match v with
        | VObject _ => False
        | VArray items =>
          Forall (fun item => match item with VObject _ => False | _ => True end)
                 items
        | _ => True
        end ->
        mergeYamlIntoObject obj yamlString = obj)
  /\ (forall fields k,
        truthy yamlString = true ->
        yaml_parse yamlString = Some (VObject fields) ->
        k <> "__proto__" ->
        getProperty k (mergeYamlIntoObject obj yamlString)
        = match lastBinding k fields with
          | Some v => Some v
          | None => getProperty k obj
          end)
  /\ (forall items fields k,
        truthy yamlString = true ->
        yaml_parse yamlString = Some (VArray items) ->
        VObject fields ∈ items ->
        k <> "__proto__" ->
        is_Some (lastBinding k fields) ->
        is_Some (getProperty k (mergeYamlIntoObject obj yamlString)))
  /\ (forall k,
        is_Some (getProperty k obj) ->
        is_Some (getProperty k (mergeYamlIntoObject obj yamlString)))
  /\ (builtObject obj -> builtObject (mergeYamlIntoObject obj yamlString))
  /\ (forall fields,
        yaml_parse yamlString = Some (VObject fields) ->
        Forall (fun kv => fst kv <> "__proto__") fields ->
        prototype (mergeYamlIntoObject obj yamlString) = prototype obj
        /\ getProperty "__proto__" (mergeYamlIntoObject obj yamlString)
           = getProperty "__proto__" obj)
  /\ (forall v,
        truthy yamlString = true ->
        yaml_parse yamlString = Some (VObject [("__proto__", v)]) ->
        getProperty "__proto__" obj = None ->
        reachesSetter (prototype obj) = true ->
        mergeYamlIntoObject obj yamlString = setPrototype v obj
        /\ properties (mergeYamlIntoObject obj yamlString) = properties obj
        /\ (match v with VBool _ | VNum _ | VStr _ => True | _ => False end ->
            mergeYamlIntoObject obj yamlString = obj)).
Proof.
  split; [done|]. split.
  { intros Hnone. unfold mergeYamlIntoObject. rewrite Hnone.
    by destruct (negb _). }
  split.
  { intros v Hv Hscalar. unfold mergeYamlIntoObject. rewrite Hv.
    destruct (negb _); [done|]. destruct v as [| | | |items|fields]; try done.
    clear Hv. induction Hscalar as [|item items Hitem _ IH]; [done|].
    simpl. by destruct item. }
  split.
  { intros fields k Hne Hv Hk. unfold mergeYamlIntoObject. rewrite Hne, Hv.
    by apply getProperty_objectAssign. }
  split.
  { intros items fields k Hne Hv Hin Hproto Hk. unfold mergeYamlIntoObject.
    rewrite Hne, Hv. cbn [negb]. clear Hv. revert obj.
    induction items as [|item items IH]; intros obj.
    - by apply elem_of_nil in Hin.
    - simpl. apply elem_of_cons in Hin as [<-|Hin]; [|by apply IH].
      apply (mergeItems_invariant
               (fun acc => is_Some (getProperty k acc))).
      + intros acc fields'. apply objectAssign_keeps_keys.
      + rewrite (getProperty_objectAssign _ _ _ Hproto).
        destruct Hk as [v ->]. done. }
  split.
  { intros k Hk.
    apply (mergeYamlIntoObject_invariant
             (fun acc => is_Some (getProperty k acc))); [|done].
    intros acc fields. apply objectAssign_keeps_keys. }
  split; [apply mergeYamlIntoObject_built|].
  split.
  { intros fields Hv Hfields. unfold mergeYamlIntoObject. rewrite Hv.
    destruct (negb _); [done|]. split.
    - by apply prototype_objectAssign.
    - by apply getProperty_objectAssign_absent. }
  intros v Hne Hv Hown Hset. unfold mergeYamlIntoObject. rewrite Hne, Hv.
  cbn [negb objectAssign fold_left fst snd]. unfold setProperty.
  rewrite (proj2 (hasKey_false _ _) Hown), Hset. cbn [String.eqb andb].
  split; [done|]. split; [by destruct v|]. by destruct v.
Qed.
End MergeYaml.

Lemma mergeYamlIntoObject_lookup_witness :
  mergeYamlIntoObject (B := referenceBuiltins) emptyObject "__proto__: 5"
  = emptyObject
  /\ mergeYamlIntoObject (B := referenceBuiltins) emptyObject "__proto__: ~"
     = {| prototype := NullPrototype; properties := [] |}.
Proof.
  pose proof (proj2 (proj2 (proj2 (proj2 (proj2 (proj2 (proj2 (proj2
                (mergeYamlIntoObject_lookup (B := referenceBuiltins)
                   emptyObject "__proto__: 5"))))))))
                (VNum 5) eq_refl eq_refl eq_refl eq_refl) as (_ & _ & Hnumber).
  pose proof (proj2 (proj2 (proj2 (proj2 (proj2 (proj2 (proj2 (proj2
                (mergeYamlIntoObject_lookup (B := referenceBuiltins)
                   emptyObject "__proto__: ~"))))))))
                VNull eq_refl eq_refl eq_refl eq_refl) as (Hnull & _).
  split; [exact (Hnumber I)|exact Hnull].
Defined.

(** ** The render of the live controls *)

Section RenderTheorems.
Context {B : Builtins}.

Lemma sliderId_clampValue x : sliderId (clampValue x) = sliderId x.
Proof. by rewrite clampValue_clamped. Qed.

Lemma clampValue_idempotent x : clampValue (clampValue x) = clampValue x.
Proof.
  rewrite (clampValue_clamped (clampValue x)), (clampValue_clamped x).
  destruct x as [n p lo hi st v en]. simpl. by rewrite clamped_idempotent.
Qed.

Lemma renderSliders_ids host ids l :
  NoDup (map control_id (renderSliders host ids l).1.2)
  /\ Forall (fun c => control_id c ∉ ids) (renderSliders host ids l).1.2
  /\ Forall (fun c => control_hidden c
                      = negb (String.eqb (completion_source host) "custom"))
            (renderSliders host ids l).1.2
  /\ length (renderSliders host ids l).1.2
     + length (renderSliders host ids l).2
     = length (filter (fun x => skipped x = false) l).
Proof.
  revert ids. induction l as [|s l IH]; intros ids.
  { simpl. split; [constructor|]. split; [constructor|]. split; [constructor|].
    done. }
  simpl. destruct (skipped s) eqn:Es.
  - specialize (IH ids). destruct (renderSliders host ids l) as [[l' cs] fx].
    simpl in *. rewrite filter_cons_False by (rewrite Es; done). done.
  - rewrite filter_cons_True by done. case_bool_decide as Hdup.
    + specialize (IH ids). destruct (renderSliders host ids l) as [[l' cs] fx].
      simpl in *. destruct IH as (H1 & H2 & H3 & H4).
      split; [done|]. split; [done|]. split; [done|]. lia.
    + match goal with |- context [renderSliders host ?i l] =>
        specialize (IH i); destruct (renderSliders host i l) as [[l' cs] fx]
      end.
      simpl in *. destruct IH as (H1 & H2 & H3 & H4).
      split; [|split; [|split]].
      * apply NoDup_cons. split; [|done].
        intros Hin. apply list_elem_of_fmap in Hin as (c & Hc & Hin).
        rewrite Forall_forall in H2. apply (H2 c Hin).
        rewrite <- Hc. apply elem_of_app. right. by left.
      * constructor; [done|].
        eapply Forall_impl; [exact H2|]. intros c Hc Hin. apply Hc.
        apply elem_of_app. by left.
      * by constructor.
      * lia.
Qed.





Lemma renderSliders_idempotent host ids l :
  renderSliders host ids (renderSliders host ids l).1.1
  = renderSliders host ids l.
Proof.
  revert ids. induction l as [|s l IH]; intros ids; [done|].
  simpl. destruct (skipped s) eqn:Es.
  - specialize (IH ids). destruct (renderSliders host ids l) as [[l' cs] fx].
    simpl in *. by rewrite Es, IH.
  - case_bool_decide as Hdup.
    + specialize (IH ids). destruct (renderSliders host ids l) as [[l' cs] fx].
      simpl in *. rewrite skipped_clampValue, Es, clampValue_idempotent.
      by rewrite bool_decide_true, IH by done.
    + match goal with |- context [renderSliders host ?i l] =>
        specialize (IH i); destruct (renderSliders host i l) as [[l' cs] fx]
      end.
      simpl in *. rewrite skipped_clampValue, Es, clampValue_idempotent.
      by rewrite bool_decide_false, IH by done.
Qed.

(** X22.  A render is idempotent: rendering the settings a render left stores
    the same settings again, builds the same live controls and shows the same
    warnings. *)
Theorem render_is_idempotent host s :
  renderCompletionSliders host (renderCompletionSliders host s).1.1
  = renderCompletionSliders host s.
Proof.
  unfold renderCompletionSliders.
  destruct (container_available host) eqn:Hc; cbn [negb fst snd]; [|done].
  destruct (findActive s) as [[i c]|] eqn:E; cbn [fst snd]; [|by rewrite E].
  pose proof (renderSliders_idempotent host (document_ids host)
                (SliderCollection.sliders c)) as Hid.
  destruct (renderSliders host (document_ids host) (SliderCollection.sliders c))
    as [[l' cs] fx] eqn:Er.
  cbn [fst snd] in *.
  change (SliderCollection.set_sliders l')
    with (alterSliders (fun _ : list SliderModel.t => l')).
  rewrite (findActive_alterSliders _ _ _ _ E).
  cbn [alterSliders SliderCollection.sliders SliderCollection.set_sliders].
  rewrite Hid. unfold alterCollection. cbn [collections].
  by rewrite list_alter_alter_eq.
Qed.

Lemma shape_syncSlider x : shape (syncSlider x) = shape x.
Proof.
  unfold syncSlider. destruct (skipped x); [done|].
  by rewrite clampValue_clamped.
Qed.

(** X23.  A render changes stored values and nothing else.  The names,
    [active] flags and preset bindings of the collections are the same
    afterwards; every slider of every collection keeps its name, property,
    bounds, step and [enabled] flag; the inactive collections are exactly as
    before; and a slider that is skipped (disabled, or without a name or a
    property) keeps its value too.  When the sliders container cannot be
    placed on the page nothing is stored, built or shown. *)
Theorem render_changes_values_only host s :
  sameFrame s (renderCompletionSliders host s).1.1
  /\ (forall j,
        map shape <$> slidersAt j (renderCompletionSliders host s).1.1
        = map shape <$> slidersAt j s)
  /\ (forall a ac j,
        findActive s = Some (a, ac) -> j <> a ->
        collections (renderCompletionSliders host s).1.1 !! j
        = collections s !! j)
  /\ (forall a ac i x,
        findActive s = Some (a, ac) ->
        SliderCollection.sliders ac !! i = Some x ->
        skipped x = true ->
        exists l',
          slidersAt a (renderCompletionSliders host s).1.1 = Some l'
          /\ l' !! i = Some x)
  /\ (container_available host = false ->
      renderCompletionSliders host s = (s, [], [])).
Proof.
  rewrite renderCompletionSliders_settings.
  split; [apply synced_frame|]. split; [|split; [|split]].
  - intros j. unfold synced. destruct (negb _); [done|].
    destruct (findActive s) as [[a ac]|] eqn:E; [|done].
    unfold slidersAt. simpl. destruct (decide (j = a)) as [->|Hne].
    + rewrite list_lookup_alter_eq. destruct (collections s !! a); [|done].
      simpl. f_equal. rewrite map_map. apply map_ext. intros x.
      apply shape_syncSlider.
    + by rewrite list_lookup_alter_ne.
  - intros a ac j E Hne. rewrite (synced_active _ _ _ _ E). simpl.
    by rewrite list_lookup_alter_ne.
  - intros a ac i x E Hx Hs. eexists.
    split; [by apply slidersAt_synced|].
    change (map (rendered host) ?l) with (rendered host <$> l).
    rewrite list_lookup_fmap, Hx. simpl. f_equal.
    unfold rendered, syncSlider. rewrite Hs. by destruct (container_available host).
  - intros Hc. unfold renderCompletionSliders. by rewrite Hc.
Qed.
End RenderTheorems.


(** ** Export and the name the import suggests *)

Lemma hasFullStop_cons c s :
  hasFullStop (String c s) = Ascii.eqb "."%char c || hasFullStop s.
Proof. reflexivity. Qed.

Lemma firstSegment_cons c s :
  firstSegment (String c s)
  = if Ascii.eqb c "."%char then "" else String c (firstSegment s).
Proof. reflexivity. Qed.

Lemma firstSegment_no_stop s : hasFullStop (firstSegment s) = false.
Proof.
  induction s as [|c s IH]; [done|]. rewrite firstSegment_cons.
  destruct (Ascii.eqb_spec c "."%char) as [->|Hne]; [done|].
  rewrite hasFullStop_cons, IH.
  destruct (Ascii.eqb_spec "."%char c); [congruence|done].
Qed.

Lemma firstSegment_stem stem rest :
  hasFullStop stem = false -> firstSegment (stem +:+ "." +:+ rest) = stem.
Proof.
  induction stem as [|c stem IH]; [done|].
  rewrite hasFullStop_cons. intros H. apply orb_false_iff in H as [Hc Hstem].
  change (String c stem +:+ "." +:+ rest)
    with (String c (stem +:+ "." +:+ rest)).
  rewrite firstSegment_cons.
  destruct (Ascii.eqb_spec c "."%char) as [->|_]; [done|].
  by rewrite IH.
Qed.

Lemma firstSegment_whole s : hasFullStop s = false -> firstSegment s = s.
Proof.
  induction s as [|c s IH]; [done|].
  rewrite hasFullStop_cons. intros H. apply orb_false_iff in H as [Hc Hs].
  rewrite firstSegment_cons.
  destruct (Ascii.eqb_spec c "."%char) as [->|_]; [done|].
  by rewrite IH.
Qed.

(** X25.  The name the import prompt suggests is never empty and holds no full
    stop.  It is the text of the file name before its first full stop: for a
    file name [stem.rest] whose stem is not empty and holds no full stop it is
    the stem, for a file name without a full stop the whole name; a file name
    that is empty or starts with a full stop gives [imported]. *)
Theorem import_prompt_suggests_stem :
  (forall fileName,
     truthy (importFileName fileName) = true
     /\ hasFullStop (importFileName fileName) = false)
  /\ (forall stem rest,
        truthy stem = true -> hasFullStop stem = false ->
        importFileName (stem +:+ "." +:+ rest) = stem)
  /\ (forall fileName,
        truthy fileName = true -> hasFullStop fileName = false ->
        importFileName fileName = fileName)
  /\ importFileName "" = "imported"
  /\ (forall rest, importFileName ("." +:+ rest) = "imported").
Proof.
  split.
  { intros fileName. unfold importFileName.
    destruct (truthy (firstSegment fileName)) eqn:E; [|done].
    split; [done|apply firstSegment_no_stop]. }
  split.
  { intros stem rest Hne Hstop. unfold importFileName.
    by rewrite (firstSegment_stem _ _ Hstop), Hne. }
  split.
  { intros fileName Hne Hstop. unfold importFileName.
    by rewrite (firstSegment_whole _ Hstop), Hne. }
  done.
Qed.

Section ExportImport.
Context {B : Builtins}.
Variable json_stringify : list SliderModel.t -> string.

(** X26.  The export offers the sliders of the active collection, serialised,
    in a file named after the collection.  When that name is not empty and
    holds no full stop, the import prompt suggests it for the file, and an
    import of any JSON array under the suggested name is refused while the
    exported collection exists: a warning is shown and the settings are
    unchanged. *)
Theorem reimport_under_suggested_name_is_refused
    host s a ac fileContent items :
  findActive s = Some (a, ac) ->
  truthy (SliderCollection.name ac) = true ->
  hasFullStop (SliderCollection.name ac) = false ->
  json_parse fileContent = Some (VArray items) ->
  exists d,
    onExportClick json_stringify s = Some d
    /\ download_name d = SliderCollection.name ac +:+ ".json"
    /\ download_content d = json_stringify (SliderCollection.sliders ac)
    /\ importFileName (download_name d) = SliderCollection.name ac
    /\ onImportFileLoaded host fileContent
         (Some (importFileName (download_name d))) s
       = (s, [Toast ToastWarning "Collection with this name already exists."]).
Proof.
  intros E Hne Hstop Hparse. eexists. unfold onExportClick. rewrite E.
  split; [done|]. cbn [download_name download_content].
  split; [done|]. split; [done|].
  assert (Hname : importFileName (SliderCollection.name ac +:+ ".json")
                  = SliderCollection.name ac).
  { unfold importFileName.
    change (SliderCollection.name ac +:+ ".json")
      with (SliderCollection.name ac +:+ "." +:+ "json").
    by rewrite (firstSegment_stem _ "json" Hstop), Hne. }
  split; [done|]. rewrite Hname.
  unfold onImportFileLoaded, processImport. rewrite Hparse, Hne.
  cbn [isArray negb].
  apply findActive_lookup in E as [Ha _].
  destruct (findNamed (SliderCollection.name ac) s) as [[j cj]|] eqn:En; [done|].
  exfalso. unfold findNamed in En. apply list_find_None in En.
  rewrite Forall_forall in En. apply (En ac); [|done].
  by eapply list_elem_of_lookup_2.
Qed.
End ExportImport.

Lemma reimport_under_suggested_name_is_refused_witness :
  exists d,
    onExportClick (fun _ => "[]") twoCollections = Some d
    /\ download_name d = "A.json"
    /\ importFileName (download_name d) = "A"
    /\ onImportFileLoaded (B := referenceBuiltins) examplePage "[]"
         (Some (importFileName (download_name d))) twoCollections
       = (twoCollections,
          [Toast ToastWarning "Collection with this name already exists."]).
Proof.
  destruct (reimport_under_suggested_name_is_refused
              (B := referenceBuiltins) (fun _ => "[]") examplePage
              twoCollections 0 _ "[]" [] eq_refl eq_refl eq_refl eq_refl)
    as (d & Hd & Hn & _ & Hs & Hi).
  exists d. by repeat split.
Defined.

(** ** The sliders-only version *)

Section LegacyTheorems.
Context {B : Builtins}.

Lemma legacy_clampValue_clamped x :
  Legacy.clampValue x
  = Legacy.SliderModel.set_value
      (clamped (parseFloat (Legacy.SliderModel.min x))
               (parseFloat (Legacy.SliderModel.max x))
               (if Legacy.falsy (Legacy.SliderModel.value x)
                then parseFloat (Legacy.SliderModel.min x)
                else Legacy.SliderModel.value x)) x.
Proof.
  unfold Legacy.clampValue, clamped. destruct x as [n p lo hi st v]. simpl.
  destruct (Legacy.falsy v); simpl.
  - destruct (PrimFloat.ltb (parseFloat lo) (parseFloat lo)); simpl;
      by destruct (PrimFloat.ltb (parseFloat hi) _).
  - destruct (PrimFloat.ltb v (parseFloat lo)); simpl;
      by destruct (PrimFloat.ltb (parseFloat hi) _).
Qed.

Lemma legacy_renderSliders_lookup host ids l i x :
  l !! i = Some x ->
  (Legacy.renderSliders host ids l).1.1 !! i
  = Some (if Legacy.skipped x then x else Legacy.clampValue x).
Proof.
  revert ids i. induction l as [|s l IH]; intros ids i Hx; [done|].
  simpl. destruct (Legacy.skipped s) eqn:Es.
  - specialize (IH ids).
    destruct (Legacy.renderSliders host ids l) as [[l' cs] fx].
    destruct i as [|i]; simpl in *; [injection Hx as <-; by rewrite Es|].
    by apply IH.
  - case_bool_decide.
    + specialize (IH ids).
      destruct (Legacy.renderSliders host ids l) as [[l' cs] fx].
      destruct i as [|i]; simpl in *; [injection Hx as <-; by rewrite Es|].
      by apply IH.
    + match goal with |- context [Legacy.renderSliders host ?j l] =>
        specialize (IH j);
        destruct (Legacy.renderSliders host j l) as [[l' cs] fx] end.
      destruct i as [|i]; simpl in *; [injection Hx as <-; by rewrite Es|].
      by apply IH.
Qed.

Lemma falsy_false_number v :
  Legacy.falsy v = false -> PrimFloat.is_nan v = false.
Proof. unfold Legacy.falsy. intros H. by apply orb_false_iff in H as [_ ?]. Qed.

(** X27.  The render of the sliders-only version, for a slider it does not
    skip (property, name, bounds and step all not empty) and with the sliders
    container on the page.  A stored value that is zero or NaN is replaced by
    [parseFloat(min)] before the clamping; any other value is clamped as in
    the collections version.  The slider changes in its value only.  When the
    bounds are numbers with min at most max the stored value lies between them
    afterwards, whatever it was, and it is the lower bound when it was zero or
    NaN: a stored zero does not survive a render unless the lower bound is
    zero. *)
Theorem legacy_render_replaces_zero host s i x :
  Legacy.container_available host = true ->
  Legacy.sliders s !! i = Some x ->
  Legacy.skipped x = false ->
  let lo := parseFloat (Legacy.SliderModel.min x) in
  let hi := parseFloat (Legacy.SliderModel.max x) in
  exists x',
    Legacy.sliders (Legacy.renderCompletionSliders host s).1.1 !! i = Some x'
    /\ x' = Legacy.SliderModel.set_value (Legacy.SliderModel.value x') x
    /\ (Legacy.falsy (Legacy.SliderModel.value x) = true ->
        Legacy.SliderModel.value x' = clamped lo hi lo)
    /\ (Legacy.falsy (Legacy.SliderModel.value x) = false ->
        Legacy.SliderModel.value x'
        = clamped lo hi (Legacy.SliderModel.value x))
    /\ (PrimFloat.leb lo hi = true ->
        PrimFloat.leb lo (Legacy.SliderModel.value x') = true
        /\ PrimFloat.leb (Legacy.SliderModel.value x') hi = true
        /\ (Legacy.falsy (Legacy.SliderModel.value x) = true ->
            Legacy.SliderModel.value x' = lo)).
Proof.
  intros Hc Hx Hs lo hi. exists (Legacy.clampValue x). split.
  { unfold Legacy.renderCompletionSliders. rewrite Hc. cbn [negb].
    pose proof (legacy_renderSliders_lookup host (Legacy.document_ids host)
                  _ _ _ Hx) as Hl.
    destruct (Legacy.renderSliders _ _ _) as [[l' cs] fx]. simpl in *.
    by rewrite Hl, Hs. }
  rewrite legacy_clampValue_clamped. fold lo hi.
  cbn [Legacy.SliderModel.value Legacy.SliderModel.set_value].
  split; [by destruct x|].
  split; [by intros ->|]. split; [by intros ->|].
  intros Hb. destruct (leb_true_numbers _ _ Hb) as (Hlo & Hhi & Hlt).
  destruct (Legacy.falsy (Legacy.SliderModel.value x)) eqn:Ef.
  - assert (Hid : clamped lo hi lo = lo).
    { apply clamped_id; [apply ltb_irrefl|done]. }
    rewrite Hid. split; [by apply leb_refl|]. split; [done|done].
  - destruct (clamped_within lo hi (Legacy.SliderModel.value x) Hb
                (falsy_false_number _ Ef)) as [H1 H2].
    split; [done|]. split; [done|]. done.
Qed.

Lemma legacy_sliderValues_fold l acc :
  fold_left
    (fun acc slider =>
       if truthy (SliderModel.property slider)
          && negb (PrimFloat.is_nan (SliderModel.value slider))
       then setProperty (SliderModel.property slider)
                        (VNum (SliderModel.value slider)) acc
       else acc)
    (filter (fun s => SliderModel.enabled s = true) (map enabledSlider l)) acc
  = fold_left
      (fun acc slider =>
         if truthy (Legacy.SliderModel.property slider)
            && negb (PrimFloat.is_nan (Legacy.SliderModel.value slider))
         then setProperty (Legacy.SliderModel.property slider)
                          (VNum (Legacy.SliderModel.value slider)) acc
         else acc)
      l acc.
Proof.
  revert acc. induction l as [|x l IH]; intros acc; [done|].
  cbn [map]. rewrite filter_cons_True by done. simpl. apply IH.
Qed.

(** X29.  The two versions of the request handler agree on sliders that are
    enabled: for a slider array of the sliders-only version, the handler of
    the collections version, run on any settings whose active collection holds
    the same sliders with the flag [enabled] set, rewrites the request to the
    same body-merge text.  In the sliders-only version every slider with a
    property other than [__proto__] and a numeric value is written, whether
    or not the panel shows a control for it (for the property [__proto__] the
    request has that key as the body-merge text made it), and a request whose
    source is not the custom one is returned as it is. *)
Theorem legacy_request_agrees_with_enabled_sliders l data s a ac :
  findActive s = Some (a, ac) ->
  SliderCollection.sliders ac = map enabledSlider l ->
  Legacy.customBody {| Legacy.sliders := l |} data = customBody ac data
  /\ Legacy.onChatCompletionSettingsReady {| Legacy.sliders := l |} data
     = onChatCompletionSettingsReady s data
  /\ (chat_completion_source data <> "custom" ->
      Legacy.onChatCompletionSettingsReady {| Legacy.sliders := l |} data
      = data)
  /\ (forall l1 x l2,
        l = l1 ++ x :: l2 ->
        truthy (Legacy.SliderModel.property x) = true ->
        PrimFloat.is_nan (Legacy.SliderModel.value x) = false ->
        Legacy.SliderModel.property x <> "__proto__" ->
        Forall (fun y => Legacy.SliderModel.property y
                         <> Legacy.SliderModel.property x) l2 ->
        getProperty (Legacy.SliderModel.property x)
                    (Legacy.customBody {| Legacy.sliders := l |} data)
        = Some (VNum (Legacy.SliderModel.value x)))
  /\ getProperty "__proto__" (Legacy.customBody {| Legacy.sliders := l |} data)
     = getProperty "__proto__"
         (mergeYamlIntoObject emptyObject (custom_include_body data)).
Proof.
  intros E Hl.
  assert (Hbody : Legacy.customBody {| Legacy.sliders := l |} data
                  = customBody ac data).
  { unfold Legacy.customBody, customBody, Legacy.sliderValues, sliderValues.
    rewrite Hl. cbn [Legacy.sliders]. by rewrite legacy_sliderValues_fold. }
  split; [done|]. split; [|split; [|split]].
  - unfold Legacy.onChatCompletionSettingsReady, onChatCompletionSettingsReady.
    destruct (negb _); [done|]. by rewrite E, Hbody.
  - intros Hsrc. unfold Legacy.onChatCompletionSettingsReady.
    destruct (String.eqb_spec (chat_completion_source data) "custom"); done.
  - intros l1 x l2 Hsplit Hprop Hnum Hproto Hlater.
    rewrite Hbody, (customBody_get _ _ _ Hproto), Hl.
    rewrite Hsplit, map_app. cbn [map].
    change (Legacy.SliderModel.property x)
      with (SliderModel.property (enabledSlider x)).
    change (Legacy.SliderModel.value x)
      with (SliderModel.value (enabledSlider x)).
    rewrite lastInjected_own; [done| |].
    + unfold injected. simpl. by rewrite Hprop, Hnum.
    + change (map enabledSlider l2) with (enabledSlider <$> l2).
      apply Forall_fmap. eapply Forall_impl; [exact Hlater|].
      intros y Hy _. exact Hy.
  - rewrite Hbody. apply customBody_proto.
Qed.
End LegacyTheorems.

Lemma legacy_render_replaces_zero_witness :
  exists x',
    Legacy.sliders
      (Legacy.renderCompletionSliders (B := referenceBuiltins)
         {| Legacy.source := "custom"; Legacy.container_available := true;
            Legacy.document_ids := [] |}
         {| Legacy.sliders :=
              [Legacy.SliderModel.mk "Temp" "temperature" "-1" "1" "0.1"
                                     0%float] |}).1.1 !! 0 = Some x'
    /\ Legacy.SliderModel.value x' = (-1)%float.
Proof.
  destruct (legacy_render_replaces_zero (B := referenceBuiltins)
              {| Legacy.source := "custom"; Legacy.container_available := true;
                 Legacy.document_ids := [] |}
              {| Legacy.sliders :=
                   [Legacy.SliderModel.mk "Temp" "temperature" "-1" "1" "0.1"
                                          0%float] |}
              0 _ eq_refl eq_refl eq_refl)
    as (x' & Hx' & _ & _ & _ & Hin).
  exists x'. split; [exact Hx'|].
  exact (proj2 (proj2 (Hin eq_refl)) eq_refl).
Defined.

Lemma legacy_request_agrees_with_enabled_sliders_witness :
  Legacy.onChatCompletionSettingsReady (B := referenceBuiltins)
    {| Legacy.sliders :=
         [Legacy.SliderModel.mk "Temp" "temperature" "0" "2" "0.1" 1.5] |}
    (customRequest "")
  = onChatCompletionSettingsReady (B := referenceBuiltins) (tempSettings true)
      (customRequest "").
Proof.
  exact (proj1 (proj2 (legacy_request_agrees_with_enabled_sliders
                         (B := referenceBuiltins)
                         [Legacy.SliderModel.mk "Temp" "temperature" "0" "2"
                                                "0.1" 1.5]
                         (customRequest "") (tempSettings true) 0 _
                         eq_refl eq_refl))).
Defined.

(** ** Operations that undo each other *)

Lemma swapEntries_fmap (f : SliderModel.t -> SliderModel.t) i j l :
  swapEntries i j (f <$> l) = f <$> swapEntries i j l.
Proof.
  unfold swapEntries. rewrite !list_lookup_fmap.
  destruct (l !! i) as [x|]; [|done]. destruct (l !! j) as [y|]; [|done].
  simpl. by rewrite !list_fmap_insert.
Qed.

Lemma swapEntries_involutive i j l :
  i < length l -> j < length l -> swapEntries j i (swapEntries i j l) = l.
Proof.
  intros Hi Hj. apply list_eq. intros k.
  rewrite swapEntries_lookup by (rewrite swapEntries_length; lia).
  rewrite !swapEntries_lookup by lia.
  repeat case_decide; subst; done.
Qed.

Section Undo.
Context {B : Builtins}.

Lemma rendered_twice host (l : list SliderModel.t) :
  rendered host <$> (rendered host <$> l) = rendered host <$> l.
Proof.
  rewrite <- list_fmap_compose. apply list_fmap_ext. intros _ x _.
  apply rendered_idempotent.
Qed.

(** The settings after an edit of the active slider array that is followed by
    the render of the configuration and the save. *)
Lemma edit_render_save host f s a ac :
  findActive s = Some (a, ac) ->
  ((withActiveSliders f >>> renderSliderConfigs host
    >>> emit SaveSettingsDebounced) s).1
  = alterCollection (alterSliders (fun l => rendered host <$> f l)) a s
  /\ findActive
       ((withActiveSliders f >>> renderSliderConfigs host
         >>> emit SaveSettingsDebounced) s).1
     = Some (a, alterSliders (fun l => rendered host <$> f l) ac).
Proof.
  intros E. rewrite !andThen_settings. cbn [emit fst].
  rewrite renderSliderConfigs_settings, (edit_then_render _ _ _ _ _ E).
  split; [done|]. by apply findActive_alterSliders.
Qed.

(** X8.  Moving a slider up and then the slider now above it down again
    restores the order of the sliders, and so does down followed by up;
    deleting the first row right after [createSlider] restores the array.  The
    arrays are compared as a render leaves them. *)
Theorem reorder_and_create_are_undone host s a ac :
  findActive s = Some (a, ac) ->
  (forall i,
     0 < i < length (SliderCollection.sliders ac) ->
     slidersAt a (onDownClick host (i - 1) (onUpClick host i s).1).1
     = Some (map (rendered host) (SliderCollection.sliders ac)))
  /\ (forall i,
        i < length (SliderCollection.sliders ac) - 1 ->
        slidersAt a (onUpClick host (i + 1) (onDownClick host i s).1).1
        = Some (map (rendered host) (SliderCollection.sliders ac)))
  /\ slidersAt a (onDeleteClick host 0 true (createSlider host s).1).1
     = Some (map (rendered host) (SliderCollection.sliders ac)).
Proof.
  intros E. set (l := SliderCollection.sliders ac).
  change (map (rendered host) l) with (rendered host <$> l).
  split; [|split].
  - intros i [Hpos Hlt]. unfold onUpClick.
    destruct (Nat.ltb_spec 0 i) as [_|]; [|lia]. rewrite E.
    destruct (edit_render_save host (swapEntries i (i - 1)) s a ac E)
      as [_ Ea].
    set (s1 := (_ s).1) in *. unfold onDownClick. rewrite Ea.
    cbn [alterSliders SliderCollection.sliders SliderCollection.set_sliders].
    fold l. rewrite length_fmap, swapEntries_length.
    destruct (Nat.ltb_spec (i - 1) (length l - 1)) as [_|]; [|lia].
    rewrite (reorder_sliders _ _ _ _ _ _ Ea).
    cbn [alterSliders SliderCollection.sliders SliderCollection.set_sliders].
    fold l. change (map (rendered host) ?k) with (rendered host <$> k).
    replace (i - 1 + 1) with i by lia.
    rewrite swapEntries_fmap, swapEntries_involutive by lia.
    by rewrite rendered_twice.
  - intros i Hlt. unfold onDownClick at 1. rewrite E. fold l.
    destruct (Nat.ltb_spec i (length l - 1)) as [_|]; [|lia].
    destruct (edit_render_save host (swapEntries i (i + 1)) s a ac E)
      as [_ Ea].
    set (s1 := (_ s).1) in *. unfold onUpClick.
    destruct (Nat.ltb_spec 0 (i + 1)) as [_|]; [|lia]. rewrite Ea.
    rewrite (reorder_sliders _ _ _ _ _ _ Ea).
    cbn [alterSliders SliderCollection.sliders SliderCollection.set_sliders].
    fold l. change (map (rendered host) ?k) with (rendered host <$> k).
    replace (i + 1 - 1) with i by lia.
    rewrite swapEntries_fmap, swapEntries_involutive by lia.
    by rewrite rendered_twice.
  - assert (Ea : findActive (createSlider host s).1
                 = Some (a, alterSliders
                              (fun k => rendered host <$> newSlider :: k) ac)).
    { unfold createSlider. rewrite (findActive_getSettings _ _ _ E), E.
      rewrite !andThen_settings, renderSliderConfigs_settings.
      rewrite (edit_then_render _ _ _ _ _ E).
      by apply findActive_alterSliders. }
    unfold onDeleteClick. cbn [negb]. rewrite Ea.
    destruct (edit_render_save host (delete 0) _ _ _ Ea) as [-> _].
    rewrite (slidersAt_edit _ _ _ _ Ea).
    cbn [alterSliders SliderCollection.sliders SliderCollection.set_sliders].
    fold l. change (delete 0 (rendered host <$> newSlider :: l))
      with (rendered host <$> l).
    by rewrite rendered_twice.
Qed.
End Undo.

Lemma reorder_and_create_are_undone_witness :
  slidersAt 0 (onDownClick (B := referenceBuiltins) examplePage 0
                 (onUpClick (B := referenceBuiltins) examplePage 1
                            threeSliders).1).1
  = Some (SliderCollection.sliders
            (SliderCollection.mk true "Default"
               [SliderModel.mk "Temp" "temperature" "0" "2" "0.1" 1.5 true;
                SliderModel.mk "Top P" "top_p" "0" "1" "0.01" 0.5 true;
                SliderModel.mk "Top K" "top_k" "0" "100" "1" 40 false] [])).
Proof.
  refine (proj1 (reorder_and_create_are_undone (B := referenceBuiltins)
                   examplePage threeSliders 0 _ eq_refl) 1 _).
  split; repeat constructor.
Defined.

(** ** Bindings of presets, across handlers *)

Lemma indexOf_snoc p (l : list string) :
  (p ∉ l) -> indexOf p (l ++ [p]) = Some (length l).
Proof.
  unfold indexOf. induction l as [|y l IH]; intros Hp.
  - simpl. by rewrite decide_True.
  - apply not_elem_of_cons in Hp as [Hne Hp]. simpl.
    rewrite decide_False by congruence.
    specialize (IH Hp). destruct (list_find _ (l ++ [p])) as [[i z]|]; [|done].
    simpl in *. by injection IH as ->.
Qed.

Lemma delete_snoc (l : list string) p : delete (length l) (l ++ [p]) = l.
Proof. induction l as [|y l IH]; [done|]. simpl. by rewrite IH. Qed.

Lemma spliceOne_snoc p l :
  (p ∉ l) -> spliceOne (indexOf p (l ++ [p])) (l ++ [p]) = l.
Proof. intros Hp. rewrite (indexOf_snoc _ _ Hp). apply delete_snoc. Qed.

Lemma findWithPreset_None_lookup p s j c :
  findWithPreset p s = None -> collections s !! j = Some c ->
  p ∉ SliderCollection.presets c.
Proof.
  unfold findWithPreset. intros H Hj. apply list_find_None in H.
  by apply (Forall_lookup_1 _ _ _ _ H Hj).
Qed.

Lemma findActive_alter f a ac s :
  (forall c, SliderCollection.active (f c) = SliderCollection.active c) ->
  findActive s = Some (a, ac) ->
  findActive (alterCollection f a s) = Some (a, f ac).
Proof.
  unfold findActive. intros Hf E.
  apply list_find_Some in E as (Ha & Hact & Hbefore).
  apply list_find_Some. simpl. split; [|split].
  - by rewrite list_lookup_alter_eq, Ha.
  - by rewrite Hf.
  - intros j y Hj Hlt. rewrite list_lookup_alter_ne in Hj by lia.
    by apply (Hbefore j).
Qed.

Lemma map_frame_alter_at f a ac l :
  l !! a = Some ac -> frame (f ac) = frame ac ->
  map frame (alter f a l) = map frame l.
Proof.
  intros Ha Hf. change (map frame ?k) with (frame <$> k).
  apply list_eq. intros k. rewrite !list_lookup_fmap.
  destruct (decide (k = a)) as [->|].
  - by rewrite list_lookup_alter_eq, Ha; simpl; rewrite Hf.
  - by rewrite list_lookup_alter_ne.
Qed.

Section BindingsAcrossHandlers.
Context {B : Builtins}.

(** The settings after bind-to-preset, for a preset that no collection
    holds. *)
Lemma first_bind host s a ac :
  findActive s = Some (a, ac) ->
  truthy (preset_settings_openai host) = true ->
  findWithPreset (preset_settings_openai host) s = None ->
  (bindToPreset host s).1
  = alterCollection
      (fun c => alterSliders (map (rendered host))
                             (bind (preset_settings_openai host) c)) a s
  /\ findActive (bindToPreset host s).1
     = Some (a, alterSliders (map (rendered host))
                             (bind (preset_settings_openai host) ac)).
Proof.
  intros E Hp Hnone. rewrite bindToPreset_settings. cbv zeta.
  rewrite (findActive_getSettings _ _ _ E), Hp, E. unfold rebound.
  rewrite Hnone.
  assert (Eb : findActive (alterCollection
                             (bind (preset_settings_openai host)) a s)
               = Some (a, bind (preset_settings_openai host) ac))
    by (by apply findActive_alter).
  rewrite (synced_active _ _ _ _ Eb). split.
  - unfold alterCollection. simpl. by rewrite list_alter_alter_eq.
  - by apply findActive_alterSliders.
Qed.

(** X17.  Bind-to-preset is a toggle: for a preset that no collection holds, a
    first click appends it to the bindings of the active collection, and a
    second click, with the same collection active, removes it again, so that
    names, [active] flags and preset bindings of all collections are as before
    and no collection holds the preset. *)
Theorem bindToPreset_twice_restores host s a ac :
  findActive s = Some (a, ac) ->
  truthy (preset_settings_openai host) = true ->
  findWithPreset (preset_settings_openai host) s = None ->
  presetsAt a (bindToPreset host s).1
  = Some (SliderCollection.presets ac ++ [preset_settings_openai host])
  /\ sameFrame s (bindToPreset host (bindToPreset host s).1).1
  /\ findWithPreset (preset_settings_openai host)
                    (bindToPreset host (bindToPreset host s).1).1 = None.
Proof.
  intros E Hp Hnone. set (p := preset_settings_openai host) in *.
  pose proof (findActive_lookup _ _ _ E) as [Ha _].
  pose proof (findWithPreset_None_lookup _ _ _ _ Hnone Ha) as Hpa.
  destruct (first_bind host s a ac E Hp Hnone) as [Hs1 Ea1]. fold p in Hs1, Ea1.
  set (c1 := alterSliders (map (rendered host)) (bind p ac)) in *.
  pose proof (findActive_lookup _ _ _ Ea1) as [Ha1 _].
  assert (Hframe : sameFrame s (bindToPreset host (bindToPreset host s).1).1).
  { rewrite (bindToPreset_settings host (bindToPreset host s).1). cbv zeta.
    rewrite (findActive_getSettings _ _ _ Ea1). fold p. rewrite Hp, Ea1.
    assert (Eh : findWithPreset p (bindToPreset host s).1 = Some (a, c1)).
    { apply list_find_Some. split; [done|]. split.
      - unfold c1. simpl. apply elem_of_app. right. by left.
      - intros j y Hj Hlt. rewrite Hs1 in Hj. simpl in Hj.
        rewrite list_lookup_alter_ne in Hj by lia.
        by apply (findWithPreset_None_lookup _ _ _ _ Hnone Hj). }
    unfold rebound. rewrite Eh, Nat.eqb_refl.
    eapply sameFrame_trans; [|apply synced_frame].
    unfold sameFrame. rewrite Hs1. simpl. rewrite list_alter_alter_eq.
    apply (map_frame_alter_at _ _ ac _ Ha). unfold frame. simpl.
    by rewrite (spliceOne_snoc _ _ Hpa). }
  split; [|split; [done|]].
  - unfold presetsAt. by rewrite Ha1.
  - apply list_find_None. apply Forall_forall. intros c Hc.
    apply list_elem_of_lookup_1 in Hc as [j Hj].
    assert (Hpre : SliderCollection.presets
                   <$> collections
                         (bindToPreset host (bindToPreset host s).1).1 !! j
                   = SliderCollection.presets <$> collections s !! j).
    { rewrite <- !list_lookup_fmap.
      change (SliderCollection.presets <$> ?k)
        with (map SliderCollection.presets k).
      by rewrite (presets_frame _ _ Hframe). }
    rewrite Hj in Hpre. simpl in Hpre.
    destruct (collections s !! j) as [c0|] eqn:E0; [|done].
    simpl in Hpre. injection Hpre as ->.
    by apply (findWithPreset_None_lookup _ _ _ _ Hnone E0).
Qed.

(** X18.  A binding brings its collection back.  In a state with exactly one
    active collection and pairwise distinct names, let the active collection
    be bound to the preset the host has selected, which no collection held.
    After another collection is selected in the collection selector, that one
    is active; when the host then reports its preset as changed, the bound
    collection is the active one again, with its sliders and with the preset
    among its bindings. *)
Theorem bound_preset_brings_collection_back host s a ac b bc :
  activeCount (collections s) = 1 ->
  namesDistinct s ->
  findActive s = Some (a, ac) ->
  truthy (preset_settings_openai host) = true ->
  findWithPreset (preset_settings_openai host) s = None ->
  collections s !! b = Some bc ->
  b <> a ->
  let s1 := (bindToPreset host s).1 in
  let s2 := (onCollectionsChange host (SliderCollection.name bc) s1).1 in
  let s3 := (onPresetChanged host s2).1 in
  fst <$> findActive s2 = Some b
  /\ findActive s3
     = Some (a, SliderCollection.mk true (SliderCollection.name ac)
                  (map (rendered host) (SliderCollection.sliders ac))
                  (SliderCollection.presets ac ++ [preset_settings_openai host])).
Proof.
  intros H1 Hnd E Hp Hnone Hb Hba s1 s2 s3.
  set (p := preset_settings_openai host) in *.
  pose proof (findActive_lookup _ _ _ E) as [Ha _].
  destruct (first_bind host s a ac E Hp Hnone) as [Hs1 Ea1].
  fold p s1 in Hs1, Ea1.
  set (c1 := alterSliders (map (rendered host)) (bind p ac)) in *.
  assert (Hother : forall j, j <> a -> collections s1 !! j = collections s !! j).
  { intros j Hj. rewrite Hs1. simpl. by rewrite list_lookup_alter_ne. }
  assert (Hnames : map SliderCollection.name (collections s1)
                   = map SliderCollection.name (collections s)).
  { rewrite Hs1. simpl. by rewrite map_alter_fixed. }
  assert (Hnd1 : namesDistinct s1) by (unfold namesDistinct; by rewrite Hnames).
  assert (Hb1 : collections s1 !! b = Some bc) by (by rewrite Hother).
  pose proof (findActive_lookup _ _ _ Ea1) as [Ha1 _].
  destruct (onCollectionsChange_active host _ s1 b bc Hnd1 Hb1 eq_refl)
    as [Ea2 Hrest].
  fold s2 in Ea2, Hrest.
  assert (Hin : SliderCollection.name bc
                ∈ map SliderCollection.name (collections s1)).
  { apply list_elem_of_fmap. exists bc. split; [done|].
    by eapply list_elem_of_lookup_2. }
  destruct (onCollectionsChange_preserves host _ s1 Hnd1 Hin) as [[_ H12] _].
  fold s2 in H12.
  split; [by rewrite Ea2|].
  assert (Ha2 : collections s2 !! a
                = Some (SliderCollection.set_active false c1))
    by (apply Hrest; [lia|done]).
  assert (Eh : findWithPreset p s2
               = Some (a, SliderCollection.set_active false c1)).
  { apply list_find_Some. split; [done|]. split.
    - unfold c1. simpl. apply elem_of_app. right. by left.
    - intros j y Hj Hlt. destruct (decide (j = b)) as [->|Hjb].
      + apply findActive_lookup in Ea2 as [Hb2 _]. rewrite Hb2 in Hj.
        injection Hj as <-. simpl.
        by apply (findWithPreset_None_lookup _ _ _ _ Hnone Hb).
      + assert (Hlen : j < length (collections s)).
        { apply lookup_lt_Some in Ha. lia. }
        destruct (lookup_lt_is_Some_2 _ _ Hlen) as [cj Hcj].
        assert (Hj1 : collections s1 !! j = Some cj)
          by (rewrite Hother by lia; done).
        rewrite (Hrest j cj Hjb Hj1) in Hj. injection Hj as <-. simpl.
        by apply (findWithPreset_None_lookup _ _ _ _ Hnone Hcj). }
  destruct (onPresetChanged_active host s2 b _ a _ H12 Ea2 Eh)
    as (Ea3 & _); [lia|].
  fold s3 in Ea3. rewrite Ea3. unfold c1. simpl.
  change (map (rendered host) (map (rendered host) ?k))
    with (rendered host <$> (rendered host <$> k)).
  by rewrite rendered_twice.
Qed.
End BindingsAcrossHandlers.

Lemma bindToPreset_twice_restores_witness :
  sameFrame twoCollections
    (bindToPreset (B := referenceBuiltins)
       {| completion_source := "custom"; preset_settings_openai := "P2";
          container_available := true; document_ids := [] |}
       (bindToPreset (B := referenceBuiltins)
          {| completion_source := "custom"; preset_settings_openai := "P2";
             container_available := true; document_ids := [] |}
          twoCollections).1).1.
Proof.
  exact (proj1 (proj2 (bindToPreset_twice_restores (B := referenceBuiltins)
                         {| completion_source := "custom";
                            preset_settings_openai := "P2";
                            container_available := true;
                            document_ids := [] |}
                         twoCollections 0 _ eq_refl eq_refl eq_refl))).
Defined.

Lemma bound_preset_brings_collection_back_witness :
  let host := {| completion_source := "custom";
                 preset_settings_openai := "P2";
                 container_available := true; document_ids := [] |} in
  findActive
    (onPresetChanged (B := referenceBuiltins) host
       (onCollectionsChange (B := referenceBuiltins) host "B"
          (bindToPreset (B := referenceBuiltins) host twoCollections).1).1).1
  = Some (0, SliderCollection.mk true "A" [] ["P0"; "P2"]).
Proof.
  intros host.
  refine (proj2 (bound_preset_brings_collection_back (B := referenceBuiltins)
                   host twoCollections 0 _ 1 _ eq_refl _ eq_refl eq_refl
                   eq_refl eq_refl _)).
  - unfold namesDistinct. simpl. apply NoDup_cons. split.
    + intros H. apply list_elem_of_singleton in H. discriminate.
    + apply NoDup_singleton.
  - discriminate.
Defined.

(** ** Two renders of the sliders-only version *)

Section LegacyTwoRenders.
Context {B : Builtins}.

Lemma legacy_skipped_clampValue x :
  Legacy.skipped (Legacy.clampValue x) = Legacy.skipped x.
Proof. by rewrite legacy_clampValue_clamped. Qed.

(** X28.  In the sliders-only version a second render can undo the first.  Let
    the slider not be skipped, its upper bound be zero, its lower bound at
    most zero and its stored value a number above zero.  The first render
    stores the upper bound, zero; the next render takes that zero for a
    missing value and stores the lower bound, so with a lower bound below zero
    the render is not idempotent. *)
Theorem legacy_second_render_moves_zero host s i x :
  Legacy.container_available host = true ->
  Legacy.sliders s !! i = Some x ->
  Legacy.skipped x = false ->
  let lo := parseFloat (Legacy.SliderModel.min x) in
  let hi := parseFloat (Legacy.SliderModel.max x) in
  Legacy.falsy hi = true ->
  PrimFloat.leb lo hi = true ->
  Legacy.falsy (Legacy.SliderModel.value x) = false ->
  PrimFloat.ltb (Legacy.SliderModel.value x) lo = false ->
  PrimFloat.ltb hi (Legacy.SliderModel.value x) = true ->
  exists x1 x2,
    Legacy.sliders (Legacy.renderCompletionSliders host s).1.1 !! i = Some x1
    /\ Legacy.SliderModel.value x1 = hi
    /\ Legacy.sliders
         (Legacy.renderCompletionSliders host
            (Legacy.renderCompletionSliders host s).1.1).1.1 !! i = Some x2
    /\ Legacy.SliderModel.value x2 = lo.
Proof.
  intros Hc Hx Hs lo hi Hzero Hb Hv Hlo Hhi.
  assert (Hrender : forall s0 y,
            Legacy.sliders s0 !! i = Some y -> Legacy.skipped y = false ->
            Legacy.sliders (Legacy.renderCompletionSliders host s0).1.1 !! i
            = Some (Legacy.clampValue y)).
  { intros s0 y Hy Hsy. unfold Legacy.renderCompletionSliders. rewrite Hc.
    cbn [negb].
    pose proof (legacy_renderSliders_lookup host (Legacy.document_ids host)
                  _ _ _ Hy) as Hl.
    destruct (Legacy.renderSliders _ _ _) as [[l' cs] fx]. simpl in *.
    by rewrite Hl, Hsy. }
  exists (Legacy.clampValue x), (Legacy.clampValue (Legacy.clampValue x)).
  pose proof (Hrender s x Hx Hs) as H1.
  assert (Hv1 : Legacy.SliderModel.value (Legacy.clampValue x) = hi).
  { rewrite legacy_clampValue_clamped. fold lo hi.
    cbn [Legacy.SliderModel.value Legacy.SliderModel.set_value].
    rewrite Hv. unfold clamped. by rewrite Hlo, Hhi. }
  split; [done|]. split; [done|]. split.
  { apply Hrender; [done|]. by rewrite legacy_skipped_clampValue. }
  rewrite (legacy_clampValue_clamped (Legacy.clampValue x)).
  cbn [Legacy.SliderModel.value Legacy.SliderModel.set_value].
  rewrite Hv1.
  assert (Hmin : Legacy.SliderModel.min (Legacy.clampValue x)
                 = Legacy.SliderModel.min x)
    by (by rewrite legacy_clampValue_clamped).
  assert (Hmax : Legacy.SliderModel.max (Legacy.clampValue x)
                 = Legacy.SliderModel.max x)
    by (by rewrite legacy_clampValue_clamped).
  rewrite Hmin, Hmax. fold lo hi. rewrite Hzero.
  destruct (leb_true_numbers _ _ Hb) as (_ & _ & Hlt).
  apply clamped_id; [apply ltb_irrefl|done].
Qed.
End LegacyTwoRenders.

Lemma legacy_second_render_moves_zero_witness :
  let host := {| Legacy.source := "custom"; Legacy.container_available := true;
                 Legacy.document_ids := [] |} in
  let s := {| Legacy.sliders :=
                [Legacy.SliderModel.mk "Penalty" "penalty" "-1" "0" "0.1"
                                       5%float] |} in
  exists x1 x2,
    Legacy.sliders
      (Legacy.renderCompletionSliders (B := referenceBuiltins) host s).1.1 !! 0
    = Some x1
    /\ Legacy.SliderModel.value x1 = 0%float
    /\ Legacy.sliders
         (Legacy.renderCompletionSliders (B := referenceBuiltins) host
            (Legacy.renderCompletionSliders (B := referenceBuiltins)
               host s).1.1).1.1 !! 0 = Some x2
    /\ Legacy.SliderModel.value x2 = (-1)%float.
Proof.
  intros host s.
  exact (legacy_second_render_moves_zero (B := referenceBuiltins) host s 0 _
           eq_refl eq_refl eq_refl eq_refl eq_refl eq_refl eq_refl eq_refl).
Defined.

(** ** Renders, the [enabled] flag and the request *)

Lemma ltb_true_numbers x y :
  PrimFloat.ltb x y = true ->
  PrimFloat.is_nan x = false /\ PrimFloat.is_nan y = false.
Proof.
  rewrite FloatAxioms.ltb_spec. unfold SFltb. intros H.
  destruct (SFcompare (Prim2SF x) (Prim2SF y)) as [c|] eqn:Hc; [|done].
  split.
  - apply is_nan_false. intros E. rewrite E in Hc. done.
  - apply is_nan_false. intros E. rewrite E in Hc. by destruct (Prim2SF x).
Qed.

Lemma is_nan_clamped lo hi v :
  PrimFloat.is_nan (clamped lo hi v) = PrimFloat.is_nan v.
Proof.
  unfold clamped. destruct (PrimFloat.ltb v lo) eqn:E1.
  - destruct (ltb_true_numbers _ _ E1) as [Hv Hlo].
    destruct (PrimFloat.ltb hi lo) eqn:E2.
    + destruct (ltb_true_numbers _ _ E2) as [Hhi _]. by rewrite Hhi, Hv.
    + by rewrite Hlo, Hv.
  - destruct (PrimFloat.ltb hi v) eqn:E2; [|done].
    destruct (ltb_true_numbers _ _ E2) as [Hhi Hv]. by rewrite Hhi, Hv.
Qed.

Section RenderAndRequest.
Context {B : Builtins}.

Lemma is_nan_rendered host x :
  PrimFloat.is_nan (SliderModel.value (rendered host x))
  = PrimFloat.is_nan (SliderModel.value x).
Proof.
  unfold rendered, syncSlider. destruct (container_available host); [|done].
  destruct (skipped x); [done|]. rewrite clampValue_clamped.
  apply is_nan_clamped.
Qed.

Lemma shape_rendered host x : shape (rendered host x) = shape x.
Proof.
  unfold rendered. destruct (container_available host); [|done].
  apply shape_syncSlider.
Qed.

Lemma property_rendered host x :
  SliderModel.property (rendered host x) = SliderModel.property x.
Proof.
  change (SliderModel.property (shape (rendered host x))
          = SliderModel.property (shape x)).
  by rewrite shape_rendered.
Qed.

Lemma injected_rendered host x : injected (rendered host x) = injected x.
Proof.
  unfold injected. rewrite is_nan_rendered, property_rendered.
  change (SliderModel.enabled (rendered host x))
    with (SliderModel.enabled (shape (rendered host x))).
  by rewrite shape_rendered.
Qed.

Lemma lastInjected_rendered host key l :
  is_Some (lastInjected key (rendered host <$> l))
  <-> is_Some (lastInjected key l).
Proof.
  induction l as [|x l IH]; [done|].
  change (rendered host <$> x :: l)
    with (rendered host x :: (rendered host <$> l)).
  cbn [lastInjected]. rewrite injected_rendered, property_rendered.
  destruct (lastInjected key (rendered host <$> l)) as [v|] eqn:E1;
    destruct (lastInjected key l) as [w|] eqn:E2.
  - done.
  - destruct (proj1 IH) as [? ?]; done.
  - destruct (proj2 IH) as [? ?]; done.
  - by destruct (injected x && String.eqb (SliderModel.property x) key).
Qed.

(** X24.  A render never changes which keys the next request gets.  It turns
    no stored number into NaN and no NaN into a number, so the sliders the
    request handler writes are the same before and after it; a key is in the
    object handed to the serialiser after the render exactly when it was
    before.  (The values under the keys can differ: they are the clamped
    ones.) *)
Theorem render_keeps_request_keys host s a ac data :
  findActive s = Some (a, ac) ->
  exists ac',
    findActive (renderCompletionSliders host s).1.1 = Some (a, ac')
    /\ SliderCollection.sliders ac'
       = map (rendered host) (SliderCollection.sliders ac)
    /\ (forall x,
          injected (rendered host x) = injected x
          /\ PrimFloat.is_nan (SliderModel.value (rendered host x))
             = PrimFloat.is_nan (SliderModel.value x))
    /\ (forall key,
          is_Some (getProperty key (customBody ac' data))
          <-> is_Some (getProperty key (customBody ac data))).
Proof.
  intros E. exists (alterSliders (map (rendered host)) ac).
  rewrite renderCompletionSliders_settings, (synced_active _ _ _ _ E).
  split; [by apply findActive_alterSliders|]. split; [done|]. split.
  { intros x. split; [apply injected_rendered|apply is_nan_rendered]. }
  intros key. destruct (decide (key = "__proto__")) as [->|Hkey].
  { by rewrite !(proj1 (customBody_proto _ _)). }
  rewrite !(customBody_get _ _ _ Hkey).
  cbn [alterSliders SliderCollection.sliders SliderCollection.set_sliders].
  pose proof (lastInjected_rendered host key (SliderCollection.sliders ac))
    as Hl.
  change (map (rendered host) ?k) with (rendered host <$> k).
  destruct (lastInjected key (rendered host <$> SliderCollection.sliders ac))
    as [v|] eqn:E1;
    destruct (lastInjected key (SliderCollection.sliders ac)) as [w|] eqn:E2.
  - done.
  - destruct (proj1 Hl) as [? ?]; done.
  - destruct (proj2 Hl) as [? ?]; done.
  - done.
Qed.

Lemma Forall_rendered_others host p (l : list SliderModel.t) :
  Forall (fun y => injected y = true -> SliderModel.property y <> p) l ->
  Forall (fun y => injected y = true -> SliderModel.property y <> p)
         (rendered host <$> l).
Proof.
  intros Hl. apply Forall_fmap. eapply Forall_impl; [exact Hl|].
  intros y Hy. simpl. by rewrite injected_rendered, property_rendered.
Qed.

(** X10.  The checkbox of a row decides whether the slider reaches the
    request.  Let the slider at [index] have a property that no other slider
    of the active collection writes, and a numeric value.  After the checkbox
    was cleared the next request holds under that property what the body-merge
    text gave it, if anything; after it was set the request holds the value of
    the slider, as the render that follows the change stored it, unless the
    property is [__proto__]: the request then has that key as the body-merge
    text made it, whether the checkbox is set or cleared. *)
Theorem enabled_flag_controls_request host index s a ac x data :
  findActive s = Some (a, ac) ->
  SliderCollection.sliders ac !! index = Some x ->
  truthy (SliderModel.property x) = true ->
  PrimFloat.is_nan (SliderModel.value x) = false ->
  Forall (fun y => injected y = true ->
                   SliderModel.property y <> SliderModel.property x)
         (take index (SliderCollection.sliders ac)) ->
  Forall (fun y => injected y = true ->
                   SliderModel.property y <> SliderModel.property x)
         (drop (S index) (SliderCollection.sliders ac)) ->
  (exists ac',
     findActive (onEnabledChange host index false s).1 = Some (a, ac')
     /\ getProperty (SliderModel.property x) (customBody ac' data)
        = getProperty (SliderModel.property x)
            (mergeYamlIntoObject emptyObject (custom_include_body data)))
  /\ (exists ac',
        findActive (onEnabledChange host index true s).1 = Some (a, ac')
        /\ SliderCollection.sliders ac' !! index
           = Some (rendered host (SliderModel.set_enabled true x))
        /\ (SliderModel.property x <> "__proto__" ->
            getProperty (SliderModel.property x) (customBody ac' data)
            = Some (VNum (SliderModel.value
                            (rendered host (SliderModel.set_enabled true x)))))
        /\ (SliderModel.property x = "__proto__" ->
            getProperty (SliderModel.property x) (customBody ac' data)
            = getProperty (SliderModel.property x)
                (mergeYamlIntoObject emptyObject (custom_include_body data)))).
Proof.
  intros E Hx Hprop Hnum Hbefore Hafter.
  set (l := SliderCollection.sliders ac) in *.
  assert (Hlt : index < length l) by (by eapply lookup_lt_Some).
  assert (Hrun : forall v,
            let ac' := alterSliders
                         (fun k => map (rendered host)
                                       (alter (SliderModel.set_enabled v)
                                              index k)) ac in
            findActive (onEnabledChange host index v s).1 = Some (a, ac')
            /\ SliderCollection.sliders ac'
               = (rendered host <$> take index l)
                 ++ rendered host (SliderModel.set_enabled v x)
                 :: (rendered host <$> drop (S index) l)).
  { intros v ac'. split.
    - unfold onEnabledChange, onSliderFieldInput.
      rewrite !andThen_settings. cbn [emit fst].
      rewrite rerenderCompletionSliders_settings,
        (edit_then_render _ _ _ _ _ E).
      by apply findActive_alterSliders.
    - unfold ac'.
      cbn [alterSliders SliderCollection.sliders SliderCollection.set_sliders].
      fold l. rewrite (alter_lookup_insert _ _ _ _ Hx).
      rewrite (insert_take_drop l index _ Hlt).
      change (map (rendered host) ?k) with (rendered host <$> k).
      by rewrite fmap_app, fmap_cons. }
  split.
  - destruct (Hrun false) as [Ea Hl]. eexists. split; [exact Ea|].
    destruct (decide (SliderModel.property x = "__proto__")) as [->|Hproto];
      [apply customBody_proto|].
    rewrite (customBody_get _ _ _ Hproto), Hl, lastInjected_absent; [done|].
    apply Forall_app. split; [by apply Forall_rendered_others|].
    constructor; [|by apply Forall_rendered_others].
    by rewrite injected_rendered.
  - destruct (Hrun true) as [Ea Hl]. eexists. split; [exact Ea|]. split.
    + rewrite Hl. rewrite lookup_app_r by (rewrite length_fmap, length_take; lia).
      rewrite length_fmap, length_take.
      by replace (index - index `min` length l) with 0 by lia.
    + split; [|intros ->; apply customBody_proto].
      intros Hproto. rewrite (customBody_get _ _ _ Hproto), Hl.
      set (x' := rendered host (SliderModel.set_enabled true x)).
      assert (Hp' : SliderModel.property x' = SliderModel.property x)
        by (unfold x'; by rewrite property_rendered).
      rewrite <- Hp'. rewrite lastInjected_own; [done| |].
      * unfold x'. rewrite injected_rendered. unfold injected. simpl.
        by rewrite Hprop, Hnum.
      * rewrite Hp'. by apply Forall_rendered_others.
Qed.
End RenderAndRequest.

Lemma render_keeps_request_keys_witness :
  exists ac',
    findActive (renderCompletionSliders (B := referenceBuiltins) examplePage
                                        (unitBounds 5)).1.1 = Some (0, ac')
    /\ (is_Some (getProperty "temperature"
                   (customBody (B := referenceBuiltins) ac'
                               (customRequest "")))
        <-> is_Some (getProperty "temperature"
                       (customBody (B := referenceBuiltins)
                          (SliderCollection.mk true "Default"
                             [SliderModel.mk "Temp" "temperature" "0" "1"
                                             "0.01" 5 true] [])
                          (customRequest "")))).
Proof.
  destruct (render_keeps_request_keys (B := referenceBuiltins) examplePage
              (unitBounds 5) 0 _ (customRequest "") eq_refl)
    as (ac' & Ea & _ & _ & Hkeys).
  exists ac'. split; [exact Ea|]. apply Hkeys.
Defined.

Lemma enabled_flag_controls_request_witness :
  exists ac',
    findActive (onEnabledChange (B := referenceBuiltins) examplePage 2 true
                                threeSliders).1 = Some (0, ac')
    /\ getProperty "top_k"
         (customBody (B := referenceBuiltins) ac' (customRequest ""))
       = Some (VNum 40).
Proof.
  destruct (enabled_flag_controls_request (B := referenceBuiltins) examplePage
              2 threeSliders 0 _ _ (customRequest "")
              eq_refl eq_refl eq_refl eq_refl)
    as (_ & ac' & Ea & _ & Hget & _).
  - repeat constructor; intros _ [=].
  - constructor.
  - exists ac'. split; [exact Ea|]. apply Hget. intros [=].
Defined.

(** ** The request handler, run again *)

Lemma updateProperty_same k v l :
  lookupKey k l = Some v -> updateProperty k v l = l.
Proof.
  induction l as [|[k0 w] l IH]; simpl; [done|].
  destruct (String.eqb_spec k0 k) as [->|Hne].
  - by intros [= ->].
  - intros H. by rewrite (IH H).
Qed.

Lemma setProperty_same k v obj :
  getProperty k obj = Some v -> setProperty k v obj = obj.
Proof.
  unfold getProperty, setProperty. intros H.
  assert (Hown : hasKey k (properties obj) = true).
  { apply hasKey_true. by rewrite H. }
  rewrite Hown, (updateProperty_same _ _ _ H). by destruct obj.
Qed.

Lemma objectAssign_same target source :
  Forall (fun kv => getProperty (fst kv) target = Some (snd kv)) source ->
  objectAssign target source = target.
Proof.
  unfold objectAssign. induction 1 as [|[k v] source Hkv _ IH]; [done|].
  simpl in *. by rewrite (setProperty_same _ _ _ Hkv).
Qed.

(** A new key of an ordered list of properties that is listed last takes the
    last place. *)
Lemma createProperty_last l k v :
  ordered (l ++ [(k, v)]) -> createProperty k v l = l ++ [(k, v)].
Proof.
  intros Hord. unfold createProperty.
  destruct (arrayIndex k) as [n|] eqn:Ek; [|done].
  apply insertIndexed_last. by eapply ordered_before_index.
Qed.

Lemma ordered_app_l l1 l2 : ordered (l1 ++ l2) -> ordered l1.
Proof.
  induction l1 as [|[k v] l1 IH]; simpl; [done|].
  intros [Hhead Hrest]. split; [|by apply IH].
  destruct (arrayIndex k); by apply Forall_app in Hhead as [? _].
Qed.

(** Assigning the properties of an object built from [{}], none of them
    [__proto__], to the empty object copies them, in their order. *)
Lemma objectAssign_empty source :
  NoDup (map fst source) -> ordered source ->
  lookupKey "__proto__" source = None ->
  objectAssign emptyObject source = objectLiteral source.
Proof.
  unfold objectAssign, emptyObject. intros Hnd Hord Hproto.
  assert (H : forall acc,
            NoDup (map fst (acc ++ source)) -> ordered (acc ++ source) ->
            fold_left (fun acc kv => setProperty (fst kv) (snd kv) acc)
                      source (objectLiteral acc)
            = objectLiteral (acc ++ source)).
  { clear Hnd Hord. induction source as [|[k v] source IH]; intros acc Hnd Hord.
    - by rewrite app_nil_r.
    - simpl in Hproto. destruct (String.eqb_spec k "__proto__") as [|Hk];
        [done|].
      assert (Hfresh : hasKey k acc = false).
      { apply hasKey_false, lookupKey_None. rewrite map_app in Hnd.
        apply NoDup_app in Hnd as (_ & Hdisj & _).
        intros Hin. apply (Hdisj k Hin). simpl. by left. }
      cbn [fold_left fst snd]. unfold setProperty.
      cbn [objectLiteral properties prototype]. rewrite Hfresh.
      destruct (String.eqb_spec k "__proto__") as [|_]; [done|].
      cbn [andb].
      replace (acc ++ (k, v) :: source) with ((acc ++ [(k, v)]) ++ source)
        in * by (by rewrite <- app_assoc).
      rewrite (createProperty_last acc k v (ordered_app_l _ _ Hord)).
      by apply (IH Hproto). }
  by apply (H []).
Qed.

Lemma lookupKey_elem_of_NoDup k v (l : Properties) :
  NoDup (map fst l) -> (k, v) ∈ l -> lookupKey k l = Some v.
Proof.
  intros Hnd Hin.
  induction l as [|[k0 w] l IH]; [by apply elem_of_nil in Hin|].
  simpl in *. apply NoDup_cons in Hnd as [Hk0 Hnd].
  apply elem_of_cons in Hin as [[= <- <-]|Hin].
  - by rewrite String.eqb_refl.
  - destruct (String.eqb_spec k0 k) as [->|_]; [|by apply IH].
    exfalso. apply Hk0. apply list_elem_of_fmap. by exists (k, v).
Qed.

Section RequestAgain.
Context {B : Builtins}.

(** X20.  The request handler is idempotent as far as the YAML library allows.
    Let the object the handler serialises have the prototype of an object
    literal (the body-merge text did not replace it through a key
    [__proto__]), as every object the parser returns has.  If the text the
    handler wrote is not empty and the library reads it back as that object, a
    second run of the handler on the rewritten request, with the same
    settings, hands the same object to the serialiser and leaves the request
    as the first run left it.  The handler never touches the source field,
    and a request whose source is not the custom one is returned as it is. *)
Theorem request_handler_is_idempotent s a ac data :
  findActive s = Some (a, ac) ->
  chat_completion_source data = "custom" ->
  truthy (yaml_stringify (customBody ac data)) = true ->
  prototype (customBody ac data) = ObjectPrototype ->
  yaml_parse (yaml_stringify (customBody ac data))
  = Some (VObject (properties (customBody ac data))) ->
  customBody ac (onChatCompletionSettingsReady s data) = customBody ac data
  /\ onChatCompletionSettingsReady s (onChatCompletionSettingsReady s data)
     = onChatCompletionSettingsReady s data
  /\ (forall s' data',
        chat_completion_source (onChatCompletionSettingsReady s' data')
        = chat_completion_source data')
  /\ (forall s' data',
        chat_completion_source data' <> "custom" ->
        onChatCompletionSettingsReady s' data' = data').
Proof.
  intros E Hsrc Hne Hproto Hround.
  pose proof (onChatCompletionSettingsReady_custom s a ac data Hsrc E) as Hrun.
  destruct (customBody_built ac data) as (Hnd & Hord & Hown).
  assert (Hcopy : objectAssign emptyObject (properties (customBody ac data))
                  = customBody ac data).
  { rewrite (objectAssign_empty _ Hnd Hord (Hown Hproto)).
    unfold objectLiteral. rewrite <- Hproto. by destruct (customBody ac data). }
  assert (Hbody : customBody ac (onChatCompletionSettingsReady s data)
                  = customBody ac data).
  { rewrite Hrun. unfold customBody at 1. cbn [custom_include_body].
    unfold mergeYamlIntoObject. rewrite Hne, Hround. cbn [negb].
    rewrite Hcopy.
    apply objectAssign_same. apply Forall_forall. intros [k v] Hin.
    cbn [fst snd].
    assert (Hk : k <> "__proto__").
    { pose proof (sliderValues_no_proto (SliderCollection.sliders ac)) as Hno.
      rewrite Forall_forall in Hno. apply (Hno _ Hin). }
    unfold customBody. rewrite (getProperty_objectAssign _ _ _ Hk).
    rewrite (lastBinding_unique _ _ (sliderValues_keys _)).
    by rewrite (lookupKey_elem_of_NoDup k v _ (sliderValues_keys _) Hin). }
  split; [done|]. split; [|split].
  - assert (Hsrc' : chat_completion_source
                       (onChatCompletionSettingsReady s data) = "custom")
      by (by rewrite Hrun).
    rewrite (onChatCompletionSettingsReady_custom s a ac _ Hsrc' E).
    rewrite Hbody, Hsrc'. by rewrite Hrun, Hsrc.
  - intros s' data'. unfold onChatCompletionSettingsReady.
    destruct (negb _); [done|]. by destruct (findActive s') as [[? ?]|].
  - intros s' data' Hother. unfold onChatCompletionSettingsReady.
    by destruct (String.eqb_spec (chat_completion_source data') "custom").
Qed.

End RequestAgain.

(** ** Start and restart *)

Section StartAndRestart.
Context {B : Builtins}.

(** X2.  [init] on a first start, with no namespace or with one written before
    collections existed, leaves the single collection Default, active, with no
    sliders and no preset bindings, renders the configuration and requests the
    save.  On stored settings that have an active collection a restart is a
    render of those settings: no collection is added, removed, renamed,
    activated or rebound.  Whatever was stored, the settings after [init] have
    a collection and an active one, and the save is requested last. *)
Theorem init_starts_or_restarts host :
  init host NamespaceAbsent
  = (defaultSettings, [RenderSliderConfigs; SaveSettingsDebounced])
  /\ init host CollectionsUndefined
     = (defaultSettings, [RenderSliderConfigs; SaveSettingsDebounced])
  /\ (forall s,
        is_Some (findActive s) ->
        (init host (NamespacePresent s)).1
        = (renderCompletionSliders host s).1.1
        /\ sameFrame s (init host (NamespacePresent s)).1)
  /\ (forall g,
        collections (init host g).1 <> []
        /\ 1 <= activeCount (collections (init host g).1)
        /\ last (init host g).2 = Some SaveSettingsDebounced).
Proof.
  assert (Hfirst : (renderSliderConfigs host >>> emit SaveSettingsDebounced)
                     defaultSettings
                   = (defaultSettings,
                      [RenderSliderConfigs; SaveSettingsDebounced])).
  { unfold andThen, renderSliderConfigs, renderCompletionSliders. simpl.
    by destruct (negb (container_available host)). }
  split; [done|]. split; [done|]. split.
  - intros s [[a ac] E]. unfold init. rewrite andThen_settings. cbn [emit fst].
    rewrite (findActive_getSettings _ _ _ E), renderSliderConfigs_settings.
    rewrite renderCompletionSliders_settings. split; [done|].
    apply synced_frame.
  - intros g. unfold init. rewrite andThen_settings. cbn [emit fst].
    rewrite renderSliderConfigs_settings.
    destruct (getSettings_healthy g) as [Hne Hact].
    pose proof (synced_frame host (getSettings g)) as Hf.
    split; [by eapply sameFrame_nonempty|]. split.
    + by rewrite (activeCount_frame _ _ Hf).
    + apply last_effect_saves.
Qed.
End StartAndRestart.

Lemma request_handler_is_idempotent_witness :
  onChatCompletionSettingsReady (B := referenceBuiltins) (tempSettings true)
    (onChatCompletionSettingsReady (B := referenceBuiltins) (tempSettings true)
       (customRequest ""))
  = onChatCompletionSettingsReady (B := referenceBuiltins) (tempSettings true)
      (customRequest "").
Proof.
  exact (proj1 (proj2 (request_handler_is_idempotent (B := referenceBuiltins)
                         (tempSettings true) 0 _ (customRequest "")
                         eq_refl eq_refl eq_refl eq_refl eq_refl))).
Defined.

(** ** The ids a live control takes *)

Section TakenIds.
Context {B : Builtins}.

Lemma property_clampValue x :
  SliderModel.property (clampValue x) = SliderModel.property x.
Proof. by rewrite clampValue_clamped. Qed.

(** A slider that is not skipped and whose id is in the document when the
    loop starts is reported as a duplicate. *)
Lemma renderSliders_reports_taken host ids l y :
  y ∈ l -> skipped y = false -> sliderId y ∈ ids ->
  Toast ToastWarning
    ("Duplicate slider property name: " +:+ SliderModel.property y)
  ∈ (renderSliders host ids l).2.
Proof.
  revert ids. induction l as [|s l IH]; intros ids Hy Hs Hid.
  { by apply elem_of_nil in Hy. }
  apply elem_of_cons in Hy as [<-|Hy].
  - simpl. rewrite Hs, sliderId_clampValue, bool_decide_true by done.
    destruct (renderSliders host ids l) as [[l' cs] fx]. simpl.
    rewrite property_clampValue. by left.
  - simpl. destruct (skipped s).
    + specialize (IH ids Hy Hs Hid).
      by destruct (renderSliders host ids l) as [[l' cs] fx].
    + case_bool_decide.
      * specialize (IH ids Hy Hs Hid).
        destruct (renderSliders host ids l) as [[l' cs] fx]. simpl in *.
        by right.
      * match goal with |- context [renderSliders host ?i l] =>
          specialize (IH i Hy Hs) end.
        match goal with |- context [renderSliders host ?i l] =>
          destruct (renderSliders host i l) as [[l' cs] fx] end.
        simpl in *. apply IH. apply elem_of_app. by left.
Qed.

(** X30.  A live control takes two ids, that of its range input and, with
    [_number] appended, that of its number input.  Once a slider got its
    control, no later slider of the loop gets a control under either id, and
    every later slider that is not skipped and whose id is one of the two is
    reported as a duplicate property: a slider cannot be shown after one
    whose id is its own id without the ending [_number]. *)
Theorem live_control_takes_two_ids host ids x l :
  skipped x = false ->
  (sliderId x ∉ ids) ->
  exists l' cs fx,
    renderSliders host ids (x :: l)
    = (clampValue x :: l', controlOf host (clampValue x) :: cs, fx)
    /\ Forall (fun c => control_id c <> sliderId x
                        /\ control_id c <> sliderId x +:+ "_number") cs
    /\ (forall y,
          y ∈ l -> skipped y = false ->
          sliderId y = sliderId x \/ sliderId y = sliderId x +:+ "_number" ->
          Toast ToastWarning
            ("Duplicate slider property name: " +:+ SliderModel.property y)
          ∈ fx).
Proof.
  intros Hs Hid. simpl. rewrite Hs, sliderId_clampValue.
  rewrite bool_decide_false by done.
  set (ids' := ids ++ [sliderId x; sliderId x +:+ "_number"]).
  pose proof (renderSliders_ids host ids' l) as (_ & Htaken & _).
  assert (Hrep : forall y,
            y ∈ l -> skipped y = false -> sliderId y ∈ ids' ->
            Toast ToastWarning
              ("Duplicate slider property name: " +:+ SliderModel.property y)
            ∈ (renderSliders host ids' l).2)
    by (intros y; apply renderSliders_reports_taken).
  destruct (renderSliders host ids' l) as [[l' cs] fx]. simpl in *.
  exists l', cs, fx. split; [done|]. split.
  - eapply Forall_impl; [exact Htaken|]. intros c Hc. split.
    + intros E. apply Hc. unfold ids'. apply elem_of_app. right.
      rewrite E. by left.
    + intros E. apply Hc. unfold ids'. apply elem_of_app. right.
      rewrite E. right. by left.
  - intros y Hy Hsy Hsame. apply (Hrep y Hy Hsy). unfold ids'.
    apply elem_of_app. right. destruct Hsame as [-> | ->]; [by left|].
    right. by left.
Qed.
End TakenIds.

Lemma live_control_takes_two_ids_witness :
  exists l' cs fx,
    renderSliders (B := referenceBuiltins) examplePage []
      [SliderModel.mk "Top K" "top_k" "0" "100" "1" 40 true;
       SliderModel.mk "Shadowed" "top_k_number" "0" "1" "0.1" 0.5 true]
    = (SliderModel.mk "Top K" "top_k" "0" "100" "1" 40 true :: l',
       controlOf (B := referenceBuiltins) examplePage
                 (SliderModel.mk "Top K" "top_k" "0" "100" "1" 40 true)
       :: cs, fx)
    /\ cs = []
    /\ Toast ToastWarning "Duplicate slider property name: top_k_number" ∈ fx.
Proof.
  destruct (live_control_takes_two_ids (B := referenceBuiltins) examplePage []
              (SliderModel.mk "Top K" "top_k" "0" "100" "1" 40 true)
              [SliderModel.mk "Shadowed" "top_k_number" "0" "1" "0.1" 0.5 true]
              eq_refl)
    as (l' & cs & fx & Hrun & _ & Hrep).
  { apply not_elem_of_nil. }
  exists l', cs, fx. split; [exact Hrun|]. split.
  - assert (Hcs : (renderSliders (B := referenceBuiltins) examplePage []
                     [SliderModel.mk "Top K" "top_k" "0" "100" "1" 40 true;
                      SliderModel.mk "Shadowed" "top_k_number" "0" "1" "0.1"
                                     0.5 true]).1.2
                  = [controlOf (B := referenceBuiltins) examplePage
                       (SliderModel.mk "Top K" "top_k" "0" "100" "1" 40 true)])
      by (vm_compute; reflexivity).
    rewrite Hrun in Hcs. simpl in Hcs. by injection Hcs as ->.
  - apply (Hrep (SliderModel.mk "Shadowed" "top_k_number" "0" "1" "0.1" 0.5
                                true)).
    + by left.
    + reflexivity.
    + right. vm_compute. reflexivity.
Defined.
